(** * SimpleDB: a relational-algebra evaluator over in-memory relations

    A shallow embedding of the two [SimpleDB] classes of the repository
    ([Project 1/Fileread.py] and [Project 1/newonetest.py]) together with the
    properties of their operators.

    Conventions of the embedding.
    - A Python [str] is a [string]; a character is a code point below 256.
    - A Python exception is a value of [exn]; a method that may raise
      returns a [result].
    - [self.relations] (a dict, iterated in insertion order) is an
      association list whose keys are pairwise distinct.
    - [float(...)] and the comparison of two floats are parameters
      ([PyFloat]); no property below depends on how a literal is rounded.
    - Console output ([print]) is not modelled. *)

From stdpp Require Import gmap strings list.
From Stdlib Require Import Ascii String Lia ZArith.

Local Open Scope string_scope.
Local Open Scope list_scope.

(** ** Python string primitives *)

Module Py.

(** [str.isspace] on one character, for code points below 256. *)
Definition is_space (c : ascii) : bool :=
  let n := nat_of_ascii c in
  (((9 <=? n) && (n <=? 13)) || ((28 <=? n) && (n <=? 32))
   || (n =? 133) || (n =? 160))%nat.

(** [s.lstrip()], [s.rstrip()], [s.strip()]. *)
Fixpoint lstrip (s : string) : string :=
  match s with
  | String c s' => if is_space c then lstrip s' else s
  | EmptyString => EmptyString
  end.

Fixpoint rstrip (s : string) : string :=
  match s with
  | EmptyString => EmptyString
  | String c s' =>
      match rstrip s' with
      | EmptyString => if is_space c then EmptyString else String c EmptyString
      | r => String c r
      end
  end.

Definition strip (s : string) : string := lstrip (rstrip s).

(** [s.strip(chars)]: removes leading and trailing characters that occur
    in [chars]. *)
Fixpoint mem_char (c : ascii) (chars : string) : bool :=
  match chars with
  | EmptyString => false
  | String d r => Ascii.eqb c d || mem_char c r
  end.

Fixpoint lstrip_chars (chars s : string) : string :=
  match s with
  | String c s' => if mem_char c chars then lstrip_chars chars s' else s
  | EmptyString => EmptyString
  end.

Fixpoint rstrip_chars (chars s : string) : string :=
  match s with
  | EmptyString => EmptyString
  | String c s' =>
      match rstrip_chars chars s' with
      | EmptyString => if mem_char c chars then EmptyString else String c EmptyString
      | r => String c r
      end
  end.

Definition strip_chars (chars s : string) : string :=
  lstrip_chars chars (rstrip_chars chars s).

(** [s.startswith(p)], [s.endswith(p)], [sub in s]. *)
Definition startswith (p s : string) : bool := String.prefix p s.

Fixpoint contains (sub s : string) : bool :=
  match s with
  | EmptyString => String.prefix sub EmptyString
  | String _ s' => String.prefix sub s || contains sub s'
  end.

Fixpoint endswith (p s : string) : bool :=
  match s with
  | EmptyString => String.eqb p EmptyString
  | String _ s' => String.eqb p s || endswith p s'
  end.

(** The first piece of a split grows by one character. *)
Definition cons_hd (c : ascii) (l : list string) : list string :=
  match l with
  | [] => [String c EmptyString]
  | p :: ps => String c p :: ps
  end.

(** [s.split(sep)] for a non-empty [sep]: the pieces between the
    non-overlapping occurrences of [sep], found left to right. [skip]
    counts the characters of a matched separator still to be dropped. *)
Fixpoint split_go (sep : string) (skip : nat) (s : string) : list string :=
  match s with
  | EmptyString => [EmptyString]
  | String c s' =>
      match skip with
      | S k => split_go sep k s'
      | O =>
          if String.prefix sep s
          then EmptyString :: split_go sep (String.length sep - 1) s'
          else cons_hd c (split_go sep 0 s')
      end
  end.

Definition split_on (sep s : string) : list string := split_go sep 0 s.

(** [s[n:]]. *)
Fixpoint drop_str (n : nat) (s : string) : string :=
  match n, s with
  | S k, String _ s' => drop_str k s'
  | _, _ => s
  end.

(** [s.split(sep, 1)]: at most one split, at the first occurrence. *)
Fixpoint split_once (sep s : string) : list string :=
  match s with
  | EmptyString => [EmptyString]
  | String c s' =>
      if String.prefix sep s
      then [EmptyString; drop_str (String.length sep) s]
      else cons_hd c (split_once sep s')
  end.

(** [s.split()]: the maximal runs of non-space characters. *)
Fixpoint words (s : string) : list string :=
  match s with
  | EmptyString => []
  | String c s' =>
      if is_space c then words s'
      else match s' with
           | EmptyString => [String c EmptyString]
           | String d _ =>
               if is_space d then String c EmptyString :: words s'
               else cons_hd c (words s')
           end
  end.

(** [s[1:-1]]. *)
Fixpoint drop_last (s : string) : string :=
  match s with
  | EmptyString => EmptyString
  | String c EmptyString => EmptyString
  | String c s' => String c (drop_last s')
  end.

Definition slice_1_m1 (s : string) : string := drop_last (drop_str 1 s).

(** [l[-1]] and [l[0]] of a list of pieces; a split is never empty, so the
    default is not reached there. *)
Definition last_piece (l : list string) : string := List.last l EmptyString.
Definition first_piece (l : list string) : string := List.hd EmptyString l.

(** [sep.join(l)]. *)
Fixpoint join (sep : string) (l : list string) : string :=
  match l with
  | [] => EmptyString
  | [x] => x
  | x :: r => x +:+ sep +:+ join sep r
  end.

(** [bool(s)]: a string is true when it is not empty. *)
Definition truthy (s : string) : bool :=
  match s with EmptyString => false | _ => true end.

End Py.

(** ** Data model *)

(** A row is a list of text values; a relation is the dict
    [{'attributes': ..., 'data': ...}] built by [load_relations]. *)
Definition row := list string.

Record relation := mk_relation { attributes : list string; data : list row }.

(** [self.relations], in insertion order. *)
Definition store := list (string * relation).

(** [self.relations[name]] when [name in self.relations]. *)
Fixpoint find_relation (relations : store) (name : string) : option relation :=
  match relations with
  | [] => None
  | (n, rel) :: rest => if String.eqb n name then Some rel else find_relation rest name
  end.

(** [l.index(x)]: the first position of [x]; [None] when [x not in l]. *)
Fixpoint index_of (x : string) (l : list string) : option nat :=
  match l with
  | [] => None
  | y :: r => if String.eqb y x then Some 0 else option_map S (index_of x r)
  end.

(** The exceptions the two classes can raise. *)
Inductive exn :=
| ValueError (msg : string)       (* [raise ValueError(msg)] written in the source *)
| UnpackError (expected got : nat) (* [a, b, c = l] with [len(l) <> 3] *)
| FloatError (s : string)         (* [float(s)] on a string that is no number *)
| IndexError                      (* [l[i]] out of range *)
| AttributeError (method : string) (* call of a method the class does not define *)
| TypeError (method : string).    (* call with the wrong number of arguments *)

Inductive result (A : Type) :=
| Ok (a : A)
| Raise (e : exn).
Arguments Ok {A} a.
Arguments Raise {A} e.

Definition bind {A B} (m : result A) (k : A -> result B) : result B :=
  match m with
  | Ok a => k a
  | Raise e => Raise e
  end.

Notation "'let!' x ':=' m 'in' k" := (bind m (fun x => k))
  (at level 10, x name, m at level 100, k at level 200).

(** A list comprehension [[x for x in l if p(x)]] whose test may raise. *)
Fixpoint filterM {A} (p : A -> result bool) (l : list A) : result (list A) :=
  match l with
  | [] => Ok []
  | x :: r =>
      let! b := p x in
      let! r' := filterM p r in
      Ok (if b then x :: r' else r')
  end.

(** A list comprehension [[f(x) for x in l]] whose body may raise. *)
Fixpoint mapM {A B} (f : A -> result B) (l : list A) : result (list B) :=
  match l with
  | [] => Ok []
  | x :: r =>
      let! y := f x in
      let! r' := mapM f r in
      Ok (y :: r')
  end.

(** [l[i]] for [i >= 0]. *)
Definition item {A} (l : list A) (i : nat) : result A :=
  match nth_error l i with
  | Some x => Ok x
  | None => Raise IndexError
  end.

(** What a query evaluates to: [None] or a list of rows. *)
Inductive value :=
| PyNone
| Rows (rows : list row).

(** What is stored with a query line in [results]: the value of the
    query, or the text [f"Error: {str(e)}"]. *)
Inductive outcome :=
| Value (v : value)
| ErrorText (e : exn).

(** [float(s)] and the order of two floats. *)
Class PyFloat := {
  float_val : Type;
  float : string -> option float_val;
  float_gt : float_val -> float_val -> bool;
  float_lt : float_val -> float_val -> bool
}.

Definition to_float `{PyFloat} (s : string) : result float_val :=
  match float s with
  | Some x => Ok x
  | None => Raise (FloatError s)
  end.

(** The rows the report writer emits for [results]: the query text, the
    rows of a list result, and an empty row. *)
Definition report_entry (e : string * outcome) : list row :=
  [fst e] ::
  match snd e with
  | Value (Rows rows) => rows
  | _ => []
  end ++ [[]].

Definition report (results : list (string * outcome)) : list row :=
  flat_map report_entry results.

(** ** [Project 1/Fileread.py] *)

Module Fileread.
Section SimpleDB.

Context {PF : PyFloat}.

(** [self.relations], read-only once loaded. *)
Variable relations : store.

(** [query.split('(')[-1].split(')')[0].strip()]: the operand text of
    [selection], [projection], [crossproduct] and [union]. *)
Definition operand (query : string) : string :=
  Py.strip (Py.first_piece (Py.split_on ")" (Py.last_piece (Py.split_on "(" query)))).

(** [query.split('{')[1].split('}')[0].strip()]. *)
Definition payload (query : string) : result string :=
  let! inner := item (Py.split_on "{" query) 1 in
  Ok (Py.strip (Py.first_piece (Py.split_on "}" inner))).

Definition get_relation_data (relation_name : string) : result relation :=
  match find_relation relations relation_name with
  | Some rel => Ok rel
  | None => Raise (ValueError ("Relation '" +:+ relation_name +:+ "' not found."))
  end.

(** The loop of [get_attribute_index] over [self.relations.values()]. *)
Fixpoint get_attribute_index_from (rels : store) (attr : string) : result nat :=
  match rels with
  | [] => Raise (ValueError ("Attribute '" +:+ attr +:+ "' not found in any relation."))
  | (_, relation) :: rest =>
      match index_of attr (attributes relation) with
      | Some i => Ok i
      | None => get_attribute_index_from rest attr
      end
  end.

Definition get_attribute_index (attr : string) : result nat :=
  get_attribute_index_from relations attr.

Definition evaluate_condition (value operator condition_value : string) : result bool :=
  if String.eqb operator ">" then
    let! a := to_float value in
    let! b := to_float condition_value in
    Ok (float_gt a b)
  else if String.eqb operator "<" then
    let! a := to_float value in
    let! b := to_float condition_value in
    Ok (float_lt a b)
  else if String.eqb operator "=" then
    Ok (String.eqb value condition_value)
  else Ok false.

Definition parse_conditions (condition_str : string) : list string :=
  if Py.contains "AND" condition_str then
    map Py.strip (Py.split_on "AND" condition_str)
  else if Py.contains "OR" condition_str then
    map Py.strip (Py.split_on "OR" condition_str)
  else [condition_str].

(** One turn of the loop of [evaluate_conditions] on a non-empty
    condition. *)
Definition evaluate_one (row : row) (condition : string) : result bool :=
  match Py.words condition with
  | [attr; operator; value] =>
      let value := Py.strip_chars "'" value in
      let! col_index := get_attribute_index attr in
      let! cell := item row col_index in
      evaluate_condition cell operator value
  | ws => Raise (UnpackError 3 (List.length ws))
  end.

(** The list [results] built by the loop of [evaluate_conditions]. *)
Fixpoint condition_results (row : row) (conditions : list string) : result (list bool) :=
  match conditions with
  | [] => Ok []
  | condition :: rest =>
      if Py.truthy condition then
        let! b := evaluate_one row condition in
        let! bs := condition_results row rest in
        Ok (b :: bs)
      else condition_results row rest
  end.

Definition evaluate_conditions (row : row) (conditions : list string) : result bool :=
  let! results := condition_results row conditions in
  Ok (forallb id results).

Definition selection (query : string) : result (list row) :=
  let relation_name := operand query in
  let! condition := payload query in
  match find_relation relations relation_name with
  | None => Raise (ValueError ("Relation '" +:+ relation_name +:+ "' not found."))
  | Some rel =>
      let conditions := parse_conditions condition in
      let! filtered_data :=
        filterM (fun row => evaluate_conditions row conditions) (data rel) in
      Ok (attributes rel :: filtered_data)
  end.

Definition crossproduct (query : string) : result (list row) :=
  match Py.split_on "*" (operand query) with
  | [l; r] =>
      let! left_relation := get_relation_data (Py.strip l) in
      let! right_relation := get_relation_data (Py.strip r) in
      let combined_data :=
        flat_map (fun left_row => map (fun right_row => left_row ++ right_row)
                                      (data right_relation))
                 (data left_relation) in
      let combined_attributes := attributes left_relation ++ attributes right_relation in
      Ok (combined_attributes :: combined_data)
  | _ => Raise (ValueError "Cross product requires exactly two relations.")
  end.

(** The loop of [projection] that resolves the requested attributes. *)
Fixpoint col_indices (relation_query : string) (rel_attributes attrs : list string)
  : result (list nat) :=
  match attrs with
  | [] => Ok []
  | attr :: rest =>
      match index_of attr rel_attributes with
      | None => Raise (ValueError ("Attribute '" +:+ attr +:+ "' not found in relation '"
                                   +:+ relation_query +:+ "'."))
      | Some i =>
          let! others := col_indices relation_query rel_attributes rest in
          Ok (i :: others)
      end
  end.

Definition projection (query : string) : result (list row) :=
  let relation_query := operand query in
  let! inner := payload query in
  let attrs := map Py.strip (Py.split_on "," inner) in
  let! source :=
    if Py.contains "*" relation_query then
      let! relation_data := crossproduct relation_query in
      let! rel_attributes := item relation_data 0 in
      Ok (rel_attributes, tl relation_data)
    else
      let relation_name := Py.strip relation_query in
      match find_relation relations relation_name with
      | None => Raise (ValueError ("Relation '" +:+ relation_name +:+ "' not found."))
      | Some rel => Ok (attributes rel, data rel)
      end in
  let! indices := col_indices relation_query (fst source) attrs in
  let! projected_data :=
    mapM (fun row : row => mapM (fun i => item row i) indices) (snd source) in
  Ok (attrs :: projected_data).

(** [list(map(list, set(map(tuple, rows))))]: the distinct rows. A Python
    set iterates in an order that depends on the hashes of its members;
    here the order is that of [elements], and the properties below use
    only that the list has no repetition and has the members of the
    set. *)
Definition distinct (rows : list row) : list row :=
  elements (list_to_set rows : gset row).

Definition union (query : string) : result (list row) :=
  match Py.split_on "U" (operand query) with
  | [l; r] =>
      let! left_relation := get_relation_data (Py.strip l) in
      let! right_relation := get_relation_data (Py.strip r) in
      if bool_decide (attributes left_relation = attributes right_relation) then
        let combined_data := data left_relation ++ data right_relation in
        Ok (attributes left_relation :: distinct combined_data)
      else Raise (ValueError "Union requires both relations to have the same attributes.")
  | _ => Raise (ValueError "Union requires exactly two relations.")
  end.

(** [difference] once both subqueries are evaluated: the test for empty
    operands, the column check and the set difference. *)
Definition difference_of (left_relation right_relation : value) : result value :=
  match left_relation, right_relation with
  | Rows (left_header :: left_rows), Rows (right_header :: right_rows) =>
      if negb (List.length left_header =? List.length right_header)%nat then
        Raise (ValueError "The two relations must have the same number of columns for the difference operation.")
      else
        let difference_data :=
          elements ((list_to_set left_rows : gset row) ∖ list_to_set right_rows) in
        match difference_data with
        | _ :: _ => Ok (Rows (left_header :: difference_data))
        | [] => Ok (Rows [left_header])
        end
  | _, _ => Ok PyNone
  end.

(** The result of a call that swallows every exception. *)
Definition or_none (r : result value) : value :=
  match r with
  | Ok v => v
  | Raise _ => PyNone
  end.

(** [evaluate_query], given the method [difference] it dispatches to. An
    evaluation returns [None : option _] only when [difference] does. *)
Definition evaluate_query_with (difference : string -> option (result value))
    (query : string) : option value :=
  let query := Py.strip query in
  if Py.startswith "SELE" query then Some (or_none (let! r := selection query in Ok (Rows r)))
  else if Py.startswith "PROJ" query then Some (or_none (let! r := projection query in Ok (Rows r)))
  else if Py.startswith "X" query then Some (or_none (let! r := crossproduct query in Ok (Rows r)))
  else if Py.startswith "JOIN" query then Some (or_none (Raise (AttributeError "join")))
  else if Py.startswith "*" query then Some (or_none (Raise (AttributeError "naturaljoin")))
  else if Py.startswith "U" query then Some (or_none (let! r := union query in Ok (Rows r)))
  else if Py.startswith "-" query then option_map or_none (difference query)
  else Some PyNone.

(** [difference] and [evaluate_query] call each other; [fuel] bounds the
    depth of the calls, and [None : option _] means it was used up. *)
Fixpoint difference (fuel : nat) (query : string) : option (result value) :=
  match fuel with
  | O => None
  | S fuel' =>
      match Py.split_on ") - (" query with
      | [l; r] =>
          let left_query := Py.strip l +:+ ")" in
          let right_query := "(" +:+ Py.strip r in
          match evaluate_query_with (difference fuel') left_query with
          | None => None
          | Some left_relation =>
              match evaluate_query_with (difference fuel') right_query with
              | None => None
              | Some right_relation => Some (difference_of left_relation right_relation)
              end
          end
      | _ => Some (Raise (ValueError "Invalid difference query format"))
      end
  end.

Definition evaluate_query (fuel : nat) (query : string) : option value :=
  evaluate_query_with (difference fuel) query.

(** The body of the [try] in [process_queries_from_file] for one stripped
    line. *)
Definition run_query (fuel : nat) (query : string) : option (result value) :=
  if Py.startswith "SELE" query then Some (let! r := selection query in Ok (Rows r))
  else if Py.startswith "PROJ" query then Some (let! r := projection query in Ok (Rows r))
  else if Py.startswith "X" query then Some (let! r := crossproduct query in Ok (Rows r))
  else if Py.startswith "JOIN" query then Some (Raise (AttributeError "join"))
  else if Py.startswith "*" query then Some (Raise (AttributeError "naturaljoin"))
  else if Py.startswith "U" query then Some (let! r := union query in Ok (Rows r))
  else if Py.startswith "-" query then difference fuel query
  else if Py.startswith "," query then Some (Raise (AttributeError "AND"))
  else if Py.startswith "OR" query then Some (Raise (AttributeError "OR"))
  else Some (Ok PyNone).

(** The entry appended to [results] for one line. *)
Definition outcome_of (r : result value) : outcome :=
  match r with
  | Ok v => Value v
  | Raise e => ErrorText e
  end.

(** The loop of [process_queries_from_file] over the lines read from the
    query file; the list [results] it builds. *)
Fixpoint process_queries (fuel : nat) (queries : list string)
  : option (list (string * outcome)) :=
  match queries with
  | [] => Some []
  | query :: rest =>
      let query := Py.strip query in
      match run_query fuel query with
      | None => None
      | Some r =>
          match process_queries fuel rest with
          | None => None
          | Some results => Some ((query, outcome_of r) :: results)
          end
      end
  end.

(** What [process_queries_from_file] writes to the output file. *)
Definition process_queries_from_file (fuel : nat) (queries : list string)
  : option (list row) :=
  option_map report (process_queries fuel queries).

End SimpleDB.
End Fileread.

(** ** [Project 1/newonetest.py] *)

Module Newonetest.
Section SimpleDB.

Context {PF : PyFloat}.

Variable relations : store.

Definition operand (query : string) : string :=
  Py.strip (Py.first_piece (Py.split_on ")" (Py.last_piece (Py.split_on "(" query)))).

Definition payload (query : string) : result string :=
  let! inner := item (Py.split_on "{" query) 1 in
  Ok (Py.strip (Py.first_piece (Py.split_on "}" inner))).

Definition evaluate_condition (value operator condition_value : string) : result bool :=
  if String.eqb operator ">" then
    let! a := to_float value in
    let! b := to_float condition_value in
    Ok (float_gt a b)
  else if String.eqb operator "<" then
    let! a := to_float value in
    let! b := to_float condition_value in
    Ok (float_lt a b)
  else if String.eqb operator "=" then
    Ok (String.eqb value condition_value)
  else Ok false.

(** This [selection] returns the kept rows without a header row. *)
Definition selection (query : string) : result (list row) :=
  let relation_name := operand query in
  let! condition := payload query in
  match find_relation relations relation_name with
  | None => Raise (ValueError ("Relation '" +:+ relation_name +:+ "' not found."))
  | Some rel =>
      match Py.words condition with
      | [attr; operator; value] =>
          let value := Py.strip_chars "'" value in
          match index_of attr (attributes rel) with
          | None => Raise (ValueError ("Attribute '" +:+ attr +:+ "' not found in relation '"
                                       +:+ relation_name +:+ "'."))
          | Some col_index =>
              filterM (fun row : row =>
                         let! cell := item row col_index in
                         evaluate_condition cell operator value)
                      (data rel)
          end
      | ws => Raise (UnpackError 3 (List.length ws))
      end
  end.

Fixpoint col_indices (relation_name : string) (rel_attributes attrs : list string)
  : result (list nat) :=
  match attrs with
  | [] => Ok []
  | attr :: rest =>
      match index_of attr rel_attributes with
      | None => Raise (ValueError ("Attribute '" +:+ attr +:+ "' not found in relation '"
                                   +:+ relation_name +:+ "'."))
      | Some i =>
          let! others := col_indices relation_name rel_attributes rest in
          Ok (i :: others)
      end
  end.

Definition projection (query : string) : result (list row) :=
  let relation_name := operand query in
  let! inner := payload query in
  let attrs := map Py.strip (Py.split_on "," inner) in
  match find_relation relations relation_name with
  | None => Raise (ValueError ("Relation '" +:+ relation_name +:+ "' not found."))
  | Some rel =>
      let! indices := col_indices relation_name (attributes rel) attrs in
      mapM (fun row : row => mapM (fun i => item row i) indices) (data rel)
  end.

(** [left, right = query.split(sep, 1)] followed by the two [strip]s, as
    in [parse_union_query] and [parse_difference_query]. *)
Definition split_pair (sep query : string) : result (string * string) :=
  match Py.split_once sep query with
  | [l; r] => Ok (Py.strip l, Py.strip r)
  | ws => Raise (UnpackError 2 (List.length ws))
  end.

Definition parse_union_query (query : string) : result (string * string) :=
  split_pair "U" query.

Definition parse_difference_query (query : string) : result (string * string) :=
  split_pair "-" query.

(** [row in rows]. *)
Definition row_in (r : row) (rows : list row) : bool := bool_decide (r ∈ rows).

(** [union], given the method [execute_query] it calls on both operands. *)
Definition union_with (execute_query : string -> option (result (list row)))
    (left_query right_query : string) : option (result (list row)) :=
  match execute_query left_query with
  | None => None
  | Some (Raise e) => Some (Raise e)
  | Some (Ok left_result) =>
      match execute_query right_query with
      | None => None
      | Some (Raise e) => Some (Raise e)
      | Some (Ok right_result) =>
          Some (Ok (left_result
                    ++ List.filter (fun row => negb (row_in row left_result)) right_result))
      end
  end.

(** [execute_query] and [union] call each other; [fuel] bounds the depth
    of the calls, and [None : option _] means it was used up. *)
Fixpoint execute_query (fuel : nat) (query : string) : option (result (list row)) :=
  match fuel with
  | O => None
  | S fuel' =>
      let query :=
        if Py.startswith "(" query && Py.endswith ")" query
        then Py.strip (Py.slice_1_m1 query) else query in
      if Py.contains "U" query then
        match parse_union_query query with
        | Raise e => Some (Raise e)
        | Ok (left_query, right_query) =>
            union_with (execute_query fuel') left_query right_query
        end
      else if Py.contains "-" query then
        match parse_difference_query query with
        | Raise e => Some (Raise e)
        | Ok _ => Some (Raise (TypeError "difference"))
        end
      else if Py.startswith "SELE" query then Some (selection query)
      else if Py.startswith "PROJ" query then Some (projection query)
      else if Py.startswith "X" query then Some (Raise (AttributeError "crossproduct"))
      else Some (Ok [])
  end.

Definition union (fuel : nat) (left_query right_query : string)
  : option (result (list row)) :=
  union_with (execute_query fuel) left_query right_query.

(** [process_single_query], given the method [difference] it dispatches
    to. *)
Definition process_single_query_with (difference : string -> option (result value))
    (query : string) : option (result value) :=
  let query := Py.strip query in
  if Py.startswith "SELE" query then Some (let! r := selection query in Ok (Rows r))
  else if Py.startswith "PROJ" query then Some (let! r := projection query in Ok (Rows r))
  else if Py.startswith "X" query then Some (Raise (AttributeError "crossproduct"))
  else if Py.startswith "JOIN" query then Some (Raise (AttributeError "join"))
  else if Py.startswith "*" query then Some (Raise (AttributeError "naturaljoin"))
  else if Py.startswith "U" query then Some (Raise (TypeError "union"))
  else if Py.startswith "-" query then difference query
  else Some (Ok PyNone).

(** [difference] once both operands are evaluated. The first row of each
    result is taken as its header. *)
Definition difference_of (left_result right_result : value) : result value :=
  match left_result, right_result with
  | Rows left_rows, Rows right_rows =>
      let! left_header := item left_rows 0 in
      let! right_header := item right_rows 0 in
      if bool_decide (left_header = right_header) then
        let difference_set :=
          (list_to_set (tl left_rows) : gset row) ∖ list_to_set (tl right_rows) in
        Ok (Rows (left_header :: elements difference_set))
      else Raise (ValueError "Headers do not match for the difference operation.")
  | _, _ => Ok PyNone
  end.

(** The method [difference(self, query)]; no caller inside the class
    passes it one argument, the batch driver passes two. *)
Fixpoint difference (fuel : nat) (query : string) : option (result value) :=
  match fuel with
  | O => None
  | S fuel' =>
      match Py.split_on "-" query with
      | [left_query; right_query] =>
          match process_single_query_with (difference fuel') (Py.strip left_query) with
          | None => None
          | Some (Raise e) => Some (Raise e)
          | Some (Ok left_result) =>
              match process_single_query_with (difference fuel') (Py.strip right_query) with
              | None => None
              | Some (Raise e) => Some (Raise e)
              | Some (Ok right_result) => Some (difference_of left_result right_result)
              end
          end
      | ws => Some (Raise (UnpackError 2 (List.length ws)))
      end
  end.

Definition process_single_query (fuel : nat) (query : string) : option (result value) :=
  process_single_query_with (difference fuel) query.

Definition outcome_of (r : result (list row)) : outcome :=
  match r with
  | Ok rows => Value (Rows rows)
  | Raise e => ErrorText e
  end.

(** The loop of [process_queries_from_file]; the list [results]. *)
Fixpoint process_queries (fuel : nat) (queries : list string)
  : option (list (string * outcome)) :=
  match queries with
  | [] => Some []
  | query :: rest =>
      let query := Py.strip query in
      match execute_query fuel query with
      | None => None
      | Some r =>
          match process_queries fuel rest with
          | None => None
          | Some results => Some ((query, outcome_of r) :: results)
          end
      end
  end.

Definition process_queries_from_file (fuel : nat) (queries : list string)
  : option (list row) :=
  option_map report (process_queries fuel queries).

End SimpleDB.
End Newonetest.

(** ** A float model for worked examples

    Decimal integer literals of at most fifteen digits, with an optional
    sign. [float] is exact on them, so the order of the floats is the order
    of the integers. Every other string is left outside the model. *)

Module IntFloat.

Definition digit (c : ascii) : option Z :=
  let n := nat_of_ascii c in
  if ((48 <=? n) && (n <=? 57))%nat then Some (Z.of_nat (n - 48)) else None.

Fixpoint digits (acc : Z) (s : string) : option Z :=
  match s with
  | EmptyString => Some acc
  | String c s' =>
      match digit c with
      | Some d => digits (10 * acc + d)%Z s'
      | None => None
      end
  end.

Definition literal (s : string) : option Z :=
  if (String.length s <=? 15)%nat then
    match s with
    | EmptyString => None
    | String "-" (String _ _ as s') => option_map Z.opp (digits 0%Z s')
    | _ => digits 0%Z s
    end
  else None.

Definition model : PyFloat :=
  {| float_val := Z; float := literal; float_gt := Z.gtb; float_lt := Z.ltb |}.

End IntFloat.

(** ** Vocabulary of the specification *)

(** A row of the relation [rel] satisfies the predicate
    [(attr, operator, literal)]: the cell in the column that [attr] has in
    [rel] compares true with the literal. *)
Definition row_satisfies `{PyFloat} (rel : relation) (r : row)
    (attr operator literal : string) : Prop :=
  exists i cell,
    index_of attr (attributes rel) = Some i
    /\ nth_error r i = Some cell
    /\ Fileread.evaluate_condition cell operator literal = Ok true.

(** The comparison the specification gives for a cell and a literal:
    [>] and [<] on the floats of both sides, [=] on the two texts. No
    other operator compares true. *)
Definition compares `{PyFloat} (cell operator literal : string) : Prop :=
  (operator = ">"
   /\ exists a b, float cell = Some a /\ float literal = Some b /\ float_gt a b = true)
  \/ (operator = "<"
      /\ exists a b, float cell = Some a /\ float literal = Some b /\ float_lt a b = true)
  \/ (operator = "=" /\ cell = literal).

(** The predicate written [p] holds for the row [r] of the relation
    [rel]: [p] is three tokens, an attribute of [rel], an operator and a
    literal between quotes, and the cell of [r] in the column the
    attribute has in [rel] compares true with the literal. *)
Definition predicate_holds `{PyFloat} (rel : relation) (r : row) (p : string) : Prop :=
  exists attr operator lit i cell,
    Py.words p = [attr; operator; lit]
    /\ index_of attr (attributes rel) = Some i
    /\ nth_error r i = Some cell
    /\ compares cell operator (Py.strip_chars "'" lit).

(** The predicate written [p] has a truth value for the row [r] of
    [rel]: three tokens, an attribute of [rel], a cell in its column,
    and numbers on both sides of [>] and [<]. *)
Definition predicate_defined `{PyFloat} (rel : relation) (r : row) (p : string) : Prop :=
  exists attr operator lit i cell,
    Py.words p = [attr; operator; lit]
    /\ index_of attr (attributes rel) = Some i
    /\ nth_error r i = Some cell
    /\ (operator = ">" \/ operator = "<" ->
        float cell <> None /\ float (Py.strip_chars "'" lit) <> None).

(** The name [attr] is resolved inside the relation [rel]: the index
    [get_attribute_index] answers is the column [attr] has in [rel], and
    it answers none when [rel] has no such column. *)
Definition resolves_in (relations : store) (rel : relation) (attr : string) : Prop :=
  forall i, Fileread.get_attribute_index relations attr = Ok i
            <-> index_of attr (attributes rel) = Some i.

(** The text after the first occurrence of the character [c]. *)
Fixpoint after_first (c : ascii) (s : string) : option string :=
  match s with
  | EmptyString => None
  | String d s' => if Ascii.eqb d c then Some s' else after_first c s'
  end.

(** The text before the last occurrence of the character [c]. *)
Fixpoint before_last (c : ascii) (s : string) : option string :=
  match s with
  | EmptyString => None
  | String d s' =>
      match before_last c s' with
      | Some t => Some (String d t)
      | None => if Ascii.eqb d c then Some EmptyString else None
      end
  end.

(** The text after the last occurrence of the character [c], if there
    is one. *)
Fixpoint after_last_opt (c : ascii) (s : string) : option string :=
  match s with
  | EmptyString => None
  | String d s' =>
      match after_last_opt c s' with
      | Some t => Some t
      | None => if Ascii.eqb d c then Some s' else None
      end
  end.

(** The text after the last occurrence of [c]; all of [s] when [c] does
    not occur. *)
Definition after_last (c : ascii) (s : string) : string :=
  match after_last_opt c s with
  | Some t => t
  | None => s
  end.

(** The text before the first occurrence of [c]; all of [s] when [c]
    does not occur. *)
Fixpoint before_first (c : ascii) (s : string) : string :=
  match s with
  | EmptyString => EmptyString
  | String d s' => if Ascii.eqb d c then EmptyString else String d (before_first c s')
  end.

(** The substring between the first ["("] and the last [")"] of a line. *)
Definition between_parentheses (line : string) : option string :=
  match after_first "(" line with
  | Some t => before_last ")" t
  | None => None
  end.

(** A compound condition: the predicates [preds] written in a row with
    the separator [sep] ([AND] or [OR]) between them. *)
Definition compound (sep : string) (preds : list string) : string :=
  Py.join (" " +:+ sep +:+ " ") preds.

(** The text of one predicate: not empty, without surrounding white
    space, and free of the two separator words. *)
Definition plain_predicate (p : string) : Prop :=
  p <> EmptyString /\ Py.strip p = p
  /\ Py.contains "AND" p = false /\ Py.contains "OR" p = false.

(** The total length of the pieces of a split. *)
Definition pieces_length (l : list string) : nat :=
  list_sum (map String.length l).

(** ** [load_relations], the same in both files

    The directory listing and the records [csv.reader] yields for each
    file are the input: a list of file names, each with its records. *)

Module Loader.

(** [filename[:-4]]. *)
Definition drop_last4 (s : string) : string :=
  Py.drop_last (Py.drop_last (Py.drop_last (Py.drop_last s))).

(** [self.relations[name] = rel]: a key that is present keeps its place
    and takes the new value, a new key goes last. *)
Fixpoint assign (relations : store) (name : string) (rel : relation) : store :=
  match relations with
  | [] => [(name, rel)]
  | (n, r) :: rest =>
      if String.eqb n name then (n, rel) :: rest
      else (n, r) :: assign rest name rel
  end.

(** The loop of [load_relations] from the dict [relations]. [None] is the
    [StopIteration] that [next(reader)] raises on a file without
    records; nothing catches it. *)
Fixpoint load_relations (relations : store) (files : list (string * list row))
  : option store :=
  match files with
  | [] => Some relations
  | (filename, records) :: rest =>
      if Py.endswith ".csv" filename then
        match records with
        | [] => None
        | attributes :: data =>
            load_relations
              (assign relations (drop_last4 filename) (mk_relation attributes data)) rest
        end
      else load_relations relations rest
  end.

End Loader.

(** [res] is the relation with attributes [rel_attributes] and rows
    [data] projected onto [attrs]: the header [attrs], then one row per
    row of [data], holding for each requested attribute the cell in the
    first column of that name. *)
Definition projected (rel_attributes : list string) (data : list row)
    (attrs : list string) (res : list row) : Prop :=
  exists indices rows,
    Forall2 (fun a i => index_of a rel_attributes = Some i) attrs indices
    /\ Forall2 (fun r r' => Forall2 (fun i cell => nth_error r i = Some cell) indices r')
               data rows
    /\ res = attrs :: rows.

(** The number of occurrences of the character [c]. *)
Fixpoint count_char (c : ascii) (s : string) : nat :=
  match s with
  | EmptyString => 0
  | String d s' => (if Ascii.eqb d c then 1 else 0) + count_char c s'
  end.

(** A line that [execute_query] of [newonetest.py] takes for no operator:
    not wrapped in parentheses, without [U] and [-], and with none of the
    prefixes [SELE], [PROJ], [X]. *)
Definition unrecognised (query : string) : Prop :=
  Py.startswith "(" query && Py.endswith ")" query = false
  /\ Py.contains "U" query = false
  /\ Py.contains "-" query = false
  /\ Py.startswith "SELE" query = false
  /\ Py.startswith "PROJ" query = false
  /\ Py.startswith "X" query = false.

(** ** Sample relations

    [EMP] and [DEPT] are those of the end-to-end scenario; [PAY] shares
    the attribute names [id] and [salary] with [EMP], at other
    positions. *)

Module Sample.

Definition EMP : relation :=
  mk_relation ["id"; "name"; "salary"] [["1"; "Al"; "50"]; ["2"; "Bo"; "90"]].

Definition DEPT : relation :=
  mk_relation ["id"; "dname"] [["1"; "Eng"]].

Definition PAY : relation :=
  mk_relation ["salary"; "id"] [["1"; "7"]].

(** A relation with repeated rows. *)
Definition LOG : relation :=
  mk_relation ["id"] [["1"]; ["1"]; ["2"]; ["2"]].

Definition db : store := [("EMP", EMP); ("DEPT", DEPT); ("PAY", PAY); ("LOG", LOG)].

(** A relation with names that hold the letters of [AND] and of [OR],
    and the store that holds it alone. *)
Definition CAST : relation :=
  mk_relation ["id"; "name"] [["1"; "ANDY"]; ["2"; "ORSON"]].

Definition cast_db : store := [("CAST", CAST)].

End Sample.

(** * Properties *)

(** ** The string primitives on examples *)

Example split_on_ex1 : Py.split_on "AND" "a = '1' AND b > '2'" = ["a = '1' "; " b > '2'"].
Proof. reflexivity. Qed.
Example split_on_ex2 : Py.split_on ") - (" "(A) - (B) - (C)" = ["(A"; "B"; "C)"].
Proof. reflexivity. Qed.
Example split_on_ex3 : Py.split_on "," ",a,,b," = [""; "a"; ""; "b"; ""].
Proof. reflexivity. Qed.
Example split_on_ex4 : Py.split_on "aa" "aaa" = [""; "a"].
Proof. reflexivity. Qed.
Example split_once_ex : Py.split_once "U" "A U B U C" = ["A "; " B U C"].
Proof. reflexivity. Qed.
Example words_ex : Py.words "  salary   >  '60' " = ["salary"; ">"; "'60'"].
Proof. reflexivity. Qed.
Example strip_ex : Py.strip "  a b  " = "a b".
Proof. reflexivity. Qed.
Example strip_chars_ex : Py.strip_chars "'" "'60'" = "60".
Proof. reflexivity. Qed.
Example slice_ex : Py.slice_1_m1 "(A U B)" = "A U B".
Proof. reflexivity. Qed.
Example contains_ex : Py.contains "OR" "a OR b" = true /\ Py.contains "OR" "a O R" = false /\ Py.contains "" "" = true.
Proof. repeat split. Qed.
Example endswith_ex : Py.endswith ")" "(a)" = true /\ Py.endswith ")" "(a" = false.
Proof. repeat split. Qed.

(** ** Lists and the error monad *)

Lemma bind_ok {A B} (m : result A) (k : A -> result B) (b : B) :
  bind m k = Ok b -> exists a, m = Ok a /\ k a = Ok b.
Proof. destruct m as [a|e]; simpl; [eauto | discriminate]. Qed.

Lemma filterM_total {A} (p : A -> result bool) (q : A -> bool) (l : list A) :
  (forall x, In x l -> p x = Ok (q x)) -> filterM p l = Ok (List.filter q l).
Proof.
  induction l as [|x l IH]; intros Hp; simpl; [reflexivity|].
  rewrite (Hp x (or_introl eq_refl)); simpl.
  rewrite IH by (intros y Hy; apply Hp; right; exact Hy).
  reflexivity.
Qed.

Lemma filterM_ok {A} (p : A -> result bool) (l kept : list A) :
  filterM p l = Ok kept ->
  sublist kept l /\ (forall x, In x kept <-> In x l /\ p x = Ok true)
  /\ forall x, In x l -> exists b, p x = Ok b.
Proof.
  revert kept; induction l as [|x l IH]; simpl; intros kept H.
  - injection H as <-. split; [constructor|]. split; [|intros x []].
    intros x; simpl; tauto.
  - apply bind_ok in H as (b & Hb & H).
    apply bind_ok in H as (r' & Hr & H). injection H as <-.
    destruct (IH r' Hr) as (Hsub & Hin & Htot).
    split; [destruct b; [constructor 2 | constructor 3]; exact Hsub|].
    split.
    + intros y. destruct b; simpl; rewrite ?Hin; split.
      * intros [<-|[Hy Hp]]; auto.
      * intros [[<-|Hy] Hp]; auto.
      * intros [Hy Hp]; auto.
      * intros [[<-|Hy] Hp]; [congruence|auto].
    + intros y [<-|Hy]; eauto.
Qed.

Lemma flat_map_pairs_length {A B C} (f : A -> B -> C) (l : list A) (m : list B) :
  List.length (flat_map (fun a => map (f a) m) l) = List.length l * List.length m.
Proof.
  induction l as [|a l IH]; simpl; [reflexivity|].
  rewrite List.length_app, List.length_map, IH. reflexivity.
Qed.

Lemma flat_map_pairs_lookup {A B C} (f : A -> B -> C) (l : list A) (m : list B) i j a b :
  nth_error l i = Some a -> nth_error m j = Some b ->
  nth_error (flat_map (fun a => map (f a) m) l) (i * List.length m + j) = Some (f a b).
Proof.
  revert i; induction l as [|x l IH]; intros i Hi Hj.
  - destruct i; discriminate.
  - assert (Hlt : j < List.length m) by (apply nth_error_Some; congruence).
    destruct i as [|i]; simpl in *.
    + injection Hi as ->.
      rewrite nth_error_app1 by (rewrite List.length_map; exact Hlt).
      rewrite nth_error_map, Hj. reflexivity.
    + rewrite nth_error_app2 by (rewrite List.length_map; lia).
      rewrite List.length_map.
      replace (List.length m + i * List.length m + j - List.length m)
        with (i * List.length m + j) by lia.
      apply IH; assumption.
Qed.

(** ** Lengths of stripped strings and of the pieces of a split *)

Lemma lstrip_length (s : string) : String.length (Py.lstrip s) <= String.length s.
Proof.
  induction s as [|c s IH]; simpl; [lia|].
  destruct (Py.is_space c); simpl; lia.
Qed.

Lemma rstrip_length (s : string) : String.length (Py.rstrip s) <= String.length s.
Proof.
  induction s as [|c s IH]; simpl; [lia|].
  destruct (Py.rstrip s); [destruct (Py.is_space c)|]; simpl in *; lia.
Qed.

Lemma strip_length (s : string) : String.length (Py.strip s) <= String.length s.
Proof.
  unfold Py.strip. pose proof (lstrip_length (Py.rstrip s)).
  pose proof (rstrip_length s). lia.
Qed.

Lemma drop_str_length (n : nat) (s : string) :
  String.length (Py.drop_str n s) = String.length s - n.
Proof.
  revert s; induction n as [|n IH]; intros [|c s]; simpl; auto with arith.
Qed.

Lemma drop_last_length (s : string) : String.length (Py.drop_last s) <= String.length s.
Proof.
  induction s as [|c s IH]; simpl; [lia|].
  destruct s; simpl in *; lia.
Qed.

Lemma slice_1_m1_length (s : string) : String.length (Py.slice_1_m1 s) <= String.length s.
Proof.
  unfold Py.slice_1_m1. pose proof (drop_last_length (Py.drop_str 1 s)).
  rewrite drop_str_length in H. lia.
Qed.

Lemma append_length (a b : string) :
  String.length (a +:+ b) = String.length a + String.length b.
Proof. induction a as [|c a IH]; simpl; [reflexivity | rewrite IH; reflexivity]. Qed.

Lemma prefix_length (p s : string) :
  String.prefix p s = true -> String.length p <= String.length s.
Proof.
  revert s; induction p as [|c p IH]; intros s H; [simpl; lia|].
  destruct s as [|d s]; simpl in H; [discriminate|].
  destruct (ascii_dec c d); [|discriminate].
  apply IH in H. simpl. lia.
Qed.

Lemma cons_hd_length (c : ascii) (l : list string) :
  l <> [] ->
  List.length (Py.cons_hd c l) = List.length l
  /\ pieces_length (Py.cons_hd c l) = S (pieces_length l).
Proof. destruct l; [congruence|]. intros _. split; reflexivity. Qed.

Lemma split_go_nonempty (sep : string) (skip : nat) (s : string) :
  Py.split_go sep skip s <> [].
Proof.
  revert skip; induction s as [|c s IH]; intros skip; cbn [Py.split_go]; [discriminate|].
  destruct skip; [|apply IH].
  destruct (String.prefix sep (String c s)); [discriminate|].
  specialize (IH 0). destruct (Py.split_go sep 0 s); [congruence | discriminate].
Qed.

(** The pieces of a split and the separators between them add up to the
    string. *)
Lemma split_go_length (sep : string) (skip : nat) (s : string) :
  0 < String.length sep -> skip <= String.length s ->
  pieces_length (Py.split_go sep skip s)
  + (List.length (Py.split_go sep skip s) - 1) * String.length sep + skip
  = String.length s.
Proof.
  intros Hsep. revert skip; induction s as [|c s IH]; intros skip Hskip.
  - simpl in *. lia.
  - cbn [Py.split_go]. destruct skip as [|k].
    + destruct (String.prefix sep (String c s)) eqn:Hp.
      * apply prefix_length in Hp. simpl in Hp.
        specialize (IH (String.length sep - 1) ltac:(lia)).
        pose proof (split_go_nonempty sep (String.length sep - 1) s) as Hne.
        destruct (Py.split_go sep (String.length sep - 1) s) as [|p ps]; [congruence|].
        unfold pieces_length in *. simpl in *. lia.
      * specialize (IH 0 ltac:(lia)).
        pose proof (split_go_nonempty sep 0 s) as Hne.
        destruct (cons_hd_length c _ Hne) as [-> ->]. simpl. lia.
    + specialize (IH k ltac:(simpl in Hskip; lia)). simpl. lia.
Qed.

Lemma split_on_pair_length (sep s l r : string) :
  0 < String.length sep -> Py.split_on sep s = [l; r] ->
  String.length l + String.length sep + String.length r = String.length s.
Proof.
  intros Hsep H. pose proof (split_go_length sep 0 s Hsep ltac:(lia)) as Hlen.
  unfold Py.split_on in H. rewrite H in Hlen.
  unfold pieces_length in Hlen. simpl in Hlen. lia.
Qed.

Lemma split_once_pair_length (sep s l r : string) :
  Py.split_once sep s = [l; r] ->
  String.length l + String.length sep + String.length r = String.length s.
Proof.
  revert l; induction s as [|c s IH]; intros l H; cbn [Py.split_once] in H; [discriminate|].
  destruct (String.prefix sep (String c s)) eqn:Hp.
  - injection H as <- <-. apply prefix_length in Hp.
    rewrite drop_str_length. cbn [String.length] in *. lia.
  - destruct (Py.split_once sep s) as [|p ps]; simpl in H; [discriminate|].
    injection H as <- ->. specialize (IH p eq_refl). simpl. lia.
Qed.

(** ** The operand text of a query line *)

Lemma prefix_char (c d : ascii) (s : string) :
  String.prefix (String c EmptyString) (String d s) = Ascii.eqb c d.
Proof.
  simpl. destruct (ascii_dec c d) as [->|Hne].
  - rewrite Ascii.eqb_refl. destruct s; reflexivity.
  - symmetry. apply Ascii.eqb_neq, Hne.
Qed.

Lemma split_on_char_cons (c d : ascii) (s : string) :
  Py.split_on (String c EmptyString) (String d s)
  = if Ascii.eqb c d then EmptyString :: Py.split_on (String c EmptyString) s
    else Py.cons_hd d (Py.split_on (String c EmptyString) s).
Proof. unfold Py.split_on. cbn [Py.split_go]. rewrite prefix_char. reflexivity. Qed.

Lemma contains_char_cons (c d : ascii) (s : string) :
  Py.contains (String c EmptyString) (String d s)
  = Ascii.eqb c d || Py.contains (String c EmptyString) s.
Proof. cbn [Py.contains]. rewrite prefix_char. reflexivity. Qed.

Lemma contains_char_app (c : ascii) (a b : string) :
  Py.contains (String c EmptyString) (a +:+ b)
  = Py.contains (String c EmptyString) a || Py.contains (String c EmptyString) b.
Proof.
  induction a as [|d a IH]; [reflexivity|].
  change (String d a +:+ b) with (String d (a +:+ b)).
  rewrite !contains_char_cons, IH. apply orb_assoc.
Qed.

Lemma split_on_char_absent (c : ascii) (s : string) :
  Py.contains (String c EmptyString) s = false -> Py.split_on (String c EmptyString) s = [s].
Proof.
  induction s as [|d s IH]; [reflexivity|].
  rewrite contains_char_cons, split_on_char_cons.
  intros [-> Hs]%orb_false_elim. rewrite (IH Hs). reflexivity.
Qed.

(** Splitting at a character distributes over a concatenation at that
    character. *)
Lemma split_on_char_app (c : ascii) (a b : string) :
  Py.split_on (String c EmptyString) (a +:+ String c b)
  = Py.split_on (String c EmptyString) a ++ Py.split_on (String c EmptyString) b.
Proof.
  induction a as [|d a IH].
  - change (EmptyString +:+ String c b) with (String c b).
    rewrite split_on_char_cons, Ascii.eqb_refl. reflexivity.
  - change (String d a +:+ String c b) with (String d (a +:+ String c b)).
    rewrite !split_on_char_cons, IH.
    destruct (Ascii.eqb c d); [reflexivity|].
    pose proof (split_go_nonempty (String c EmptyString) 0 a) as Hne.
    unfold Py.split_on.
    destruct (Py.split_go (String c EmptyString) 0 a); [congruence | reflexivity].
Qed.

Lemma last_piece_app (l m : list string) :
  m <> [] -> Py.last_piece (l ++ m) = Py.last_piece m.
Proof.
  intros Hm. unfold Py.last_piece.
  induction l as [|x l IH]; [reflexivity|].
  simpl. destruct (l ++ m) eqn:Hlm; [|exact IH].
  apply app_eq_nil in Hlm as [_ ->]. congruence.
Qed.

Lemma first_piece_app (l m : list string) :
  l <> [] -> Py.first_piece (l ++ m) = Py.first_piece l.
Proof. destruct l; [congruence | reflexivity]. Qed.

Lemma after_first_app (c : ascii) (a b : string) :
  Py.contains (String c EmptyString) a = false ->
  after_first c (a +:+ String c b) = Some b.
Proof.
  induction a as [|d a IH]; intros Ha.
  - simpl. rewrite Ascii.eqb_refl. reflexivity.
  - rewrite contains_char_cons in Ha. apply orb_false_elim in Ha as [Hd Ha].
    change (String d a +:+ String c b) with (String d (a +:+ String c b)).
    cbn [after_first]. rewrite Ascii.eqb_sym, Hd. exact (IH Ha).
Qed.

Lemma before_last_absent (c : ascii) (s : string) :
  Py.contains (String c EmptyString) s = false -> before_last c s = None.
Proof.
  induction s as [|d s IH]; [reflexivity|].
  rewrite contains_char_cons. intros [Hd Hs]%orb_false_elim.
  cbn [before_last]. rewrite (IH Hs), Ascii.eqb_sym, Hd. reflexivity.
Qed.

Lemma before_last_app (c : ascii) (a b : string) :
  Py.contains (String c EmptyString) b = false ->
  before_last c (a +:+ String c b) = Some a.
Proof.
  intros Hb. induction a as [|d a IH].
  - change (EmptyString +:+ String c b) with (String c b). cbn [before_last].
    rewrite (before_last_absent c b Hb), Ascii.eqb_refl. reflexivity.
  - change (String d a +:+ String c b) with (String d (a +:+ String c b)).
    cbn [before_last]. rewrite IH. reflexivity.
Qed.

Lemma first_piece_split_char (c : ascii) (s : string) :
  Py.first_piece (Py.split_on (String c EmptyString) s) = before_first c s.
Proof.
  induction s as [|d s IH]; [reflexivity|].
  rewrite split_on_char_cons. cbn [before_first]. rewrite (Ascii.eqb_sym d c).
  destruct (Ascii.eqb c d); [reflexivity|].
  rewrite <- IH. pose proof (split_go_nonempty (String c EmptyString) 0 s) as Hne.
  unfold Py.split_on in *.
  destruct (Py.split_go (String c EmptyString) 0 s); [congruence | reflexivity].
Qed.

(** The last piece of a split at a character is the text after its last
    occurrence; the split has one piece exactly when the character does
    not occur. *)
Lemma split_on_char_last (c : ascii) (s : string) :
  Py.last_piece (Py.split_on (String c EmptyString) s) = after_last c s
  /\ match after_last_opt c s with
     | None => Py.split_on (String c EmptyString) s = [s]
     | Some _ => exists p q r, Py.split_on (String c EmptyString) s = p :: q :: r
     end.
Proof.
  unfold after_last. induction s as [|d s [IH1 IH2]]; [split; reflexivity|].
  rewrite split_on_char_cons. cbn [after_last_opt]. rewrite (Ascii.eqb_sym d c).
  destruct (after_last_opt c s) as [t|].
  - destruct IH2 as (p & q & r & Hs). rewrite Hs in *.
    destruct (Ascii.eqb c d); (split; [exact IH1 | cbn [Py.cons_hd]; eauto]).
  - rewrite IH2. destruct (Ascii.eqb c d); [split; [reflexivity | eauto]|].
    split; reflexivity.
Qed.

Lemma last_piece_split_char (c : ascii) (s : string) :
  Py.last_piece (Py.split_on (String c EmptyString) s) = after_last c s.
Proof. apply split_on_char_last. Qed.

Lemma after_last_app (c : ascii) (a b : string) :
  Py.contains (String c EmptyString) b = false ->
  after_last c (a +:+ String c b) = b.
Proof.
  intros Hb. rewrite <- last_piece_split_char, split_on_char_app.
  rewrite last_piece_app by apply split_go_nonempty.
  rewrite (split_on_char_absent _ _ Hb). reflexivity.
Qed.

Lemma before_first_app (c : ascii) (a b : string) :
  Py.contains (String c EmptyString) a = false ->
  before_first c (a +:+ String c b) = a.
Proof.
  intros Ha. rewrite <- first_piece_split_char, split_on_char_app.
  rewrite first_piece_app by apply split_go_nonempty.
  rewrite (split_on_char_absent _ _ Ha). reflexivity.
Qed.

(** C8, as the code has it. The operand text both classes extract from a
    line is the text after the last ["("] of the line (the whole line when
    it has none) up to the first [")"] that follows (up to the end when
    none follows), without its surrounding white space. In a line
    [pre ( mid ) post] where [mid] holds no parenthesis and [post] no
    opening one, that text is [mid]; when moreover [pre] holds no ["("]
    and [post] no [")"], [mid] is also the text between the first ["("]
    and the last [")"]. *)
Theorem operand_is_innermost (line : string) :
  Fileread.operand line = Py.strip (before_first ")" (after_last "(" line))
  /\ Newonetest.operand line = Py.strip (before_first ")" (after_last "(" line))
  /\ forall pre mid post : string,
       line = pre +:+ "(" +:+ mid +:+ ")" +:+ post ->
       Py.contains "(" mid = false ->
       Py.contains ")" mid = false ->
       Py.contains "(" post = false ->
       before_first ")" (after_last "(" line) = mid
       /\ Fileread.operand line = Py.strip mid
       /\ Newonetest.operand line = Py.strip mid
       /\ (Py.contains "(" pre = false -> Py.contains ")" post = false ->
           between_parentheses line = Some mid).
Proof.
  assert (Hop : Py.strip (Py.first_piece (Py.split_on ")"
                  (Py.last_piece (Py.split_on "(" line))))
                = Py.strip (before_first ")" (after_last "(" line))).
  { rewrite last_piece_split_char, first_piece_split_char. reflexivity. }
  split; [exact Hop|]. split; [exact Hop|].
  intros pre mid post -> Hmo Hmc Hpo.
  assert (Hmid : before_first ")" (after_last "(" (pre +:+ "(" +:+ mid +:+ ")" +:+ post))
                 = mid).
  { change ("(" +:+ mid +:+ ")" +:+ post) with (String "(" (mid +:+ String ")" post)).
    rewrite after_last_app.
    2:{ rewrite contains_char_app, Hmo. rewrite contains_char_cons, Hpo. reflexivity. }
    apply before_first_app, Hmc. }
  split; [exact Hmid|].
  split; [unfold Fileread.operand; rewrite Hop, Hmid; reflexivity|].
  split; [unfold Newonetest.operand; rewrite Hop, Hmid; reflexivity|].
  intros Hpre Hpost. unfold between_parentheses.
  change ("(" +:+ mid +:+ ")" +:+ post) with (String "(" (mid +:+ String ")" post)).
  rewrite (after_first_app _ _ _ Hpre). apply before_last_app, Hpost.
Qed.

Lemma operand_is_innermost_witness :
  (Fileread.operand "PROJ (SELE (EMP) {salary > '60'}) {name}" = "EMP"
   /\ Newonetest.operand "PROJ (SELE (EMP) {salary > '60'}) {name}" = "EMP")
  /\ (Fileread.operand "SELE ( EMP ) {salary > '60'}" = "EMP"
      /\ between_parentheses "SELE ( EMP ) {salary > '60'}" = Some " EMP ")
  /\ (Fileread.operand "SELE ) (EMP) {salary > '60'}" = "EMP"
      /\ Fileread.operand "SELE EMP {salary > '60'}" = "SELE EMP {salary > '60'}").
Proof.
  split; [|split].
  - destruct (operand_is_innermost "PROJ (SELE (EMP) {salary > '60'}) {name}")
      as (_ & _ & H).
    destruct (H "PROJ (SELE " "EMP" " {salary > '60'}) {name}"
                eq_refl eq_refl eq_refl eq_refl) as (_ & Hf & Hn & _).
    split; [exact Hf | exact Hn].
  - destruct (operand_is_innermost "SELE ( EMP ) {salary > '60'}") as (_ & _ & H).
    destruct (H "SELE " " EMP " " {salary > '60'}"
                eq_refl eq_refl eq_refl eq_refl) as (_ & Hf & _ & Hb).
    split; [exact Hf | exact (Hb eq_refl eq_refl)].
  - split.
    + exact (proj1 (operand_is_innermost "SELE ) (EMP) {salary > '60'}")).
    + exact (proj1 (operand_is_innermost "SELE EMP {salary > '60'}")).
Defined.

(** The nested line of the end-to-end scenario: the text between the
    first ["("] and the last [")"] is the inner selection, and the operand
    both classes extract is [EMP]. *)
Lemma operand_of_nested_line :
  between_parentheses "PROJ (SELE (EMP) {salary > '60'}) {name}"
  = Some "SELE (EMP) {salary > '60'}"
  /\ Fileread.operand "PROJ (SELE (EMP) {salary > '60'}) {name}" = "EMP"
  /\ Newonetest.operand "PROJ (SELE (EMP) {salary > '60'}) {name}" = "EMP"
  /\ Some (Fileread.operand "PROJ (SELE (EMP) {salary > '60'}) {name}")
     <> between_parentheses "PROJ (SELE (EMP) {salary > '60'}) {name}".
Proof. repeat split. discriminate. Qed.

(** ** Conditions *)

Section Conditions.

Context {PF : PyFloat}.
Variable relations : store.

(** The list [results] holds the value of every non-empty condition, in
    order. *)
Lemma condition_results_ok (r : row) (conds : list string) (bs : list bool) :
  Fileread.condition_results relations r conds = Ok bs ->
  Forall2 (fun cond b => Fileread.evaluate_one relations r cond = Ok b)
          (List.filter Py.truthy conds) bs.
Proof.
  revert bs; induction conds as [|cond conds IH]; simpl; intros bs H.
  - injection H as <-. constructor.
  - destruct (Py.truthy cond); [|auto].
    apply bind_ok in H as (b & Hb & H). apply bind_ok in H as (bs' & Hbs & H).
    injection H as <-. constructor; auto.
Qed.

Lemma condition_results_total (r : row) (conds : list string) (f : string -> bool) :
  (forall cond, In cond conds -> Py.truthy cond = true ->
                Fileread.evaluate_one relations r cond = Ok (f cond)) ->
  Fileread.condition_results relations r conds
  = Ok (map f (List.filter Py.truthy conds)).
Proof.
  induction conds as [|cond conds IH]; simpl; intros H; [reflexivity|].
  destruct (Py.truthy cond) eqn:Ht.
  - rewrite (H cond (or_introl eq_refl) Ht); simpl.
    rewrite IH by (intros c Hc; apply H; right; exact Hc). reflexivity.
  - apply IH. intros c Hc; apply H; right; exact Hc.
Qed.

(** [evaluate_conditions] is true exactly when every non-empty condition
    evaluates to true. *)
Lemma evaluate_conditions_true (r : row) (conds : list string) :
  Fileread.evaluate_conditions relations r conds = Ok true <->
  forall cond, In cond conds -> Py.truthy cond = true ->
               Fileread.evaluate_one relations r cond = Ok true.
Proof.
  unfold Fileread.evaluate_conditions. split.
  - intros H. apply bind_ok in H as (bs & Hbs & H). injection H as Hall.
    apply condition_results_ok in Hbs.
    intros cond Hin Ht.
    assert (Hf : In cond (List.filter Py.truthy conds)) by (apply filter_In; auto).
    clear Hin Ht. induction Hbs as [|c b cs bs Hc _ IH]; [destruct Hf|].
    simpl in Hall. apply andb_prop in Hall as [Hb Hall].
    destruct Hf as [<-|Hf]; [|auto].
    unfold id in Hb. rewrite Hc, Hb. reflexivity.
  - intros H. rewrite (condition_results_total r conds (fun _ => true)) by exact H.
    simpl. f_equal. induction (List.filter Py.truthy conds); simpl; auto.
Qed.

(** A condition that raises on no row makes [evaluate_conditions] return. *)
Lemma evaluate_conditions_returns (r : row) (conds : list string) :
  (forall cond, In cond conds -> Py.truthy cond = true ->
                exists b, Fileread.evaluate_one relations r cond = Ok b) ->
  exists b, Fileread.evaluate_conditions relations r conds = Ok b.
Proof.
  intros H. unfold Fileread.evaluate_conditions.
  assert (exists bs, Fileread.condition_results relations r conds = Ok bs) as [bs ->].
  { induction conds as [|cond conds IH]; simpl; [eauto|].
    destruct IH as [bs Hbs]; [intros c Hc; apply H; right; exact Hc|].
    destruct (Py.truthy cond) eqn:Ht; [|eauto].
    destruct (H cond (or_introl eq_refl) Ht) as [b ->]. simpl. rewrite Hbs. simpl. eauto. }
  simpl. eauto.
Qed.

Lemma words_truthy (cond : string) (w : string) (ws : list string) :
  Py.words cond = w :: ws -> Py.truthy cond = true.
Proof. destruct cond; [discriminate | reflexivity]. Qed.

End Conditions.

Lemma unknown_operator_fileread `{PF : PyFloat} (value operator lit : string) :
  operator <> ">" -> operator <> "<" -> operator <> "=" ->
  Fileread.evaluate_condition value operator lit = Ok false.
Proof.
  intros Hgt Hlt Heq. unfold Fileread.evaluate_condition.
  apply String.eqb_neq in Hgt, Hlt, Heq. rewrite Hgt, Hlt, Heq. reflexivity.
Qed.

Lemma unknown_operator_newonetest `{PF : PyFloat} (value operator lit : string) :
  operator <> ">" -> operator <> "<" -> operator <> "=" ->
  Newonetest.evaluate_condition value operator lit = Ok false.
Proof.
  intros Hgt Hlt Heq. unfold Newonetest.evaluate_condition.
  apply String.eqb_neq in Hgt, Hlt, Heq. rewrite Hgt, Hlt, Heq. reflexivity.
Qed.

Lemma item_in_range {A} (l : list A) (i : nat) :
  i < List.length l -> exists x, item l i = Ok x.
Proof.
  intros Hi. unfold item. destruct (nth_error l i) eqn:H; [eauto|].
  apply nth_error_None in H. lia.
Qed.

Lemma filter_none {A} (l : list A) : List.filter (fun _ => false) l = [].
Proof. induction l; simpl; auto. Qed.

(** C9. For an operator other than [>], [<] and [=], [evaluate_condition]
    returns [False] for every cell and literal, in both classes. A
    condition list that holds a predicate with such an operator is true
    of no row. A selection whose single predicate has such an operator,
    on an attribute that resolves to a column every row has, returns no
    data row and raises nothing: the header alone in [Fileread.py], the
    empty list in [newonetest.py]. *)
Theorem unknown_operator_selects_nothing `{PF : PyFloat} (operator : string) :
  operator <> ">" -> operator <> "<" -> operator <> "=" ->
  (forall value lit,
      Fileread.evaluate_condition value operator lit = Ok false
      /\ Newonetest.evaluate_condition value operator lit = Ok false)
  /\ (forall relations r conds cond attr lit,
        In cond conds -> Py.words cond = [attr; operator; lit] ->
        Fileread.evaluate_conditions relations r conds <> Ok true)
  /\ (forall relations query cond rel attr lit i,
        Fileread.payload query = Ok cond ->
        find_relation relations (Fileread.operand query) = Some rel ->
        Py.contains "AND" cond = false -> Py.contains "OR" cond = false ->
        Py.words cond = [attr; operator; lit] ->
        Fileread.get_attribute_index relations attr = Ok i ->
        (forall r, In r (data rel) -> i < List.length r) ->
        Fileread.selection relations query = Ok [attributes rel])
  /\ (forall relations query cond rel attr lit i,
        Newonetest.payload query = Ok cond ->
        find_relation relations (Newonetest.operand query) = Some rel ->
        Py.words cond = [attr; operator; lit] ->
        index_of attr (attributes rel) = Some i ->
        (forall r, In r (data rel) -> i < List.length r) ->
        Newonetest.selection relations query = Ok []).
Proof.
  intros Hgt Hlt Heq. split; [|split; [|split]].
  - intros value lit. split;
      [apply unknown_operator_fileread | apply unknown_operator_newonetest]; assumption.
  - intros relations r conds cond attr lit Hin Hwords Htrue.
    pose proof (proj1 (evaluate_conditions_true relations r conds) Htrue cond Hin
                  (words_truthy _ _ _ Hwords)) as Hone.
    unfold Fileread.evaluate_one in Hone. rewrite Hwords in Hone.
    apply bind_ok in Hone as (i & _ & Hone). apply bind_ok in Hone as (cell & _ & Hone).
    rewrite unknown_operator_fileread in Hone by assumption. discriminate.
  - intros relations query cond rel attr lit i Hpay Hfind Hand Hor Hwords Hidx Hrows.
    unfold Fileread.selection. rewrite Hpay, Hfind; simpl.
    unfold Fileread.parse_conditions. rewrite Hand, Hor.
    rewrite (filterM_total _ (fun _ => false)).
    + rewrite filter_none. reflexivity.
    + intros r Hr. unfold Fileread.evaluate_conditions. simpl.
      rewrite (words_truthy _ _ _ Hwords).
      unfold Fileread.evaluate_one. rewrite Hwords, Hidx; simpl.
      destruct (item_in_range r i (Hrows r Hr)) as [cell ->]; simpl.
      rewrite unknown_operator_fileread by assumption. reflexivity.
  - intros relations query cond rel attr lit i Hpay Hfind Hwords Hidx Hrows.
    unfold Newonetest.selection. rewrite Hpay, Hfind; simpl. rewrite Hwords, Hidx.
    rewrite (filterM_total _ (fun _ => false)).
    + rewrite filter_none. reflexivity.
    + intros r Hr. destruct (item_in_range r i (Hrows r Hr)) as [cell ->]; simpl.
      apply unknown_operator_newonetest; assumption.
Qed.

Lemma unknown_operator_selects_nothing_witness :
  (@Fileread.evaluate_condition IntFloat.model "90" ">=" "60" = Ok false
   /\ @Newonetest.evaluate_condition IntFloat.model "90" ">=" "60" = Ok false)
  /\ @Fileread.selection IntFloat.model Sample.db "SELE (EMP) {salary >= '60'}"
     = Ok [["id"; "name"; "salary"]]
  /\ @Newonetest.selection IntFloat.model Sample.db "SELE (EMP) {salary >= '60'}" = Ok [].
Proof.
  destruct (@unknown_operator_selects_nothing IntFloat.model ">="
              ltac:(discriminate) ltac:(discriminate) ltac:(discriminate))
    as (Hcond & _ & Hf & Hn).
  split; [apply Hcond|]. split.
  - apply (Hf Sample.db "SELE (EMP) {salary >= '60'}" "salary >= '60'" Sample.EMP
              "salary" "'60'" 2); try reflexivity.
    intros r [<-|[<-|[]]]; simpl; lia.
  - apply (Hn Sample.db "SELE (EMP) {salary >= '60'}" "salary >= '60'" Sample.EMP
              "salary" "'60'" 2); try reflexivity.
    intros r [<-|[<-|[]]]; simpl; lia.
Defined.

(** ** Selection *)

Section Selection.

Context {PF : PyFloat}.
Variable relations : store.

(** The selection of [Fileread.py] is a filter of the rows of the source
    relation under [evaluate_conditions], below the unchanged header. *)
Lemma fileread_selection_filter (query cond : string) (rel : relation) (res : list row) :
  Fileread.payload query = Ok cond ->
  find_relation relations (Fileread.operand query) = Some rel ->
  Fileread.selection relations query = Ok res ->
  exists kept,
    res = attributes rel :: kept
    /\ sublist kept (data rel)
    /\ List.length kept <= List.length (data rel)
    /\ forall r, In r kept <->
         In r (data rel)
         /\ Fileread.evaluate_conditions relations r (Fileread.parse_conditions cond) = Ok true.
Proof.
  intros Hpay Hfind. unfold Fileread.selection. rewrite Hpay, Hfind; simpl.
  intros H. apply bind_ok in H as (kept & Hkept & H). injection H as <-.
  apply filterM_ok in Hkept as (Hsub & Hin & _).
  exists kept. split; [reflexivity|]. split; [exact Hsub|].
  split; [apply sublist_length, Hsub | exact Hin].
Qed.

(** The selection of [newonetest.py] looks the attribute up in the source
    relation and raises when it is not there. *)
Lemma newonetest_selection_unknown_attribute (query cond attr operator lit : string)
    (rel : relation) :
  Newonetest.payload query = Ok cond ->
  find_relation relations (Newonetest.operand query) = Some rel ->
  Py.words cond = [attr; operator; lit] ->
  index_of attr (attributes rel) = None ->
  Newonetest.selection relations query
  = Raise (ValueError ("Attribute '" +:+ attr +:+ "' not found in relation '"
                       +:+ Newonetest.operand query +:+ "'.")).
Proof.
  intros Hpay Hfind Hwords Hidx. unfold Newonetest.selection.
  rewrite Hpay, Hfind; simpl. rewrite Hwords, Hidx. reflexivity.
Qed.

(** [get_attribute_index] answers with the position of the attribute in
    the first stored relation that has it, whichever relation is
    queried. *)
Lemma get_attribute_index_first (before : store) (name attr : string) (rel : relation)
    (after : store) (i : nat) :
  Forall (fun entry => index_of attr (attributes (snd entry)) = None) before ->
  index_of attr (attributes rel) = Some i ->
  Fileread.get_attribute_index (before ++ (name, rel) :: after) attr = Ok i.
Proof.
  intros Hbefore Hi. unfold Fileread.get_attribute_index.
  induction Hbefore as [|[n r] before Hr _ IH]; simpl.
  - rewrite Hi. reflexivity.
  - simpl in Hr. rewrite Hr. exact IH.
Qed.

End Selection.

(** C1. In [Fileread.py] the column of a condition attribute is looked up
    in the first stored relation that has the attribute, not in the source
    relation. With [EMP(id, name, salary)] stored before [PAY(salary, id)],
    the selection of the [PAY] rows with [id = '1'] compares the [salary]
    column and keeps the row whose [id] is 7, and the selection on [name],
    which [PAY] lacks, raises nothing. The selection of [newonetest.py]
    resolves both against [PAY]. *)
Theorem fileread_attribute_resolved_in_other_relation `{PF : PyFloat} :
  index_of "id" (attributes Sample.PAY) = Some 1
  /\ Fileread.get_attribute_index Sample.db "id" = Ok 0
  /\ Fileread.selection Sample.db "SELE (PAY) {id = '1'}"
     = Ok [["salary"; "id"]; ["1"; "7"]]
  /\ Newonetest.selection Sample.db "SELE (PAY) {id = '1'}" = Ok []
  /\ index_of "name" (attributes Sample.PAY) = None
  /\ Fileread.selection Sample.db "SELE (PAY) {name = 'Al'}"
     = Ok [["salary"; "id"]]
  /\ Newonetest.selection Sample.db "SELE (PAY) {name = 'Al'}"
     = Raise (ValueError "Attribute 'name' not found in relation 'PAY'.").
Proof. repeat split. Qed.

(** C6. The selection of [Fileread.py] over [PAY(salary, id)] with the
    condition [id = '1'] returns the header of [PAY] unchanged and keeps
    the row [("1", "7")], which does not satisfy the predicate: its [id]
    is 7. The column was resolved in [EMP]. *)
Theorem fileread_selection_keeps_unsatisfying_row `{PF : PyFloat} :
  Fileread.selection Sample.db "SELE (PAY) {id = '1'}"
  = Ok [attributes Sample.PAY; ["1"; "7"]]
  /\ In ["1"; "7"] (data Sample.PAY)
  /\ Fileread.parse_conditions "id = '1'" = ["id = '1'"]
  /\ Py.words "id = '1'" = ["id"; "="; "'1'"]
  /\ ~ row_satisfies Sample.PAY ["1"; "7"] "id" "=" "1".
Proof.
  repeat split; [left; reflexivity|].
  intros (i & cell & Hi & Hcell & Heval).
  injection Hi as <-. injection Hcell as <-. discriminate Heval.
Qed.

(** ** Compound conditions *)

Lemma append_assoc (a b c : string) : (a +:+ b) +:+ c = a +:+ (b +:+ c).
Proof.
  induction a as [|x a IH]; [reflexivity|].
  change (String x ((a +:+ b) +:+ c) = String x (a +:+ (b +:+ c))).
  f_equal. exact IH.
Qed.

Lemma prefix_nil (s : string) : String.prefix EmptyString s = true.
Proof. destruct s; reflexivity. Qed.

Lemma prefix_cons (c d : ascii) (p s : string) :
  String.prefix (String c p) (String d s) = Ascii.eqb c d && String.prefix p s.
Proof.
  simpl. destruct (ascii_dec c d) as [->|Hne].
  - rewrite Ascii.eqb_refl. reflexivity.
  - apply Ascii.eqb_neq in Hne. rewrite Hne. reflexivity.
Qed.

Lemma prefix_app (sub x y : string) :
  String.prefix sub x = true -> String.prefix sub (x +:+ y) = true.
Proof.
  revert x; induction sub as [|c sub IH]; intros x H; [apply prefix_nil|].
  destruct x as [|d x]; [discriminate|].
  change (String d x +:+ y) with (String d (x +:+ y)).
  rewrite prefix_cons in *. apply andb_prop in H as [-> H].
  rewrite (IH x H). reflexivity.
Qed.

Lemma prefix_self_app (sub y : string) : String.prefix sub (sub +:+ y) = true.
Proof.
  induction sub as [|c sub IH]; [apply prefix_nil|].
  change (String c sub +:+ y) with (String c (sub +:+ y)).
  rewrite prefix_cons, Ascii.eqb_refl. exact IH.
Qed.

(** A word without a space that is no prefix of [x] is no prefix of [x]
    followed by a space and more. *)
Lemma prefix_app_space (sub x y : string) :
  Py.contains " " sub = false ->
  String.prefix sub x = false ->
  String.prefix sub (x +:+ String " " y) = false.
Proof.
  revert x; induction sub as [|c sub IH]; intros x Hsp H.
  - rewrite prefix_nil in H. discriminate.
  - rewrite contains_char_cons in Hsp. apply orb_false_elim in Hsp as [Hc Hsp].
    destruct x as [|d x].
    + change (EmptyString +:+ String " " y) with (String " " y).
      rewrite prefix_cons, Ascii.eqb_sym, Hc. reflexivity.
    + change (String d x +:+ String " " y) with (String d (x +:+ String " " y)).
      rewrite prefix_cons in *. destruct (Ascii.eqb c d); [|reflexivity].
      simpl in *. apply IH; assumption.
Qed.

Lemma prefix_empty_false (sub : string) :
  sub <> EmptyString -> String.prefix sub EmptyString = false.
Proof. destruct sub; [congruence | reflexivity]. Qed.

Lemma prefix_space_head (sub y : string) :
  Py.contains " " sub = false -> sub <> EmptyString ->
  String.prefix sub (String " " y) = false.
Proof.
  intros Hsp Hne.
  exact (prefix_app_space sub EmptyString y Hsp (prefix_empty_false sub Hne)).
Qed.

Lemma contains_app_space (sub a b : string) :
  Py.contains " " sub = false -> sub <> EmptyString ->
  Py.contains sub (a +:+ String " " b) = Py.contains sub a || Py.contains sub b.
Proof.
  intros Hsp Hne. induction a as [|c a IH].
  - change (EmptyString +:+ String " " b) with (String " " b).
    cbn [Py.contains]. rewrite (prefix_empty_false sub Hne).
    rewrite (prefix_space_head sub b Hsp Hne). reflexivity.
  - change (String c a +:+ String " " b) with (String c (a +:+ String " " b)).
    assert (Hpe : String.prefix sub (String c (a +:+ String " " b))
                  = String.prefix sub (String c a)).
    { destruct (String.prefix sub (String c a)) eqn:Hp.
      - exact (prefix_app _ _ (String " " b) Hp).
      - exact (prefix_app_space _ _ b Hsp Hp). }
    cbn [Py.contains]. rewrite IH, Hpe. apply orb_assoc.
Qed.

Lemma contains_prefix (sub s : string) :
  String.prefix sub s = true -> Py.contains sub s = true.
Proof. destruct s; simpl; intros ->; reflexivity. Qed.

Lemma split_go_skip (sep x rest : string) :
  Py.split_go sep (String.length x) (x +:+ rest) = Py.split_go sep 0 rest.
Proof. induction x as [|c x IH]; [reflexivity | exact IH]. Qed.

Lemma split_go_sep_head (sep rest : string) :
  sep <> EmptyString ->
  Py.split_go sep 0 (sep +:+ rest) = EmptyString :: Py.split_go sep 0 rest.
Proof.
  intros Hne. destruct sep as [|c sep]; [congruence|].
  change (String c sep +:+ rest) with (String c (sep +:+ rest)).
  cbn [Py.split_go].
  change (String c (sep +:+ rest)) with (String c sep +:+ rest).
  rewrite prefix_self_app. cbn [String.length]. rewrite Nat.sub_1_r. cbn [Nat.pred].
  rewrite split_go_skip. reflexivity.
Qed.

Lemma split_go_absent (sep s : string) :
  Py.contains sep s = false -> Py.split_go sep 0 s = [s].
Proof.
  induction s as [|c s IH]; [reflexivity|].
  cbn [Py.contains Py.split_go]. intros [-> Hs]%orb_false_elim.
  rewrite (IH Hs). reflexivity.
Qed.

(** The first piece of a split ends before the first separator word when
    the text before it holds none. *)
Lemma split_go_spaced (sep p rest : string) :
  Py.contains " " sep = false -> sep <> EmptyString ->
  Py.contains sep p = false ->
  Py.split_go sep 0 (p +:+ String " " (sep +:+ rest))
  = (p +:+ " ") :: Py.split_go sep 0 rest.
Proof.
  intros Hsp Hne. induction p as [|c p IH]; intros Hp.
  - change (EmptyString +:+ String " " (sep +:+ rest)) with (String " " (sep +:+ rest)).
    cbn [Py.split_go].
    rewrite (prefix_space_head sep (sep +:+ rest) Hsp Hne).
    rewrite (split_go_sep_head sep rest Hne). reflexivity.
  - cbn [Py.contains] in Hp. apply orb_false_elim in Hp as [Hpre Hp].
    change (String c p +:+ String " " (sep +:+ rest))
      with (String c (p +:+ String " " (sep +:+ rest))).
    cbn [Py.split_go].
    apply (prefix_app_space _ _ (sep +:+ rest) Hsp) in Hpre.
    change (String c p +:+ String " " (sep +:+ rest))
      with (String c (p +:+ String " " (sep +:+ rest))) in Hpre.
    rewrite Hpre, (IH Hp). reflexivity.
Qed.

Lemma rstrip_app_space (p : string) : Py.rstrip (p +:+ " ") = Py.rstrip p.
Proof.
  induction p as [|c p IH]; [reflexivity|].
  change (String c p +:+ " ") with (String c (p +:+ " ")).
  cbn [Py.rstrip]. rewrite IH. reflexivity.
Qed.

Lemma strip_app_space (p : string) : Py.strip (p +:+ " ") = Py.strip p.
Proof. unfold Py.strip. rewrite rstrip_app_space. reflexivity. Qed.

Lemma strip_space_head (p : string) : Py.strip (String " " p) = Py.strip p.
Proof.
  unfold Py.strip. cbn [Py.rstrip].
  destruct (Py.rstrip p); reflexivity.
Qed.

Lemma compound_cons (sep p q : string) (rest : list string) :
  compound sep (p :: q :: rest)
  = p +:+ String " " (sep +:+ String " " (compound sep (q :: rest))).
Proof.
  unfold compound. cbn [Py.join].
  change (" " +:+ sep +:+ " ") with (String " " (sep +:+ " ")).
  change (String " " (sep +:+ " ") +:+ ?x) with (String " " ((sep +:+ " ") +:+ x)).
  rewrite append_assoc. reflexivity.
Qed.

Section Compound.

Variable sep : string.
Hypothesis sep_no_space : Py.contains " " sep = false.
Hypothesis sep_not_empty : sep <> EmptyString.

(** The pieces after the first one, each stripped, are the predicates. *)
Lemma split_compound_tail (q : string) (rest : list string) :
  Forall (fun p => Py.strip p = p /\ Py.contains sep p = false) (q :: rest) ->
  map Py.strip (Py.split_go sep 0 (String " " (compound sep (q :: rest)))) = q :: rest.
Proof.
  revert q; induction rest as [|q' rest IH]; intros q Hall.
  - apply Forall_cons in Hall as [[Hq Hc] _].
    unfold compound. cbn [Py.join]. rewrite split_go_absent.
    + cbn [map]. rewrite strip_space_head, Hq. reflexivity.
    + cbn [Py.contains]. rewrite (prefix_space_head sep q sep_no_space sep_not_empty).
      exact Hc.
  - apply Forall_cons in Hall as [[Hq Hc] Hall].
    rewrite compound_cons.
    change (String " " (q +:+ String " " (sep +:+ String " " (compound sep (q' :: rest)))))
      with (String " " q +:+ String " " (sep +:+ String " " (compound sep (q' :: rest)))).
    rewrite split_go_spaced; auto.
    + cbn [map]. rewrite strip_app_space, strip_space_head, Hq, (IH q' Hall). reflexivity.
    + cbn [Py.contains]. rewrite (prefix_space_head sep q sep_no_space sep_not_empty).
      exact Hc.
Qed.

Lemma split_compound (p q : string) (rest : list string) :
  Forall (fun p => Py.strip p = p /\ Py.contains sep p = false) (p :: q :: rest) ->
  map Py.strip (Py.split_on sep (compound sep (p :: q :: rest))) = p :: q :: rest.
Proof.
  intros Hall. apply Forall_cons in Hall as [[Hp Hc] Hall].
  unfold Py.split_on. rewrite compound_cons, split_go_spaced; auto.
  cbn [map]. rewrite strip_app_space, Hp, (split_compound_tail q rest Hall). reflexivity.
Qed.

Lemma contains_compound (p q : string) (rest : list string) :
  Py.contains sep (compound sep (p :: q :: rest)) = true.
Proof.
  rewrite compound_cons, contains_app_space by assumption.
  rewrite (contains_prefix sep (sep +:+ _) (prefix_self_app _ _)).
  apply orb_true_r.
Qed.

(** A word that occurs neither in the separator nor in a predicate does
    not occur in the compound condition. *)
Lemma contains_compound_other (word : string) (preds : list string) :
  Py.contains " " word = false -> word <> EmptyString ->
  Py.contains word sep = false ->
  Forall (fun p => Py.contains word p = false) preds ->
  Py.contains word (compound sep preds) = false.
Proof.
  intros Hsp Hne Hsep Hall.
  induction Hall as [|p preds Hp Hall IH].
  - cbn. apply prefix_empty_false, Hne.
  - destruct preds as [|q rest]; [exact Hp|].
    rewrite compound_cons, contains_app_space, Hp by assumption.
    rewrite contains_app_space, Hsep by assumption. exact IH.
Qed.

End Compound.

(** Both spellings of a compound condition parse to its predicates. *)
Lemma parse_conditions_compound (sep : string) (preds : list string) :
  sep = "AND" \/ sep = "OR" ->
  2 <= List.length preds ->
  Forall plain_predicate preds ->
  Fileread.parse_conditions (compound sep preds) = preds.
Proof.
  intros Hsep Hlen Hall.
  destruct preds as [|p [|q rest]]; simpl in Hlen; try lia.
  unfold Fileread.parse_conditions. destruct Hsep as [-> | ->].
  - rewrite contains_compound by (reflexivity || discriminate).
    apply split_compound; [reflexivity | discriminate |].
    eapply Forall_impl; [exact Hall|]. intros x (_ & Hs & Ha & _). auto.
  - rewrite (contains_compound_other "OR" "AND");
      [| reflexivity | discriminate | reflexivity |].
    + rewrite contains_compound by (reflexivity || discriminate).
      apply split_compound; [reflexivity | discriminate |].
      eapply Forall_impl; [exact Hall|]. intros x (_ & Hs & _ & Ho). auto.
    + eapply Forall_impl; [exact Hall|]. intros x (_ & _ & Ha & _). exact Ha.
Qed.

Lemma filterM_returns {A} (p : A -> result bool) (l : list A) :
  (forall x, In x l -> exists b, p x = Ok b) -> exists kept, filterM p l = Ok kept.
Proof.
  induction l as [|x l IH]; intros H; simpl; [eauto|].
  destruct (H x (or_introl eq_refl)) as [b ->].
  destruct IH as [kept ->]; [intros y Hy; apply H; right; exact Hy|].
  simpl. eauto.
Qed.

Lemma plain_predicate_truthy (p : string) : plain_predicate p -> Py.truthy p = true.
Proof. intros (Hne & _). destruct p; [congruence | reflexivity]. Qed.

(** Two or more predicates, written once with [AND] and once with [OR]
    between them as the condition of two selections over the same stored
    relation: both selections do the same, and what they keep is what
    [evaluate_one] finds true for every predicate. *)
Lemma compound_by_evaluation `{PF : PyFloat} (relations : store)
    (query_and query_or : string) (rel : relation) (preds : list string) :
  2 <= List.length preds ->
  Forall plain_predicate preds ->
  Fileread.payload query_and = Ok (compound "AND" preds) ->
  Fileread.payload query_or = Ok (compound "OR" preds) ->
  Fileread.operand query_and = Fileread.operand query_or ->
  find_relation relations (Fileread.operand query_or) = Some rel ->
  Fileread.selection relations query_or = Fileread.selection relations query_and
  /\ (forall res, Fileread.selection relations query_or = Ok res ->
        exists kept,
          res = attributes rel :: kept
          /\ sublist kept (data rel)
          /\ forall r, In r kept <->
               In r (data rel)
               /\ forall p, In p preds -> Fileread.evaluate_one relations r p = Ok true)
  /\ ((forall r p, In r (data rel) -> In p preds ->
                   exists b, Fileread.evaluate_one relations r p = Ok b) ->
      exists kept, Fileread.selection relations query_or = Ok (attributes rel :: kept)).
Proof.
  intros Hlen Hplain Hand Hor Hop Hfind.
  pose proof (parse_conditions_compound "AND" preds (or_introl eq_refl) Hlen Hplain) as Hpa.
  pose proof (parse_conditions_compound "OR" preds (or_intror eq_refl) Hlen Hplain) as Hpo.
  assert (Htruthy : forall p, In p preds -> Py.truthy p = true).
  { intros p Hp. apply plain_predicate_truthy. rewrite Forall_forall in Hplain.
    apply Hplain, list_elem_of_In, Hp. }
  split; [|split].
  - unfold Fileread.selection. rewrite Hand, Hor, Hop. cbn [bind].
    rewrite Hpa, Hpo. reflexivity.
  - intros res Hres.
    destruct (fileread_selection_filter relations query_or _ rel res Hor Hfind Hres)
      as (kept & -> & Hsub & _ & Hin).
    exists kept. split; [reflexivity|]. split; [exact Hsub|].
    intros r. rewrite Hin, Hpo, evaluate_conditions_true.
    split; intros [Hr Hall]; (split; [exact Hr|]); intros p Hp; auto.
  - intros Hret. unfold Fileread.selection. rewrite Hor, Hfind. cbn [bind]. rewrite Hpo.
    destruct (filterM_returns
                (fun r => Fileread.evaluate_conditions relations r preds) (data rel))
      as [kept ->]; [|simpl; eauto].
    intros r Hr. apply evaluate_conditions_returns. intros p Hp _. apply Hret; assumption.
Qed.

(** [evaluate_condition] answers true exactly for the comparison of the
    specification. *)
Lemma evaluate_condition_compares `{PF : PyFloat} (cell operator literal : string) :
  Fileread.evaluate_condition cell operator literal = Ok true
  <-> compares cell operator literal.
Proof.
  unfold Fileread.evaluate_condition, compares, to_float. split.
  - destruct (String.eqb operator ">") eqn:Hgt.
    { apply String.eqb_eq in Hgt. destruct (float cell) as [a|]; [|discriminate].
      destruct (float literal) as [b|]; [|discriminate]. cbn [bind].
      intros H. injection H as H. left. split; [exact Hgt|]. exists a, b. auto. }
    destruct (String.eqb operator "<") eqn:Hlt.
    { apply String.eqb_eq in Hlt. destruct (float cell) as [a|]; [|discriminate].
      destruct (float literal) as [b|]; [|discriminate]. cbn [bind].
      intros H. injection H as H. right. left. split; [exact Hlt|]. exists a, b. auto. }
    destruct (String.eqb operator "=") eqn:Heq; [|discriminate].
    apply String.eqb_eq in Heq. intros H. injection H as H.
    apply String.eqb_eq in H. right. right. auto.
  - intros [(-> & a & b & -> & -> & H) | [(-> & a & b & -> & -> & H) | (-> & ->)]].
    + cbn. rewrite H. reflexivity.
    + cbn. rewrite H. reflexivity.
    + cbn. rewrite String.eqb_refl. reflexivity.
Qed.

(** [evaluate_condition] returns when both sides of [>] and [<] are
    numbers. *)
Lemma evaluate_condition_returns `{PF : PyFloat} (cell operator literal : string) :
  (operator = ">" \/ operator = "<" -> float cell <> None /\ float literal <> None) ->
  exists b, Fileread.evaluate_condition cell operator literal = Ok b.
Proof.
  intros Hnum. unfold Fileread.evaluate_condition, to_float.
  destruct (String.eqb operator ">") eqn:Hgt.
  { apply String.eqb_eq in Hgt. destruct (Hnum (or_introl Hgt)) as [Hc Hl].
    destruct (float cell); [|congruence]. destruct (float literal); [|congruence].
    cbn [bind]. eauto. }
  destruct (String.eqb operator "<") eqn:Hlt.
  { apply String.eqb_eq in Hlt. destruct (Hnum (or_intror Hlt)) as [Hc Hl].
    destruct (float cell); [|congruence]. destruct (float literal); [|congruence].
    cbn [bind]. eauto. }
  destruct (String.eqb operator "="); eauto.
Qed.

(** When the attribute of a predicate is resolved inside the source
    relation, [evaluate_one] finds the predicate true exactly when it
    holds. *)
Lemma evaluate_one_holds `{PF : PyFloat} (relations : store) (rel : relation)
    (r : row) (p : string) :
  (forall attr operator lit,
     Py.words p = [attr; operator; lit] -> resolves_in relations rel attr) ->
  Fileread.evaluate_one relations r p = Ok true <-> predicate_holds rel r p.
Proof.
  intros Hres. unfold Fileread.evaluate_one, predicate_holds. split.
  - destruct (Py.words p) as [|attr [|operator [|lit [|x ws]]]] eqn:Hw; try discriminate.
    cbv zeta.
    destruct (Fileread.get_attribute_index relations attr) as [i|e] eqn:Hi; [|discriminate].
    cbn [bind]. unfold item. destruct (nth_error r i) as [cell|] eqn:Hc; [|discriminate].
    cbn [bind]. intros Hev. exists attr, operator, lit, i, cell.
    split; [reflexivity|]. split; [apply (Hres attr operator lit eq_refl), Hi|].
    split; [exact Hc|]. apply evaluate_condition_compares, Hev.
  - intros (attr & operator & lit & i & cell & Hw & Hi & Hc & Hcmp).
    rewrite Hw. cbv zeta.
    rewrite (proj2 (Hres attr operator lit Hw i) Hi). cbn [bind].
    unfold item. rewrite Hc. cbn [bind]. apply evaluate_condition_compares, Hcmp.
Qed.

Lemma evaluate_one_returns `{PF : PyFloat} (relations : store) (rel : relation)
    (r : row) (p : string) :
  (forall attr operator lit,
     Py.words p = [attr; operator; lit] -> resolves_in relations rel attr) ->
  predicate_defined rel r p ->
  exists b, Fileread.evaluate_one relations r p = Ok b.
Proof.
  intros Hres (attr & operator & lit & i & cell & Hw & Hi & Hc & Hnum).
  unfold Fileread.evaluate_one. rewrite Hw. cbv zeta.
  rewrite (proj2 (Hres attr operator lit Hw i) Hi). cbn [bind].
  unfold item. rewrite Hc. cbn [bind]. apply evaluate_condition_returns, Hnum.
Qed.

(** C2, as the code has it. Let [preds] be two or more predicates, each
    free of the words [AND] and [OR], written once with [AND] and once
    with [OR] between them as the condition of two selections over the
    same stored relation, and let every attribute a predicate names be
    resolved inside that relation. Both selections do the same. When they
    return, the result is the header followed by the rows of the
    relation, in order, for which every predicate holds: the cell in the
    column of its attribute compares true with its literal, as numbers
    for [>] and [<], as text for [=]. They return when every predicate
    has a truth value for every row. *)
Theorem compound_condition_keeps_satisfying_rows `{PF : PyFloat} (relations : store)
    (query_and query_or : string) (rel : relation) (preds : list string) :
  2 <= List.length preds ->
  Forall plain_predicate preds ->
  Fileread.payload query_and = Ok (compound "AND" preds) ->
  Fileread.payload query_or = Ok (compound "OR" preds) ->
  Fileread.operand query_and = Fileread.operand query_or ->
  find_relation relations (Fileread.operand query_or) = Some rel ->
  (forall p attr operator lit,
     In p preds -> Py.words p = [attr; operator; lit] ->
     resolves_in relations rel attr) ->
  Fileread.selection relations query_or = Fileread.selection relations query_and
  /\ (forall res, Fileread.selection relations query_or = Ok res ->
        exists kept,
          res = attributes rel :: kept
          /\ sublist kept (data rel)
          /\ forall r, In r kept <->
               In r (data rel) /\ forall p, In p preds -> predicate_holds rel r p)
  /\ ((forall r p, In r (data rel) -> In p preds -> predicate_defined rel r p) ->
      exists kept, Fileread.selection relations query_or = Ok (attributes rel :: kept)).
Proof.
  intros Hlen Hplain Hand Hor Hop Hfind Hres.
  destruct (compound_by_evaluation relations query_and query_or rel preds
              Hlen Hplain Hand Hor Hop Hfind) as (Hsame & Hkept & Hret).
  split; [exact Hsame|]. split.
  - intros res Hsel. destruct (Hkept res Hsel) as (kept & -> & Hsub & Hin).
    exists kept. split; [reflexivity|]. split; [exact Hsub|].
    intros r. rewrite Hin.
    split; intros [Hr Hall]; (split; [exact Hr|]); intros p Hp.
    + apply (evaluate_one_holds relations rel r p); [|apply Hall, Hp].
      intros attr operator lit Hw. exact (Hres p attr operator lit Hp Hw).
    + apply (evaluate_one_holds relations rel r p); [|apply Hall, Hp].
      intros attr operator lit Hw. exact (Hres p attr operator lit Hp Hw).
  - intros Hdef. apply Hret. intros r p Hr Hp.
    apply (evaluate_one_returns relations rel r p); [|apply Hdef; assumption].
    intros attr operator lit Hw. exact (Hres p attr operator lit Hp Hw).
Qed.

Lemma compound_condition_keeps_satisfying_rows_witness :
  @Fileread.selection IntFloat.model Sample.db "SELE (EMP) {salary > '60' OR name = 'Bo'}"
  = @Fileread.selection IntFloat.model Sample.db "SELE (EMP) {salary > '60' AND name = 'Bo'}"
  /\ (forall res,
        @Fileread.selection IntFloat.model Sample.db
          "SELE (EMP) {salary > '60' OR name = 'Bo'}" = Ok res ->
        exists kept,
          res = attributes Sample.EMP :: kept
          /\ sublist kept (data Sample.EMP)
          /\ forall r, In r kept <->
               In r (data Sample.EMP)
               /\ forall p, In p ["salary > '60'"; "name = 'Bo'"] ->
                    @predicate_holds IntFloat.model Sample.EMP r p)
  /\ ((forall r p, In r (data Sample.EMP) -> In p ["salary > '60'"; "name = 'Bo'"] ->
                   @predicate_defined IntFloat.model Sample.EMP r p) ->
      exists kept,
        @Fileread.selection IntFloat.model Sample.db
          "SELE (EMP) {salary > '60' OR name = 'Bo'}" = Ok (attributes Sample.EMP :: kept)).
Proof.
  apply (@compound_condition_keeps_satisfying_rows IntFloat.model Sample.db
           "SELE (EMP) {salary > '60' AND name = 'Bo'}"
           "SELE (EMP) {salary > '60' OR name = 'Bo'}"
           Sample.EMP ["salary > '60'"; "name = 'Bo'"]).
  - simpl. lia.
  - repeat constructor; discriminate.
  - reflexivity.
  - reflexivity.
  - reflexivity.
  - reflexivity.
  - intros p attr operator lit [<- | [<- | []]] Hw; vm_compute in Hw;
      injection Hw as <- _ _; intros i; vm_compute;
      split; intros H; injection H as <-; reflexivity.
Defined.

(** The split at [AND] and [OR] is lexical. In the relation [CAST] the row
    [(2, ORSON)] satisfies both [id = '2'] and [name = 'ORSON']. Written
    with [AND] between them the two predicates keep that row; written with
    [OR] the condition is cut inside the name, its third piece is one
    token, and the selection raises. *)
Lemma separator_word_inside_predicate :
  @Fileread.selection IntFloat.model Sample.cast_db
    "SELE (CAST) {id = '2' AND name = 'ORSON'}"
  = Ok [["id"; "name"]; ["2"; "ORSON"]]
  /\ @Fileread.selection IntFloat.model Sample.cast_db
       "SELE (CAST) {id = '2' OR name = 'ORSON'}"
     = Raise (UnpackError 3 1)
  /\ Fileread.parse_conditions "id = '2' OR name = 'ORSON'"
     = ["id = '2'"; "name = '"; "SON'"]
  /\ @predicate_holds IntFloat.model Sample.CAST ["2"; "ORSON"] "id = '2'"
  /\ @predicate_holds IntFloat.model Sample.CAST ["2"; "ORSON"] "name = 'ORSON'".
Proof.
  split; [reflexivity|]. split; [reflexivity|]. split; [reflexivity|]. split.
  - exists "id", "=", "'2'", 0, "2". repeat split. right. right. split; reflexivity.
  - exists "name", "=", "'ORSON'", 1, "ORSON". repeat split. right. right.
    split; reflexivity.
Qed.

(** A compound condition inherits the column [get_attribute_index]
    answers: in the sample store [id] is first held by [EMP], at index 0,
    so over [PAY] both spellings compare the salary cell and keep the row
    whose [id] is 7. *)
Example compound_condition_over_other_column :
  @Fileread.selection IntFloat.model Sample.db "SELE (PAY) {id = '1' OR id = '1'}"
  = Ok [["salary"; "id"]; ["1"; "7"]]
  /\ @Fileread.selection IntFloat.model Sample.db "SELE (PAY) {id = '1' AND id = '1'}"
     = Ok [["salary"; "id"]; ["1"; "7"]]
  /\ ~ @predicate_holds IntFloat.model Sample.PAY ["1"; "7"] "id = '1'".
Proof.
  split; [reflexivity|]. split; [reflexivity|].
  intros (attr & operator & lit & i & cell & Hw & Hi & Hc & Hcmp).
  vm_compute in Hw. injection Hw as <- <- <-.
  vm_compute in Hi. injection Hi as <-.
  vm_compute in Hc. injection Hc as <-.
  destruct Hcmp as [(H & _) | [(H & _) | (_ & H)]]; vm_compute in H; discriminate.
Qed.

(** Written with [OR], the condition still keeps no row of [EMP]: no row
    has both a salary above 60 and the name [Al]. *)
Example selection_with_or :
  @Fileread.selection IntFloat.model Sample.db "SELE (EMP) {salary > '60' OR name = 'Al'}"
  = Ok [["id"; "name"; "salary"]]
  /\ @Fileread.selection IntFloat.model Sample.db "SELE (EMP) {salary > '60'}"
     = Ok [["id"; "name"; "salary"]; ["2"; "Bo"; "90"]]
  /\ @Fileread.selection IntFloat.model Sample.db "SELE (EMP) {name = 'Al'}"
     = Ok [["id"; "name"; "salary"]; ["1"; "Al"; "50"]].
Proof. repeat split. Qed.

(** ** Cross product *)

(** C3. When the operand text of a cross-product query names the stored
    relations [A] and [B], the result is the header [A.attrs ++ B.attrs]
    (of length [|A.attrs| + |B.attrs|]) followed by [|A.rows| * |B.rows|]
    rows, and the row at position [i * |B.rows| + j] is the [i]-th row of
    [A] followed by the [j]-th row of [B]: the left row varies slowest. *)
Theorem crossproduct_cartesian (relations : store) (query l r : string) (A B : relation) :
  Py.split_on "*" (Fileread.operand query) = [l; r] ->
  find_relation relations (Py.strip l) = Some A ->
  find_relation relations (Py.strip r) = Some B ->
  exists header rows,
    Fileread.crossproduct relations query = Ok (header :: rows)
    /\ header = attributes A ++ attributes B
    /\ List.length header = List.length (attributes A) + List.length (attributes B)
    /\ List.length rows = List.length (data A) * List.length (data B)
    /\ rows = flat_map (fun a => map (fun b => a ++ b) (data B)) (data A)
    /\ forall i j a b,
         nth_error (data A) i = Some a -> nth_error (data B) j = Some b ->
         nth_error rows (i * List.length (data B) + j) = Some (a ++ b).
Proof.
  intros Hsplit HA HB.
  exists (attributes A ++ attributes B),
         (flat_map (fun a => map (fun b => a ++ b) (data B)) (data A)).
  unfold Fileread.crossproduct, Fileread.get_relation_data.
  rewrite Hsplit, HA, HB; simpl.
  repeat split.
  - apply List.length_app.
  - apply (flat_map_pairs_length (fun a b : row => a ++ b)).
  - intros i j a b. apply (flat_map_pairs_lookup (fun a b : row => a ++ b)).
Qed.

Lemma crossproduct_cartesian_witness :
  exists header rows,
    Fileread.crossproduct Sample.db "X (EMP * DEPT)" = Ok (header :: rows)
    /\ header = ["id"; "name"; "salary"; "id"; "dname"]
    /\ List.length header = 3 + 2
    /\ List.length rows = 2 * 1
    /\ rows = [["1"; "Al"; "50"; "1"; "Eng"]; ["2"; "Bo"; "90"; "1"; "Eng"]]
    /\ forall i j a b,
         nth_error (data Sample.EMP) i = Some a -> nth_error (data Sample.DEPT) j = Some b ->
         nth_error rows (i * 1 + j) = Some (a ++ b).
Proof.
  exact (crossproduct_cartesian Sample.db "X (EMP * DEPT)" "EMP " " DEPT"
           Sample.EMP Sample.DEPT eq_refl eq_refl eq_refl).
Defined.

(** ** Union *)

Lemma distinct_spec (rows : list row) :
  NoDup (Fileread.distinct rows) /\ forall x, In x (Fileread.distinct rows) <-> In x rows.
Proof.
  unfold Fileread.distinct. split; [apply NoDup_elements|].
  intros x. rewrite <- !list_elem_of_In, elem_of_elements, elem_of_list_to_set.
  reflexivity.
Qed.

(** C4, as the code has it. In [Fileread.py], when the operand text of a
    union query names the stored relations [A] and [B]: if their attribute
    lists differ the query fails with the schema error; if they are equal
    the result is that attribute list followed by rows without repetition
    whose set is the union of the rows of [A] and of [B]. *)
Theorem union_schema_and_rows (relations : store) (query l r : string) (A B : relation) :
  Py.split_on "U" (Fileread.operand query) = [l; r] ->
  find_relation relations (Py.strip l) = Some A ->
  find_relation relations (Py.strip r) = Some B ->
  (attributes A <> attributes B ->
   Fileread.union relations query
   = Raise (ValueError "Union requires both relations to have the same attributes."))
  /\ (attributes A = attributes B ->
      exists rows,
        Fileread.union relations query = Ok (attributes A :: rows)
        /\ NoDup rows
        /\ forall x, In x rows <-> In x (data A) \/ In x (data B)).
Proof.
  intros Hsplit HA HB.
  unfold Fileread.union, Fileread.get_relation_data.
  rewrite Hsplit, HA, HB; simpl. split; intros Hattrs.
  - rewrite bool_decide_eq_false_2 by exact Hattrs. reflexivity.
  - rewrite bool_decide_eq_true_2 by exact Hattrs.
    eexists; split; [reflexivity|].
    destruct (distinct_spec (data A ++ data B)) as [Hnd Hin].
    split; [exact Hnd|].
    intros x. rewrite Hin. apply in_app_iff.
Qed.

Lemma union_schema_and_rows_witness :
  Fileread.union Sample.db "U (EMP U DEPT)"
  = Raise (ValueError "Union requires both relations to have the same attributes.")
  /\ exists rows,
       Fileread.union Sample.db "U (EMP U EMP)" = Ok (["id"; "name"; "salary"] :: rows)
       /\ NoDup rows
       /\ forall x, In x rows <-> In x (data Sample.EMP) \/ In x (data Sample.EMP).
Proof.
  split.
  - apply (union_schema_and_rows Sample.db "U (EMP U DEPT)" "EMP " " DEPT"
             Sample.EMP Sample.DEPT eq_refl eq_refl eq_refl).
    discriminate.
  - apply (union_schema_and_rows Sample.db "U (EMP U EMP)" "EMP " " EMP"
             Sample.EMP Sample.EMP eq_refl eq_refl eq_refl).
    reflexivity.
Defined.

(** ** The union of [newonetest.py] *)

(** The union of [newonetest.py] over a selection from [EMP] and one from
    [DEPT], whose attribute lists differ, raises nothing: it returns the
    rows of both, without a header. The union of [Fileread.py] over the
    two relations raises. *)
Lemma newonetest_union_checks_no_schema :
  attributes Sample.EMP <> attributes Sample.DEPT
  /\ @Newonetest.selection IntFloat.model Sample.db "SELE (EMP) {name = 'Bo'}"
     = Ok [["2"; "Bo"; "90"]]
  /\ @Newonetest.selection IntFloat.model Sample.db "SELE (DEPT) {dname = 'Eng'}"
     = Ok [["1"; "Eng"]]
  /\ @Newonetest.execute_query IntFloat.model Sample.db 2
       "SELE (EMP) {name = 'Bo'} U SELE (DEPT) {dname = 'Eng'}"
     = Some (Ok [["2"; "Bo"; "90"]; ["1"; "Eng"]])
  /\ Fileread.union Sample.db "U (EMP U DEPT)"
     = Raise (ValueError "Union requires both relations to have the same attributes.").
Proof. repeat split. discriminate. Qed.

Lemma row_in_spec (r : row) (rows : list row) :
  Newonetest.row_in r rows = true <-> In r rows.
Proof.
  unfold Newonetest.row_in. rewrite bool_decide_eq_true. apply list_elem_of_In.
Qed.

Lemma filter_sublist {A} (p : A -> bool) (l : list A) : sublist (List.filter p l) l.
Proof.
  induction l as [|x l IH]; simpl; [constructor|].
  destruct (p x); [constructor 2 | constructor 3]; exact IH.
Qed.

(** C10. When both operand queries evaluate to row lists, [union] returns
    the left list unchanged followed by the rows of the right list that
    are not in the left list, in the order they have there. Nothing is
    removed from the left list, a right row that is kept is kept as often
    as it occurs, and no attribute list is consulted. *)
Theorem newonetest_union_order `{PF : PyFloat} (relations : store) (fuel : nat)
    (left_query right_query : string) (left_result right_result : list row) :
  Newonetest.execute_query relations fuel left_query = Some (Ok left_result) ->
  Newonetest.execute_query relations fuel right_query = Some (Ok right_result) ->
  exists extra,
    Newonetest.union relations fuel left_query right_query
    = Some (Ok (left_result ++ extra))
    /\ extra = List.filter (fun r => negb (Newonetest.row_in r left_result)) right_result
    /\ sublist extra right_result
    /\ (forall r, In r extra <-> In r right_result /\ ~ In r left_result)
    /\ (forall r, ~ In r left_result ->
          List.filter (fun x => bool_decide (x = r)) extra
          = List.filter (fun x => bool_decide (x = r)) right_result).
Proof.
  intros Hl Hr. eexists. split; [|split; [reflexivity|]].
  - unfold Newonetest.union, Newonetest.union_with. rewrite Hl, Hr. reflexivity.
  - split; [apply filter_sublist|]. split.
    + intros r. rewrite filter_In, negb_true_iff, <- not_true_iff_false, row_in_spec.
      reflexivity.
    + intros r Hnot. induction right_result as [|x rest IH] in |- *; [reflexivity|].
      simpl. destruct (Newonetest.row_in x left_result) eqn:Hx; simpl.
      * rewrite IH. case_bool_decide as Hxr; [|reflexivity].
        subst x. apply row_in_spec in Hx. contradiction.
      * rewrite IH. reflexivity.
Qed.

Lemma newonetest_union_order_witness :
  exists extra,
    @Newonetest.union IntFloat.model Sample.db 1
      "SELE (LOG) {id < '2'}" "SELE (LOG) {id > '0'}"
    = Some (Ok ([["1"]; ["1"]] ++ extra))
    /\ extra = [["2"]; ["2"]]
    /\ sublist extra [["1"]; ["1"]; ["2"]; ["2"]]
    /\ (forall r, In r extra <-> In r [["1"]; ["1"]; ["2"]; ["2"]] /\ ~ In r [["1"]; ["1"]])
    /\ (forall r, ~ In r [["1"]; ["1"]] ->
          List.filter (fun x => bool_decide (x = r)) extra
          = List.filter (fun x => bool_decide (x = r)) [["1"]; ["1"]; ["2"]; ["2"]]).
Proof.
  exact (@newonetest_union_order IntFloat.model Sample.db 1
           "SELE (LOG) {id < '2'}" "SELE (LOG) {id > '0'}"
           [["1"]; ["1"]] [["1"]; ["1"]; ["2"]; ["2"]] eq_refl eq_refl).
Defined.

(** A line with [U] is handed to [union] with the two sides of its first
    [U]; selections from relations with different attribute lists are
    merged without complaint. *)
Example newonetest_union_line :
  @Newonetest.execute_query IntFloat.model Sample.db 2
    "SELE (LOG) {id < '2'} U SELE (LOG) {id > '0'}"
  = Some (Ok [["1"]; ["1"]; ["2"]; ["2"]])
  /\ @Newonetest.execute_query IntFloat.model Sample.db 2
       "SELE (EMP) {id > '1'} U SELE (DEPT) {id > '0'}"
     = Some (Ok [["2"; "Bo"; "90"]; ["1"; "Eng"]]).
Proof. repeat split. Qed.

(** ** The recursion budget is always sufficient *)

Section Fuel.

Context {PF : PyFloat}.
Variable relations : store.

Lemma union_with_mono (f g : string -> option (result (list row))) (l r : string) res :
  (forall q v, f q = Some v -> g q = Some v) ->
  Newonetest.union_with f l r = Some res -> Newonetest.union_with g l r = Some res.
Proof.
  intros Hfg. unfold Newonetest.union_with.
  destruct (f l) as [[lres|e]|] eqn:Hl; [| |discriminate];
    rewrite (Hfg _ _ Hl); [|auto].
  destruct (f r) as [[rres|e]|] eqn:Hr; [| |discriminate];
    rewrite (Hfg _ _ Hr); auto.
Qed.

(** More budget never changes a result. *)
Lemma execute_query_mono (fuel k : nat) (query : string) res :
  Newonetest.execute_query relations fuel query = Some res ->
  Newonetest.execute_query relations (fuel + k) query = Some res.
Proof.
  revert query res; induction fuel as [|fuel IH]; intros query res H; [discriminate|].
  cbn [Newonetest.execute_query Nat.add] in *.
  destruct (Py.contains "U" _); [|exact H].
  destruct (Newonetest.parse_union_query _) as [[l r]|e]; [|exact H].
  revert H. apply union_with_mono. exact IH.
Qed.

(** A budget above the length of the query is enough. *)
Lemma execute_query_enough (fuel : nat) (query : string) :
  String.length query < fuel ->
  exists res, Newonetest.execute_query relations fuel query = Some res.
Proof.
  revert query; induction fuel as [|fuel IH]; intros query Hlen; [lia|].
  cbn [Newonetest.execute_query].
  set (q := if Py.startswith "(" query && Py.endswith ")" query
            then Py.strip (Py.slice_1_m1 query) else query).
  assert (Hq : String.length q <= String.length query).
  { subst q. destruct (_ && _); [|lia].
    pose proof (strip_length (Py.slice_1_m1 query)).
    pose proof (slice_1_m1_length query). lia. }
  destruct (Py.contains "U" q).
  - unfold Newonetest.parse_union_query, Newonetest.split_pair.
    destruct (Py.split_once "U" q) as [|l [|r [|x rest]]] eqn:Hs; eauto.
    apply split_once_pair_length in Hs. simpl in Hs.
    pose proof (strip_length l). pose proof (strip_length r).
    destruct (IH (Py.strip l) ltac:(lia)) as [vl Hl].
    destruct (IH (Py.strip r) ltac:(lia)) as [vr Hr].
    unfold Newonetest.union_with. rewrite Hl.
    destruct vl; [rewrite Hr; destruct vr|]; eauto.
  - destruct (Py.contains "-" q).
    + destruct (Newonetest.parse_difference_query q); eauto.
    + repeat (match goal with |- context [if ?b then _ else _] => destruct b end; eauto).
Qed.

Lemma evaluate_query_with_mono (f g : string -> option (result value)) (query : string) v :
  (forall q r, f q = Some r -> g q = Some r) ->
  Fileread.evaluate_query_with relations f query = Some v ->
  Fileread.evaluate_query_with relations g query = Some v.
Proof.
  intros Hfg. unfold Fileread.evaluate_query_with.
  repeat (match goal with |- context [if ?b then _ else _] => destruct b end; auto).
  destruct (f (Py.strip query)) as [r|] eqn:Hf; [|discriminate].
  rewrite (Hfg _ _ Hf). auto.
Qed.

Lemma difference_mono (fuel k : nat) (query : string) res :
  Fileread.difference relations fuel query = Some res ->
  Fileread.difference relations (fuel + k) query = Some res.
Proof.
  revert query res; induction fuel as [|fuel IH]; intros query res H; [discriminate|].
  cbn [Fileread.difference Nat.add] in *.
  destruct (Py.split_on ") - (" query) as [|l [|r [|x rest]]]; try exact H.
  destruct (Fileread.evaluate_query_with relations _ (Py.strip l +:+ ")"))
    as [vl|] eqn:Hl; [|discriminate].
  rewrite (evaluate_query_with_mono _ _ _ _ IH Hl).
  destruct (Fileread.evaluate_query_with relations _ ("(" +:+ Py.strip r))
    as [vr|] eqn:Hr; [|discriminate].
  rewrite (evaluate_query_with_mono _ _ _ _ IH Hr). exact H.
Qed.

Lemma evaluate_query_with_enough (f : string -> option (result value)) (query : string) :
  (forall q, String.length q <= String.length query -> exists r, f q = Some r) ->
  exists v, Fileread.evaluate_query_with relations f query = Some v.
Proof.
  intros Hf. unfold Fileread.evaluate_query_with.
  repeat (match goal with |- context [if ?b then _ else _] => destruct b end; eauto).
  destruct (Hf (Py.strip query) (strip_length query)) as [r ->]. simpl. eauto.
Qed.

Lemma difference_enough (fuel : nat) (query : string) :
  String.length query < fuel ->
  exists res, Fileread.difference relations fuel query = Some res.
Proof.
  revert query; induction fuel as [|fuel IH]; intros query Hlen; [lia|].
  cbn [Fileread.difference].
  destruct (Py.split_on ") - (" query) as [|l [|r [|x rest]]] eqn:Hs; eauto.
  apply split_on_pair_length in Hs; [|simpl; lia]. simpl in Hs.
  pose proof (strip_length l). pose proof (strip_length r).
  destruct (evaluate_query_with_enough (Fileread.difference relations fuel)
              (Py.strip l +:+ ")")) as [vl ->].
  { intros q Hq. apply IH. rewrite append_length in Hq. simpl in Hq. lia. }
  destruct (evaluate_query_with_enough (Fileread.difference relations fuel)
              ("(" +:+ Py.strip r)) as [vr ->].
  { intros q Hq. apply IH. rewrite append_length in Hq. simpl in Hq. lia. }
  eauto.
Qed.

End Fuel.

(** ** Difference *)

Lemma rstrip_keeps_head (c : ascii) (s : string) :
  Py.is_space c = false -> exists t, Py.rstrip (String c s) = String c t.
Proof.
  intros Hc. simpl. destruct (Py.rstrip s); [rewrite Hc|]; eauto.
Qed.

Lemma strip_keeps_head (c : ascii) (s : string) :
  Py.is_space c = false -> exists t, Py.strip (String c s) = String c t.
Proof.
  intros Hc. unfold Py.strip.
  destruct (rstrip_keeps_head c s Hc) as [t ->]. simpl. rewrite Hc. eauto.
Qed.

(** A query that begins with an opening parenthesis matches no prefix of
    [evaluate_query]. *)
Lemma evaluate_query_with_open `{PF : PyFloat} (relations : store)
    (f : string -> option (result value)) (s : string) :
  Fileread.evaluate_query_with relations f ("(" +:+ s) = Some PyNone.
Proof.
  unfold Fileread.evaluate_query_with.
  destruct (strip_keeps_head "(" s eq_refl) as [t Ht].
  change ("(" +:+ s) with (String "(" s). rewrite Ht. reflexivity.
Qed.

Lemma difference_of_none_r (v : value) : Fileread.difference_of v PyNone = Ok PyNone.
Proof. destruct v as [|[|h rows]]; reflexivity. Qed.

(** The set computation of [difference], on two evaluated relations with
    as many columns: the header of the left one, then the distinct rows
    of the left one that are no rows of the right one. *)
Lemma difference_of_rows (lh rh : row) (lrows rrows : list row) :
  List.length lh = List.length rh ->
  exists rows,
    Fileread.difference_of (Rows (lh :: lrows)) (Rows (rh :: rrows)) = Ok (Rows (lh :: rows))
    /\ NoDup rows
    /\ forall x, In x rows <-> In x lrows /\ ~ In x rrows.
Proof.
  intros Hlen. unfold Fileread.difference_of.
  rewrite Hlen, Nat.eqb_refl. cbn [negb].
  set (d := elements _).
  assert (Hd : NoDup d /\ forall x, In x d <-> In x lrows /\ ~ In x rrows).
  { subst d. split; [apply NoDup_elements|].
    intros x. rewrite <- !list_elem_of_In, elem_of_elements, elem_of_difference,
      !elem_of_list_to_set. reflexivity. }
  destruct d as [|x d]; [exists [] | exists (x :: d)]; auto.
Qed.

(** C5. Whatever the stored relations and the query text, the method
    [difference] of [Fileread.py] ends by raising the format error or by
    returning [None]; it never returns a header or rows. The right
    subquery is rebuilt with a leading parenthesis, which [evaluate_query]
    recognises as no operator. *)
Theorem difference_returns_no_relation `{PF : PyFloat} (relations : store) (query : string) :
  exists fuel res,
    (forall k, Fileread.difference relations (fuel + k) query = Some res)
    /\ (res = Raise (ValueError "Invalid difference query format") \/ res = Ok PyNone).
Proof.
  destruct (difference_enough relations (S (String.length query)) query ltac:(lia))
    as [res Hres].
  exists (S (String.length query)), res. split.
  - intros k. apply difference_mono, Hres.
  - cbn [Fileread.difference] in Hres.
    destruct (Py.split_on ") - (" query) as [|l [|r [|x rest]]];
      try (injection Hres as <-; auto; fail).
    destruct (Fileread.evaluate_query_with relations _ (Py.strip l +:+ ")")) as [vl|];
      [|discriminate].
    rewrite evaluate_query_with_open in Hres.
    rewrite difference_of_none_r in Hres. injection Hres as <-. auto.
Qed.

(** The difference of a relation with itself, written with both
    spellings of a difference line: no header comes back. *)
Example difference_self_is_none :
  @Fileread.difference IntFloat.model Sample.db 40
     "(PROJ (EMP) {id}) - (PROJ (EMP) {id})" = Some (Ok PyNone)
  /\ @Fileread.run_query IntFloat.model Sample.db 40
       "- (PROJ (EMP) {id}) - (PROJ (EMP) {id})" = Some (Ok PyNone)
  /\ @Fileread.projection Sample.db "PROJ (EMP) {id}" = Ok [["id"]; ["1"]; ["2"]].
Proof. repeat split. Qed.

(** In [newonetest.py] the batch driver calls [difference] with two
    arguments, which raises; called with the query, [difference] takes the
    first data row of each operand for its header. *)
Example newonetest_difference_self :
  @Newonetest.execute_query IntFloat.model Sample.db 40
     "PROJ (EMP) {id} - PROJ (EMP) {id}" = Some (Raise (TypeError "difference"))
  /\ @Newonetest.difference IntFloat.model Sample.db 40
       "PROJ (EMP) {id} - PROJ (EMP) {id}" = Some (Ok (Rows [["1"]])).
Proof. repeat split. Qed.

(** ** Difference lines in [newonetest.py] *)

Lemma split_once_char_found (c : ascii) (s : string) :
  Py.contains (String c EmptyString) s = true ->
  exists l r, Py.split_once (String c EmptyString) s = [l; r].
Proof.
  induction s as [|d s IH]; [discriminate|].
  rewrite contains_char_cons. cbn [Py.split_once]. rewrite prefix_char.
  destruct (Ascii.eqb c d); [eauto|]. simpl. intros Hs.
  destruct (IH Hs) as (l & r & ->). simpl. eauto.
Qed.

(** A line with a [-] and no [U] reaches the call [self.difference(left,
    right)], which raises: the method takes the query alone. *)
Lemma newonetest_difference_line_raises `{PF : PyFloat} (relations : store)
    (fuel : nat) (query : string) :
  Py.startswith "(" query && Py.endswith ")" query = false ->
  Py.contains "U" query = false ->
  Py.contains "-" query = true ->
  Newonetest.execute_query relations (S fuel) query = Some (Raise (TypeError "difference")).
Proof.
  intros Hparen HU Hminus. cbn [Newonetest.execute_query].
  rewrite Hparen, HU, Hminus.
  unfold Newonetest.parse_difference_query, Newonetest.split_pair.
  destruct (split_once_char_found "-" query Hminus) as (l & r & ->). reflexivity.
Qed.

(** ** The batch driver *)

Section Batch.

Context {PF : PyFloat}.
Variable relations : store.

Lemma run_query_mono (fuel k : nat) (query : string) res :
  Fileread.run_query relations fuel query = Some res ->
  Fileread.run_query relations (fuel + k) query = Some res.
Proof.
  unfold Fileread.run_query.
  repeat (match goal with |- context [if ?b then _ else _] => destruct b end; auto).
  apply difference_mono.
Qed.

Lemma run_query_enough (fuel : nat) (query : string) :
  String.length query < fuel ->
  exists res, Fileread.run_query relations fuel query = Some res.
Proof.
  intros Hlen. unfold Fileread.run_query.
  repeat (match goal with |- context [if ?b then _ else _] => destruct b end; eauto).
  apply difference_enough. exact Hlen.
Qed.

(** With enough budget, the loop of [Fileread.py] pairs every line, in
    order, with the outcome of that line. *)
Lemma fileread_process_queries_total (queries : list string) :
  exists fuel results,
    (forall k, Fileread.process_queries relations (fuel + k) queries = Some results)
    /\ Forall2 (fun line entry =>
                  exists r, (forall k, Fileread.run_query relations (fuel + k) (Py.strip line) = Some r)
                            /\ entry = (Py.strip line, Fileread.outcome_of r))
               queries results.
Proof.
  induction queries as [|line rest (fuel & results & Hres & Hall)].
  - exists 0, []. split; [reflexivity | constructor].
  - set (n := S (String.length (Py.strip line))).
    destruct (run_query_enough n (Py.strip line) ltac:(subst n; lia)) as [r Hr].
    exists (n + fuel), ((Py.strip line, Fileread.outcome_of r) :: results).
    assert (Hline : forall k, Fileread.run_query relations (n + fuel + k) (Py.strip line) = Some r).
    { intros k. rewrite <- Nat.add_assoc. apply run_query_mono, Hr. }
    split.
    + intros k. cbn [Fileread.process_queries]. rewrite Hline.
      replace (n + fuel + k) with (fuel + (n + k)) by lia. rewrite Hres. reflexivity.
    + constructor; [exists r; auto|].
      eapply Forall2_impl; [exact Hall|].
      intros l e (r' & Hr' & ->). exists r'. split; [|reflexivity].
      intros k. replace (n + fuel + k) with (fuel + (n + k)) by lia. apply Hr'.
Qed.

(** The same for the loop of [newonetest.py]. *)
Lemma newonetest_process_queries_total (queries : list string) :
  exists fuel results,
    (forall k, Newonetest.process_queries relations (fuel + k) queries = Some results)
    /\ Forall2 (fun line entry =>
                  exists r, (forall k, Newonetest.execute_query relations (fuel + k) (Py.strip line) = Some r)
                            /\ entry = (Py.strip line, Newonetest.outcome_of r))
               queries results.
Proof.
  induction queries as [|line rest (fuel & results & Hres & Hall)].
  - exists 0, []. split; [reflexivity | constructor].
  - set (n := S (String.length (Py.strip line))).
    destruct (execute_query_enough relations n (Py.strip line) ltac:(subst n; lia)) as [r Hr].
    exists (n + fuel), ((Py.strip line, Newonetest.outcome_of r) :: results).
    assert (Hline : forall k, Newonetest.execute_query relations (n + fuel + k) (Py.strip line) = Some r).
    { intros k. rewrite <- Nat.add_assoc. apply execute_query_mono, Hr. }
    split.
    + intros k. cbn [Newonetest.process_queries]. rewrite Hline.
      replace (n + fuel + k) with (fuel + (n + k)) by lia. rewrite Hres. reflexivity.
    + constructor; [exists r; auto|].
      eapply Forall2_impl; [exact Hall|].
      intros l e (r' & Hr' & ->). exists r'. split; [|reflexivity].
      intros k. replace (n + fuel + k) with (fuel + (n + k)) by lia. apply Hr'.
Qed.

Lemma entries_in_order {R} (run : string -> R -> Prop) (mk : R -> outcome)
    (queries : list string) (results : list (string * outcome)) :
  Forall2 (fun line entry => exists r, run line r /\ entry = (Py.strip line, mk r))
          queries results ->
  List.length results = List.length queries
  /\ map fst results = map Py.strip queries
  /\ forall i line, nth_error queries i = Some line ->
       exists r, run line r /\ nth_error results i = Some (Py.strip line, mk r).
Proof.
  induction 1 as [|line entry queries results (r & Hr & ->) _ (Hlen & Hfst & Hnth)].
  - repeat split. intros [|i] line; discriminate.
  - simpl. rewrite Hlen, Hfst. repeat split.
    intros [|i] l Hi; simpl in *; [|auto].
    injection Hi as <-. eauto.
Qed.

(** The rows written for [results], line by line. *)
Lemma report_of_lines {R} (run : string -> option R) (mk : R -> outcome)
    (queries : list string) (results : list (string * outcome)) :
  Forall2 (fun line entry =>
             exists r, run (Py.strip line) = Some r /\ entry = (Py.strip line, mk r))
          queries results ->
  report results
  = flat_map (fun line =>
                [Py.strip line] ::
                match run (Py.strip line) with
                | Some r => match mk r with Value (Rows rows) => rows | _ => [] end
                | None => []
                end ++ [[]]) queries.
Proof.
  induction 1 as [|line entry qs rs (r & Hr & ->) _ IH]; [reflexivity|].
  unfold report in *. cbn [flat_map]. rewrite IH, Hr. reflexivity.
Qed.

End Batch.

(** C7. For every batch of lines and either class there is a recursion
    budget from which on the loop of [process_queries_from_file] returns a
    list [results] with exactly one entry per line, in the order of the
    lines: the [i]-th entry pairs the stripped [i]-th line with the value
    the evaluation of that line returned, or with the text of the error it
    raised. No line ends the loop. The rows written to the report are, line
    after line in the order of the lines, one block per line: a row that
    holds the stripped line, the rows of the result when the evaluation
    returned a list of rows and no row otherwise, and an empty row. *)
Theorem batch_one_entry_per_line `{PF : PyFloat} (relations : store) (queries : list string) :
  exists fuel results_f results_n,
    (forall k, Fileread.process_queries relations (fuel + k) queries = Some results_f)
    /\ (forall k, Newonetest.process_queries relations (fuel + k) queries = Some results_n)
    /\ (forall k, Fileread.process_queries_from_file relations (fuel + k) queries
                  = Some (flat_map report_entry results_f))
    /\ (forall k, Newonetest.process_queries_from_file relations (fuel + k) queries
                  = Some (flat_map report_entry results_n))
    /\ List.length results_f = List.length queries
    /\ List.length results_n = List.length queries
    /\ map fst results_f = map Py.strip queries
    /\ map fst results_n = map Py.strip queries
    /\ (forall i line, nth_error queries i = Some line ->
          exists r, (forall k, Fileread.run_query relations (fuel + k) (Py.strip line) = Some r)
                    /\ nth_error results_f i
                       = Some (Py.strip line,
                               match r with Ok v => Value v | Raise e => ErrorText e end))
    /\ (forall i line, nth_error queries i = Some line ->
          exists r, (forall k, Newonetest.execute_query relations (fuel + k) (Py.strip line) = Some r)
                    /\ nth_error results_n i
                       = Some (Py.strip line,
                               match r with
                               | Ok rows => Value (Rows rows)
                               | Raise e => ErrorText e
                               end))
    /\ (forall k, Fileread.process_queries_from_file relations (fuel + k) queries
                  = Some (flat_map
                            (fun line =>
                               [Py.strip line] ::
                               match Fileread.run_query relations fuel (Py.strip line) with
                               | Some (Ok (Rows rows)) => rows
                               | _ => []
                               end ++ [[]]) queries))
    /\ (forall k, Newonetest.process_queries_from_file relations (fuel + k) queries
                  = Some (flat_map
                            (fun line =>
                               [Py.strip line] ::
                               match Newonetest.execute_query relations fuel (Py.strip line) with
                               | Some (Ok rows) => rows
                               | _ => []
                               end ++ [[]]) queries)).
Proof.
  destruct (fileread_process_queries_total relations queries) as (ff & rf & Hf & Hallf).
  destruct (newonetest_process_queries_total relations queries) as (fn & rn & Hn & Halln).
  exists (ff + fn), rf, rn.
  assert (Hallf' : Forall2 (fun line entry => exists r,
            (fun line r => forall k, Fileread.run_query relations (ff + fn + k) (Py.strip line) = Some r) line r
            /\ entry = (Py.strip line, Fileread.outcome_of r)) queries rf).
  { eapply Forall2_impl; [exact Hallf|].
    intros l e (r & Hr & ->). exists r. split; [|reflexivity].
    intros k. rewrite <- Nat.add_assoc. apply Hr. }
  assert (Halln' : Forall2 (fun line entry => exists r,
            (fun line r => forall k, Newonetest.execute_query relations (ff + fn + k) (Py.strip line) = Some r) line r
            /\ entry = (Py.strip line, Newonetest.outcome_of r)) queries rn).
  { eapply Forall2_impl; [exact Halln|].
    intros l e (r & Hr & ->). exists r. split; [|reflexivity].
    intros k. replace (ff + fn + k) with (fn + (ff + k)) by lia. apply Hr. }
  assert (Hrepf : report rf
            = flat_map (fun line =>
                [Py.strip line] ::
                match Fileread.run_query relations (ff + fn) (Py.strip line) with
                | Some (Ok (Rows rows)) => rows
                | _ => []
                end ++ [[]]) queries).
  { rewrite (report_of_lines (Fileread.run_query relations (ff + fn)) Fileread.outcome_of
               queries rf).
    - apply flat_map_ext. intros line.
      destruct (Fileread.run_query relations (ff + fn) (Py.strip line)) as [[[|rows]|e]|];
        reflexivity.
    - eapply Forall2_impl; [exact Hallf|].
      intros l e (r & Hr & ->). exists r. split; [apply Hr | reflexivity]. }
  assert (Hrepn : report rn
            = flat_map (fun line =>
                [Py.strip line] ::
                match Newonetest.execute_query relations (ff + fn) (Py.strip line) with
                | Some (Ok rows) => rows
                | _ => []
                end ++ [[]]) queries).
  { rewrite (report_of_lines (Newonetest.execute_query relations (ff + fn))
               Newonetest.outcome_of queries rn).
    - apply flat_map_ext. intros line.
      destruct (Newonetest.execute_query relations (ff + fn) (Py.strip line)) as [[rows|e]|];
        reflexivity.
    - eapply Forall2_impl; [exact Halln|].
      intros l e (r & Hr & ->). exists r. split; [|reflexivity].
      replace (ff + fn) with (fn + ff) by lia. apply Hr. }
  apply entries_in_order in Hallf' as (Hlf & Hff & Hnf).
  apply entries_in_order in Halln' as (Hln & Hfn & Hnn).
  assert (Hf' : forall k, Fileread.process_queries relations (ff + fn + k) queries = Some rf).
  { intros k. rewrite <- Nat.add_assoc. apply Hf. }
  assert (Hn' : forall k, Newonetest.process_queries relations (ff + fn + k) queries = Some rn).
  { intros k. replace (ff + fn + k) with (fn + (ff + k)) by lia. apply Hn. }
  repeat apply conj.
  - exact Hf'.
  - exact Hn'.
  - intros k. unfold Fileread.process_queries_from_file. rewrite Hf'. reflexivity.
  - intros k. unfold Newonetest.process_queries_from_file. rewrite Hn'. reflexivity.
  - exact Hlf.
  - exact Hln.
  - exact Hff.
  - exact Hfn.
  - intros i line Hi. destruct (Hnf i line Hi) as (r & Hr & Hnth).
    exists r. split; [exact Hr | exact Hnth].
  - intros i line Hi. destruct (Hnn i line Hi) as (r & Hr & Hnth).
    exists r. split; [exact Hr | exact Hnth].
  - intros k. unfold Fileread.process_queries_from_file. rewrite Hf'.
    cbn [option_map]. rewrite Hrepf. reflexivity.
  - intros k. unfold Newonetest.process_queries_from_file. rewrite Hn'.
    cbn [option_map]. rewrite Hrepn. reflexivity.
Qed.

(** * Further properties of the two classes *)

(** ** Loading the relations *)

Lemma drop_last_snoc (x : string) (a : ascii) :
  Py.drop_last (x +:+ String a EmptyString) = x.
Proof.
  induction x as [|c x IH]; [reflexivity|].
  change (String c x +:+ String a EmptyString) with (String c (x +:+ String a EmptyString)).
  cbn [Py.drop_last]. rewrite IH. destruct x; reflexivity.
Qed.

Lemma drop_last4_csv (x : string) : Loader.drop_last4 (x +:+ ".csv") = x.
Proof.
  unfold Loader.drop_last4.
  change ".csv" with ("." +:+ ("c" +:+ ("s" +:+ "v"))).
  rewrite <- !append_assoc. rewrite !drop_last_snoc. reflexivity.
Qed.

Lemma endswith_app (p x : string) : Py.endswith p (x +:+ p) = true.
Proof.
  induction x as [|c x IH].
  - change (EmptyString +:+ p) with p.
    destruct p; cbn [Py.endswith]; rewrite String.eqb_refl; reflexivity.
  - change (String c x +:+ p) with (String c (x +:+ p)).
    cbn [Py.endswith]. rewrite IH. apply orb_true_r.
Qed.

Lemma endswith_inv (p s : string) :
  Py.endswith p s = true -> exists x, s = x +:+ p.
Proof.
  induction s as [|c s IH]; cbn [Py.endswith].
  - intros ->%String.eqb_eq. exists EmptyString. reflexivity.
  - intros [->%String.eqb_eq | H]%orb_prop.
    + exists EmptyString. reflexivity.
    + destruct (IH H) as [x ->]. exists (String c x). reflexivity.
Qed.

Lemma find_assign_eq (relations : store) (name : string) (rel : relation) :
  find_relation (Loader.assign relations name rel) name = Some rel.
Proof.
  induction relations as [|[n r] rest IH]; simpl.
  - rewrite String.eqb_refl. reflexivity.
  - destruct (String.eqb n name) eqn:Hn; simpl; rewrite Hn; [reflexivity | exact IH].
Qed.

Lemma find_assign_ne (relations : store) (name other : string) (rel : relation) :
  name <> other ->
  find_relation (Loader.assign relations name rel) other = find_relation relations other.
Proof.
  intros Hne. induction relations as [|[n r] rest IH]; simpl.
  - apply String.eqb_neq in Hne. rewrite Hne. reflexivity.
  - destruct (String.eqb n name) eqn:Hn; simpl.
    + apply String.eqb_eq in Hn. subst n. apply String.eqb_neq in Hne. rewrite Hne.
      reflexivity.
    + rewrite IH. reflexivity.
Qed.

Lemma assign_keys_in (relations : store) (name : string) (rel : relation) (k : string) :
  In k (map fst (Loader.assign relations name rel)) ->
  k = name \/ In k (map fst relations).
Proof.
  induction relations as [|[n r] rest IH]; simpl.
  - intros [<-|[]]. auto.
  - destruct (String.eqb n name); simpl; intros [<-|Hk]; auto.
    destruct (IH Hk); auto.
Qed.

Lemma assign_keys (relations : store) (name : string) (rel : relation) :
  NoDup (map fst relations) -> NoDup (map fst (Loader.assign relations name rel)).
Proof.
  induction relations as [|[n r] rest IH]; simpl; intros Hnd.
  - constructor; [apply not_elem_of_nil | constructor].
  - inversion Hnd as [|? ? Hn Hrest]; subst.
    destruct (String.eqb n name) eqn:Heq; simpl; [constructor; assumption|].
    constructor; [|apply IH; exact Hrest].
    intros Hin%list_elem_of_In.
    destruct (assign_keys_in _ _ _ _ Hin) as [->|Hin'].
    + rewrite String.eqb_refl in Heq. discriminate.
    + apply Hn, list_elem_of_In, Hin'.
Qed.

(** Loading leaves a name alone that is the name of no file read. *)
Lemma load_relations_other (files : list (string * list row)) (relations db : store)
    (name : string) :
  Loader.load_relations relations files = Some db ->
  (forall f recs, In (f, recs) files -> Py.endswith ".csv" f = true ->
                  Loader.drop_last4 f <> name) ->
  find_relation db name = find_relation relations name.
Proof.
  revert relations; induction files as [|[f recs] files IH]; intros relations Hload Hother.
  - injection Hload as <-. reflexivity.
  - cbn [Loader.load_relations] in Hload.
    assert (Hrest : forall f' recs', In (f', recs') files ->
              Py.endswith ".csv" f' = true -> Loader.drop_last4 f' <> name).
    { intros f' recs' Hin. apply (Hother f' recs'). right. exact Hin. }
    destruct (Py.endswith ".csv" f) eqn:Hcsv; [|exact (IH _ Hload Hrest)].
    destruct recs as [|attrs rows]; [discriminate|].
    rewrite (IH _ Hload Hrest). apply find_assign_ne.
    exact (Hother f (attrs :: rows) (or_introl eq_refl) Hcsv).
Qed.

Lemma load_relations_keys (files : list (string * list row)) (relations db : store) :
  Loader.load_relations relations files = Some db ->
  NoDup (map fst relations) -> NoDup (map fst db).
Proof.
  revert relations; induction files as [|[f recs] files IH]; intros relations Hload Hnd.
  - injection Hload as <-. exact Hnd.
  - cbn [Loader.load_relations] in Hload.
    destruct (Py.endswith ".csv" f); [|exact (IH _ Hload Hnd)].
    destruct recs as [|attrs rows]; [discriminate|].
    apply (IH _ Hload). apply assign_keys, Hnd.
Qed.

(** A relation found after the load was there before it or comes from
    a listed [.csv] file with a header. *)
Lemma load_relations_origin (files : list (string * list row)) (relations db : store)
    (name : string) (rel : relation) :
  Loader.load_relations relations files = Some db ->
  find_relation db name = Some rel ->
  find_relation relations name = Some rel
  \/ exists h d, In (name +:+ ".csv", h :: d) files.
Proof.
  revert relations; induction files as [|[f recs] files IH]; intros relations Hload Hfind.
  - injection Hload as <-. left. exact Hfind.
  - cbn [Loader.load_relations] in Hload.
    destruct (Py.endswith ".csv" f) eqn:Hcsv.
    + destruct recs as [|attrs rows]; [discriminate|].
      destruct (IH _ Hload Hfind) as [Hrel | (h & d & Hin)].
      * destruct (String.eqb (Loader.drop_last4 f) name) eqn:Hname.
        -- apply String.eqb_eq in Hname. destruct (endswith_inv _ _ Hcsv) as [x ->].
           rewrite drop_last4_csv in Hname. subst x.
           right. exists attrs, rows. left. reflexivity.
        -- apply String.eqb_neq in Hname. rewrite (find_assign_ne _ _ _ _ Hname) in Hrel.
           left. exact Hrel.
      * right. exists h, d. right. exact Hin.
    + destruct (IH _ Hload Hfind) as [Hrel | (h & d & Hin)]; [left; exact Hrel|].
      right. exists h, d. right. exact Hin.
Qed.

(** The files without the extension [.csv] can be left out of the
    listing. *)
Lemma load_relations_filter (files : list (string * list row)) (relations : store) :
  Loader.load_relations relations
    (List.filter (fun e => Py.endswith ".csv" (fst e)) files)
  = Loader.load_relations relations files.
Proof.
  revert relations; induction files as [|[f recs] files IH]; intros relations;
    [reflexivity|].
  cbn [List.filter fst Loader.load_relations].
  destruct (Py.endswith ".csv" f) eqn:Hcsv; [|apply IH].
  cbn [Loader.load_relations]. rewrite Hcsv.
  destruct recs as [|attrs rows]; [reflexivity | apply IH].
Qed.

(** X1. When the directory lists every file name once and the load
    started from the empty dict returns, the names of the stored relations
    are pairwise distinct; every listed file [name.csv] whose records are
    a header [h] and rows [d] is found under [name] as the relation with
    attributes [h] and data [d]; every stored relation is the header and
    the rows of a listed file with the extension [.csv], under the file
    name without it; and the load of the [.csv] files alone gives the
    same relations, so a file with another extension contributes
    nothing. *)
Theorem load_relations_lookup (files : list (string * list row)) (db : store) :
  NoDup (map fst files) ->
  Loader.load_relations [] files = Some db ->
  NoDup (map fst db)
  /\ (forall name h d,
        In (name +:+ ".csv", h :: d) files ->
        find_relation db name = Some (mk_relation h d))
  /\ (forall name rel,
        find_relation db name = Some rel ->
        exists h d, In (name +:+ ".csv", h :: d) files /\ rel = mk_relation h d)
  /\ Loader.load_relations [] (List.filter (fun e => Py.endswith ".csv" (fst e)) files)
     = Some db.
Proof.
  intros Hfiles Hload.
  assert (Hlookup : forall name h d,
            In (name +:+ ".csv", h :: d) files ->
            find_relation db name = Some (mk_relation h d)).
  { intros name h d. revert Hfiles Hload. generalize (@nil (string * relation)).
    induction files as [|[f recs] files IH]; intros relations Hfiles Hload Hin;
      [destruct Hin|].
    simpl in Hfiles. inversion Hfiles as [|? ? Hf Hrest]; subst.
    cbn [Loader.load_relations] in Hload.
    destruct Hin as [Heq|Hin].
    - injection Heq as -> ->. rewrite endswith_app in Hload.
      rewrite (load_relations_other files _ db name Hload).
      + rewrite drop_last4_csv. apply find_assign_eq.
      + intros f' recs' Hin' Hcsv Hname.
        destruct (endswith_inv _ _ Hcsv) as [x ->].
        rewrite drop_last4_csv in Hname. subst x.
        apply Hf, list_elem_of_In, in_map_iff. exists (name +:+ ".csv", recs'). auto.
    - destruct (Py.endswith ".csv" f); [|exact (IH _ Hrest Hload Hin)].
      destruct recs as [|attrs rows]; [discriminate|].
      exact (IH _ Hrest Hload Hin). }
  split; [|split; [exact Hlookup|split]].
  - apply (load_relations_keys files [] db Hload). constructor.
  - intros name rel Hfind.
    destruct (load_relations_origin files [] db name rel Hload Hfind)
      as [Hnil | (h & d & Hin)]; [discriminate|].
    exists h, d. split; [exact Hin|].
    rewrite (Hlookup name h d Hin) in Hfind. injection Hfind as <-. reflexivity.
  - rewrite load_relations_filter. exact Hload.
Qed.

Lemma load_relations_lookup_witness :
  NoDup (map fst (Sample.db))
  /\ (forall name h d,
        In (name +:+ ".csv", h :: d)
           [("EMP.csv", ["id"; "name"; "salary"] :: [["1"; "Al"; "50"]; ["2"; "Bo"; "90"]]);
            ("notes.txt", [["x"]]);
            ("DEPT.csv", ["id"; "dname"] :: [["1"; "Eng"]]);
            ("PAY.csv", ["salary"; "id"] :: [["1"; "7"]]);
            ("LOG.csv", ["id"] :: [["1"]; ["1"]; ["2"]; ["2"]])] ->
        find_relation Sample.db name = Some (mk_relation h d))
  /\ (forall name rel,
        find_relation Sample.db name = Some rel ->
        exists h d,
          In (name +:+ ".csv", h :: d)
             [("EMP.csv", ["id"; "name"; "salary"] :: [["1"; "Al"; "50"]; ["2"; "Bo"; "90"]]);
              ("notes.txt", [["x"]]);
              ("DEPT.csv", ["id"; "dname"] :: [["1"; "Eng"]]);
              ("PAY.csv", ["salary"; "id"] :: [["1"; "7"]]);
              ("LOG.csv", ["id"] :: [["1"]; ["1"]; ["2"]; ["2"]])]
          /\ rel = mk_relation h d)
  /\ Loader.load_relations []
       [("EMP.csv", ["id"; "name"; "salary"] :: [["1"; "Al"; "50"]; ["2"; "Bo"; "90"]]);
        ("DEPT.csv", ["id"; "dname"] :: [["1"; "Eng"]]);
        ("PAY.csv", ["salary"; "id"] :: [["1"; "7"]]);
        ("LOG.csv", ["id"] :: [["1"]; ["1"]; ["2"]; ["2"]])]
     = Some Sample.db.
Proof.
  apply (load_relations_lookup
           [("EMP.csv", ["id"; "name"; "salary"] :: [["1"; "Al"; "50"]; ["2"; "Bo"; "90"]]);
            ("notes.txt", [["x"]]);
            ("DEPT.csv", ["id"; "dname"] :: [["1"; "Eng"]]);
            ("PAY.csv", ["salary"; "id"] :: [["1"; "7"]]);
            ("LOG.csv", ["id"] :: [["1"]; ["1"]; ["2"]; ["2"]])] Sample.db).
  - apply (bool_decide_unpack _). vm_compute. exact I.
  - reflexivity.
Defined.

(** X2. The load returns exactly when no listed [.csv] file is without
    records: one such file, wherever it is listed, ends the load with
    [StopIteration], and files with another extension are never read. *)
Theorem load_relations_fails_on_empty_file (relations : store)
    (files : list (string * list row)) :
  Loader.load_relations relations files = None <->
  exists filename, In (filename, []) files /\ Py.endswith ".csv" filename = true.
Proof.
  revert relations; induction files as [|[f recs] files IH]; intros relations.
  - split; [discriminate | intros (f & [] & _)].
  - cbn [Loader.load_relations]. destruct (Py.endswith ".csv" f) eqn:Hcsv.
    + destruct recs as [|attrs rows].
      * split; [intros _; exists f; split; [left; reflexivity | exact Hcsv] | reflexivity].
      * rewrite IH. split; intros (g & Hin & Hg); exists g; (split; [|exact Hg]).
        -- right. exact Hin.
        -- destruct Hin as [Heq|Hin]; [discriminate | exact Hin].
    + rewrite IH. split; intros (g & Hin & Hg); exists g; (split; [|exact Hg]).
      * right. exact Hin.
      * destruct Hin as [Heq|Hin]; [|exact Hin].
        injection Heq as -> _. congruence.
Qed.

(** ** The braces of a query line *)

Lemma payload_found (pre body post : string) :
  Py.contains "{" pre = false ->
  Py.contains "{" body = false ->
  Py.contains "}" body = false ->
  Py.contains "{" post = false ->
  Fileread.payload (pre +:+ "{" +:+ body +:+ "}" +:+ post) = Ok (Py.strip body).
Proof.
  intros Hpre Hbo Hbc Hpost. unfold Fileread.payload.
  change ("{" +:+ body +:+ "}" +:+ post) with (String "{" (body +:+ String "}" post)).
  rewrite split_on_char_app, (split_on_char_absent _ _ Hpre).
  rewrite (split_on_char_absent "{" (body +:+ String "}" post)).
  2:{ rewrite contains_char_app, Hbo, contains_char_cons, Hpost. reflexivity. }
  cbn [app item nth_error bind].
  rewrite split_on_char_app, first_piece_app by apply split_go_nonempty.
  rewrite (split_on_char_absent _ _ Hbc). reflexivity.
Qed.

(** X3. In a line [pre { body } post] where [pre], [body] and [post] hold
    no opening brace and [body] no closing one, the payload both classes
    extract is [body] without its surrounding white space: the condition
    of a selection, the attribute list of a projection. *)
Theorem payload_is_first_braces (pre body post : string) :
  Py.contains "{" pre = false ->
  Py.contains "{" body = false ->
  Py.contains "}" body = false ->
  Py.contains "{" post = false ->
  Fileread.payload (pre +:+ "{" +:+ body +:+ "}" +:+ post) = Ok (Py.strip body)
  /\ Newonetest.payload (pre +:+ "{" +:+ body +:+ "}" +:+ post) = Ok (Py.strip body).
Proof.
  intros Hpre Hbo Hbc Hpost. split; apply payload_found; assumption.
Qed.

Lemma payload_is_first_braces_witness :
  Fileread.payload "SELE (EMP) { salary > '60' }" = Ok "salary > '60'"
  /\ Newonetest.payload "SELE (EMP) { salary > '60' }" = Ok "salary > '60'".
Proof.
  exact (payload_is_first_braces "SELE (EMP) " " salary > '60' " ""
           eq_refl eq_refl eq_refl eq_refl).
Defined.

Lemma payload_missing (query : string) :
  Py.contains "{" query = false -> Fileread.payload query = Raise IndexError.
Proof.
  intros H. unfold Fileread.payload. rewrite (split_on_char_absent _ _ H). reflexivity.
Qed.

(** X4. A selection or projection line without an opening brace raises
    [IndexError] in both classes, whatever relation it names and whatever
    is stored: the braces are read before the relation is looked up. *)
Theorem line_without_brace_raises_index_error `{PF : PyFloat} (relations : store)
    (query : string) :
  Py.contains "{" query = false ->
  Fileread.selection relations query = Raise IndexError
  /\ Fileread.projection relations query = Raise IndexError
  /\ Newonetest.selection relations query = Raise IndexError
  /\ Newonetest.projection relations query = Raise IndexError.
Proof.
  intros H.
  unfold Fileread.selection, Fileread.projection, Newonetest.selection,
    Newonetest.projection.
  change (Newonetest.payload query) with (Fileread.payload query).
  rewrite (payload_missing query H). repeat split.
Qed.

Lemma line_without_brace_raises_index_error_witness :
  @Fileread.selection IntFloat.model Sample.db "SELE (GHOST)" = Raise IndexError
  /\ Fileread.projection Sample.db "SELE (GHOST)" = Raise IndexError
  /\ @Newonetest.selection IntFloat.model Sample.db "SELE (GHOST)" = Raise IndexError
  /\ Newonetest.projection Sample.db "SELE (GHOST)" = Raise IndexError.
Proof.
  exact (@line_without_brace_raises_index_error IntFloat.model Sample.db "SELE (GHOST)"
           eq_refl).
Defined.

(** ** Edge cases of the selections *)

Lemma filter_all {A} (l : list A) : List.filter (fun _ => true) l = l.
Proof. induction l as [|x l IH]; simpl; [reflexivity | rewrite IH; reflexivity]. Qed.

Lemma filterM_raises {A} (p : A -> result bool) (l : list A) :
  (exists x e, In x l /\ p x = Raise e) -> exists e, filterM p l = Raise e.
Proof.
  induction l as [|y l IH]; intros (x & e & Hin & Hx); [destruct Hin|].
  simpl. destruct (p y) as [b|e'] eqn:Hy; simpl; [|eauto].
  destruct Hin as [->|Hin]; [congruence|].
  destruct IH as [e'' ->]; [eauto|]. simpl. eauto.
Qed.

(** X5. With nothing between the braces, the selection of [Fileread.py]
    returns the header and every row of the relation: the empty condition
    is skipped and [all([])] is true. The selection of [newonetest.py]
    raises on the same line, for want of three tokens. *)
Theorem selection_with_empty_condition `{PF : PyFloat} (relations : store)
    (query : string) (rel : relation) :
  Fileread.payload query = Ok EmptyString ->
  find_relation relations (Fileread.operand query) = Some rel ->
  Fileread.selection relations query = Ok (attributes rel :: data rel)
  /\ Newonetest.selection relations query = Raise (UnpackError 3 0).
Proof.
  intros Hpay Hfind. split.
  - unfold Fileread.selection. rewrite Hpay, Hfind. cbn [bind].
    rewrite (filterM_total _ (fun _ => true)); [rewrite filter_all; reflexivity|].
    intros r _. reflexivity.
  - unfold Newonetest.selection.
    change (Newonetest.payload query) with (Fileread.payload query).
    change (Newonetest.operand query) with (Fileread.operand query).
    rewrite Hpay, Hfind. reflexivity.
Qed.

Lemma selection_with_empty_condition_witness :
  @Fileread.selection IntFloat.model Sample.db "SELE (EMP) {}"
  = Ok (attributes Sample.EMP :: data Sample.EMP)
  /\ @Newonetest.selection IntFloat.model Sample.db "SELE (EMP) {}"
     = Raise (UnpackError 3 0).
Proof.
  exact (@selection_with_empty_condition IntFloat.model Sample.db "SELE (EMP) {}"
           Sample.EMP eq_refl eq_refl).
Defined.

(** X6. Over a stored relation without rows the selection of
    [Fileread.py] returns the header alone for every condition text: the
    condition is evaluated row by row, so a malformed condition or an
    unknown attribute goes unreported. The selection of [newonetest.py]
    checks the condition first and raises on a condition that is not three
    tokens or names an attribute the relation lacks. *)
Theorem selection_over_empty_relation `{PF : PyFloat} (relations : store)
    (query cond : string) (rel : relation) :
  Fileread.payload query = Ok cond ->
  find_relation relations (Fileread.operand query) = Some rel ->
  data rel = [] ->
  Fileread.selection relations query = Ok [attributes rel]
  /\ (List.length (Py.words cond) <> 3 ->
      Newonetest.selection relations query
      = Raise (UnpackError 3 (List.length (Py.words cond))))
  /\ (forall attr operator lit,
        Py.words cond = [attr; operator; lit] ->
        index_of attr (attributes rel) = None ->
        Newonetest.selection relations query
        = Raise (ValueError ("Attribute '" +:+ attr +:+ "' not found in relation '"
                             +:+ Fileread.operand query +:+ "'.")))
  /\ (forall attr operator lit i,
        Py.words cond = [attr; operator; lit] ->
        index_of attr (attributes rel) = Some i ->
        Newonetest.selection relations query = Ok []).
Proof.
  intros Hpay Hfind Hdata. split; [|split; [|split]].
  - unfold Fileread.selection. rewrite Hpay, Hfind. cbn [bind]. rewrite Hdata. reflexivity.
  - intros Hlen. unfold Newonetest.selection.
    change (Newonetest.payload query) with (Fileread.payload query).
    change (Newonetest.operand query) with (Fileread.operand query).
    rewrite Hpay, Hfind. cbn [bind].
    destruct (Py.words cond) as [|a [|b [|c [|d ws]]]]; try reflexivity.
    simpl in Hlen. congruence.
  - intros attr operator lit Hwords Hidx.
    exact (newonetest_selection_unknown_attribute relations query cond attr operator lit
             rel Hpay Hfind Hwords Hidx).
  - intros attr operator lit i Hwords Hidx. unfold Newonetest.selection.
    change (Newonetest.payload query) with (Fileread.payload query).
    change (Newonetest.operand query) with (Fileread.operand query).
    rewrite Hpay, Hfind. cbn [bind]. rewrite Hwords, Hidx, Hdata. reflexivity.
Qed.

Lemma selection_over_empty_relation_witness :
  let none := [("NONE", mk_relation ["id"; "name"] [])] in
  @Fileread.selection IntFloat.model none "SELE (NONE) {no such thing here}"
  = Ok [["id"; "name"]]
  /\ @Newonetest.selection IntFloat.model none "SELE (NONE) {no such thing here}"
     = Raise (UnpackError 3 4).
Proof.
  destruct (@selection_over_empty_relation IntFloat.model
              [("NONE", mk_relation ["id"; "name"] [])]
              "SELE (NONE) {no such thing here}" "no such thing here"
              (mk_relation ["id"; "name"] []) eq_refl eq_refl eq_refl)
    as (Hf & Hn & _).
  split; [exact Hf|]. apply Hn. discriminate.
Defined.

(** X7. A numeric comparison on a column with one cell that is no number
    makes the whole selection raise, in both classes: the rows that would
    compare are not returned either. *)
Theorem selection_raises_on_non_numeric_cell `{PF : PyFloat} (relations : store)
    (query cond attr operator lit : string) (rel : relation) (i : nat)
    (r : row) (cell : string) :
  Fileread.payload query = Ok cond ->
  find_relation relations (Fileread.operand query) = Some rel ->
  Py.contains "AND" cond = false -> Py.contains "OR" cond = false ->
  Py.words cond = [attr; operator; lit] ->
  operator = ">" \/ operator = "<" ->
  In r (data rel) -> nth_error r i = Some cell -> float cell = None ->
  (Fileread.get_attribute_index relations attr = Ok i ->
   exists e, Fileread.selection relations query = Raise e)
  /\ (index_of attr (attributes rel) = Some i ->
      exists e, Newonetest.selection relations query = Raise e).
Proof.
  intros Hpay Hfind Hand Hor Hwords Hop Hin Hcell Hfloat.
  assert (Hcmp : forall v, Fileread.evaluate_condition cell operator v
                           = Raise (FloatError cell)).
  { intros v. unfold Fileread.evaluate_condition, to_float.
    destruct Hop as [-> | ->]; simpl; rewrite Hfloat; reflexivity. }
  split; intros Hidx.
  - unfold Fileread.selection. rewrite Hpay, Hfind. cbn [bind].
    unfold Fileread.parse_conditions. rewrite Hand, Hor.
    destruct (filterM_raises
                (fun row => Fileread.evaluate_conditions relations row [cond]) (data rel))
      as [e ->]; [|simpl; eauto].
    exists r, (FloatError cell). split; [exact Hin|].
    unfold Fileread.evaluate_conditions. cbn [Fileread.condition_results].
    rewrite (words_truthy _ _ _ Hwords).
    unfold Fileread.evaluate_one. rewrite Hwords, Hidx. cbn [bind].
    unfold item. rewrite Hcell. cbn [bind]. rewrite Hcmp. reflexivity.
  - unfold Newonetest.selection.
    change (Newonetest.payload query) with (Fileread.payload query).
    change (Newonetest.operand query) with (Fileread.operand query).
    rewrite Hpay, Hfind. cbn [bind]. rewrite Hwords, Hidx.
    apply filterM_raises. exists r, (FloatError cell). split; [exact Hin|].
    unfold item. rewrite Hcell. cbn [bind]. apply Hcmp.
Qed.

Lemma selection_raises_on_non_numeric_cell_witness :
  (exists e, @Fileread.selection IntFloat.model Sample.db "SELE (EMP) {name > '60'}"
             = Raise e)
  /\ (exists e, @Newonetest.selection IntFloat.model Sample.db "SELE (EMP) {name > '60'}"
                = Raise e).
Proof.
  destruct (@selection_raises_on_non_numeric_cell IntFloat.model Sample.db
              "SELE (EMP) {name > '60'}" "name > '60'" "name" ">" "'60'" Sample.EMP 1
              ["2"; "Bo"; "90"] "Bo" eq_refl eq_refl eq_refl eq_refl eq_refl
              (or_introl eq_refl) (or_intror (or_introl eq_refl)) eq_refl eq_refl)
    as [Hf Hn].
  split; [apply Hf | apply Hn]; reflexivity.
Defined.

(** ** Stripping and splitting into words *)

Lemma rstrip_cons (c : ascii) (s : string) :
  Py.rstrip (String c s)
  = match Py.rstrip s with
    | EmptyString => if Py.is_space c then EmptyString else String c EmptyString
    | r => String c r
    end.
Proof. reflexivity. Qed.

Lemma rstrip_idem (s : string) : Py.rstrip (Py.rstrip s) = Py.rstrip s.
Proof.
  induction s as [|c s IH]; [reflexivity|].
  rewrite rstrip_cons. destruct (Py.rstrip s) as [|d r] eqn:Hr.
  - destruct (Py.is_space c) eqn:Hc; [reflexivity|].
    rewrite rstrip_cons. simpl. rewrite Hc. reflexivity.
  - rewrite rstrip_cons, IH. reflexivity.
Qed.

Lemma rstrip_tail_fixed (c : ascii) (s : string) :
  Py.rstrip (String c s) = String c s -> Py.rstrip s = s.
Proof.
  cbn [Py.rstrip]. destruct (Py.rstrip s) as [|d r].
  - destruct (Py.is_space c); [discriminate|]. intros H. injection H as <-. reflexivity.
  - intros H. injection H as <-. reflexivity.
Qed.

Lemma rstrip_lstrip_fixed (s : string) :
  Py.rstrip s = s -> Py.rstrip (Py.lstrip s) = Py.lstrip s.
Proof.
  induction s as [|c s IH]; intros H; [reflexivity|].
  cbn [Py.lstrip]. destruct (Py.is_space c); [|exact H].
  apply IH. exact (rstrip_tail_fixed c s H).
Qed.

Lemma lstrip_idem (s : string) : Py.lstrip (Py.lstrip s) = Py.lstrip s.
Proof.
  induction s as [|c s IH]; [reflexivity|].
  cbn [Py.lstrip]. destruct (Py.is_space c) eqn:Hc; [exact IH|].
  cbn [Py.lstrip]. rewrite Hc. reflexivity.
Qed.

Lemma strip_idem (s : string) : Py.strip (Py.strip s) = Py.strip s.
Proof.
  unfold Py.strip.
  rewrite (rstrip_lstrip_fixed (Py.rstrip s) (rstrip_idem s)). apply lstrip_idem.
Qed.

Lemma lstrip_length_eq (s : string) :
  String.length (Py.lstrip s) = String.length s -> Py.lstrip s = s.
Proof.
  destruct s as [|c s]; [reflexivity|]. cbn [Py.lstrip].
  destruct (Py.is_space c); [|reflexivity].
  pose proof (lstrip_length s). simpl. lia.
Qed.

Lemma rstrip_length_eq (s : string) :
  String.length (Py.rstrip s) = String.length s -> Py.rstrip s = s.
Proof.
  induction s as [|c s IH]; [reflexivity|].
  cbn [Py.rstrip]. pose proof (rstrip_length s) as Hle.
  destruct (Py.rstrip s) as [|d r].
  - destruct (Py.is_space c); simpl; [lia|].
    intros H. destruct s; [reflexivity | simpl in H; lia].
  - simpl. intros H. rewrite IH; [reflexivity | simpl in *; lia].
Qed.

Lemma strip_fixed_parts (p : string) :
  Py.strip p = p -> Py.lstrip p = p /\ Py.rstrip p = p.
Proof.
  unfold Py.strip. intros H.
  pose proof (lstrip_length (Py.rstrip p)) as Hl. pose proof (rstrip_length p) as Hr.
  assert (Hrp : Py.rstrip p = p).
  { apply rstrip_length_eq. rewrite H in Hl. lia. }
  split; [|exact Hrp]. rewrite Hrp in H. exact H.
Qed.

Lemma rstrip_app (a b : string) :
  Py.rstrip b <> EmptyString -> Py.rstrip (a +:+ b) = a +:+ Py.rstrip b.
Proof.
  intros Hb. induction a as [|c a IH]; [reflexivity|].
  change (String c a +:+ b) with (String c (a +:+ b)).
  rewrite rstrip_cons, IH.
  change (String c a +:+ Py.rstrip b) with (String c (a +:+ Py.rstrip b)).
  destruct (a +:+ Py.rstrip b) eqn:Hab; [|reflexivity].
  destruct a; [|discriminate]. contradiction.
Qed.

Lemma lstrip_app (a b : string) :
  Py.lstrip a <> EmptyString -> Py.lstrip (a +:+ b) = Py.lstrip a +:+ b.
Proof.
  induction a as [|c a IH]; intros Ha; [contradiction|].
  change (String c a +:+ b) with (String c (a +:+ b)).
  cbn [Py.lstrip] in *. destruct (Py.is_space c); [exact (IH Ha) | reflexivity].
Qed.

(** Two stripped, non-empty texts stay stripped with anything between
    them. *)
Lemma strip_app_fixed (a m b : string) :
  Py.strip a = a -> a <> EmptyString -> Py.strip b = b -> b <> EmptyString ->
  Py.strip (a +:+ m +:+ b) = a +:+ m +:+ b.
Proof.
  intros Ha Hane Hb Hbne.
  destruct (strip_fixed_parts a Ha) as [Hla _].
  destruct (strip_fixed_parts b Hb) as [_ Hrb].
  unfold Py.strip. rewrite <- append_assoc.
  rewrite rstrip_app by (rewrite Hrb; exact Hbne). rewrite Hrb.
  rewrite append_assoc. rewrite lstrip_app by (rewrite Hla; exact Hane).
  rewrite Hla. reflexivity.
Qed.

Lemma words_head (c : ascii) (s : string) :
  Py.is_space c = false -> Py.words (String c s) <> [].
Proof.
  intros Hc. cbn [Py.words]. rewrite Hc.
  destruct s as [|d s]; [discriminate|].
  destruct (Py.is_space d); [discriminate|].
  destruct (Py.words (String d s)); discriminate.
Qed.

Lemma words_cons2 (c d : ascii) (s : string) :
  Py.words (String c (String d s))
  = if Py.is_space c then Py.words (String d s)
    else if Py.is_space d then String c EmptyString :: Py.words (String d s)
         else Py.cons_hd c (Py.words (String d s)).
Proof. reflexivity. Qed.

(** A space between two texts separates their words. *)
Lemma words_app_space (a b : string) :
  Py.words (a +:+ String " " b) = Py.words a ++ Py.words b.
Proof.
  induction a as [|c a IH]; [reflexivity|].
  destruct a as [|d a].
  - change (String c EmptyString +:+ String " " b) with (String c (String " " b)).
    rewrite words_cons2. change (Py.is_space " ") with true.
    change (Py.words (String " " b)) with (Py.words b).
    cbn [Py.words]. destruct (Py.is_space c); reflexivity.
  - change (String c (String d a) +:+ String " " b)
      with (String c (String d (a +:+ String " " b))).
    change (String d a +:+ String " " b) with (String d (a +:+ String " " b)) in IH.
    rewrite !words_cons2, IH.
    destruct (Py.is_space c); [reflexivity|].
    destruct (Py.is_space d) eqn:Hd; [reflexivity|].
    pose proof (words_head d a Hd) as Hne.
    destruct (Py.words (String d a)); [congruence | reflexivity].
Qed.

Lemma words_compound_pair (sep p q : string) :
  Py.words (p +:+ String " " (sep +:+ String " " q))
  = Py.words p ++ Py.words sep ++ Py.words q.
Proof. rewrite !words_app_space. reflexivity. Qed.

(** ** Conditions the parser cannot take apart *)

Lemma evaluate_one_unpack `{PF : PyFloat} (relations : store) (r : row) (cond : string) :
  List.length (Py.words cond) <> 3 ->
  Fileread.evaluate_one relations r cond
  = Raise (UnpackError 3 (List.length (Py.words cond))).
Proof.
  intros Hlen. unfold Fileread.evaluate_one.
  destruct (Py.words cond) as [|a [|b [|c [|d ws]]]]; try reflexivity.
  simpl in Hlen. congruence.
Qed.

Lemma words_of_two (sep p q : string) :
  Py.words sep = [sep] ->
  List.length (Py.words p) = 3 -> List.length (Py.words q) = 3 ->
  List.length (Py.words (p +:+ String " " (sep +:+ String " " q))) = 7.
Proof.
  intros Hsep Hp Hq. rewrite words_compound_pair, Hsep, !List.length_app, Hp, Hq.
  reflexivity.
Qed.

Lemma plain_between (word sep p q : string) :
  Py.contains " " word = false -> word <> EmptyString ->
  Py.contains word sep = false ->
  Py.contains word p = false -> Py.contains word q = false ->
  Py.contains word (p +:+ String " " (sep +:+ String " " q)) = false.
Proof.
  intros Hsp Hne Hsep Hp Hq.
  rewrite contains_app_space, Hp by assumption.
  rewrite contains_app_space, Hsep, Hq by assumption. reflexivity.
Qed.

(** X8. A condition that joins three-token predicates with both words,
    [p1 AND p2 OR p3] or [p1 OR p2 AND p3], is split at [AND] alone; the
    piece that still holds [OR] has seven tokens, so evaluating the
    condition raises on every row and the selection raises whenever the
    relation has a row. *)
Theorem mixed_separators_raise `{PF : PyFloat} (relations : store) (p1 p2 p3 : string) :
  plain_predicate p1 -> plain_predicate p2 -> plain_predicate p3 ->
  List.length (Py.words p1) = 3 ->
  List.length (Py.words p2) = 3 ->
  List.length (Py.words p3) = 3 ->
  Fileread.parse_conditions (p1 +:+ " AND " +:+ p2 +:+ " OR " +:+ p3)
  = [p1; p2 +:+ " OR " +:+ p3]
  /\ Fileread.parse_conditions (p1 +:+ " OR " +:+ p2 +:+ " AND " +:+ p3)
     = [p1 +:+ " OR " +:+ p2; p3]
  /\ forall cond, cond = p1 +:+ " AND " +:+ p2 +:+ " OR " +:+ p3
                  \/ cond = p1 +:+ " OR " +:+ p2 +:+ " AND " +:+ p3 ->
       (forall r, exists e,
           Fileread.evaluate_conditions relations r (Fileread.parse_conditions cond)
           = Raise e)
       /\ forall query rel,
            Fileread.payload query = Ok cond ->
            find_relation relations (Fileread.operand query) = Some rel ->
            data rel <> [] ->
            exists e, Fileread.selection relations query = Raise e.
Proof.
  intros (Hne1 & Hs1 & Ha1 & Ho1) (Hne2 & Hs2 & Ha2 & Ho2) (Hne3 & Hs3 & Ha3 & Ho3)
         Hw1 Hw2 Hw3.
  assert (Hparse1 : Fileread.parse_conditions (p1 +:+ " AND " +:+ p2 +:+ " OR " +:+ p3)
                    = [p1; p2 +:+ " OR " +:+ p3]).
  { change (p1 +:+ " AND " +:+ p2 +:+ " OR " +:+ p3)
      with (p1 +:+ String " " ("AND" +:+ String " " (compound "AND" [p2 +:+ " OR " +:+ p3]))).
    rewrite <- compound_cons. unfold Fileread.parse_conditions.
    rewrite contains_compound by (reflexivity || discriminate).
    apply split_compound; [reflexivity | discriminate |].
    repeat constructor; auto.
    - apply strip_app_fixed; assumption.
    - change (p2 +:+ " OR " +:+ p3) with (p2 +:+ String " " ("OR" +:+ String " " p3)).
      apply plain_between; (reflexivity || discriminate || assumption). }
  assert (Hparse2 : Fileread.parse_conditions (p1 +:+ " OR " +:+ p2 +:+ " AND " +:+ p3)
                    = [p1 +:+ " OR " +:+ p2; p3]).
  { replace (p1 +:+ " OR " +:+ p2 +:+ " AND " +:+ p3)
      with ((p1 +:+ " OR " +:+ p2) +:+ String " " ("AND" +:+ String " " (compound "AND" [p3]))).
    2:{ rewrite !append_assoc. reflexivity. }
    rewrite <- compound_cons. unfold Fileread.parse_conditions.
    rewrite contains_compound by (reflexivity || discriminate).
    apply split_compound; [reflexivity | discriminate |].
    repeat constructor; auto.
    - apply strip_app_fixed; assumption.
    - change (p1 +:+ " OR " +:+ p2) with (p1 +:+ String " " ("OR" +:+ String " " p2)).
      apply plain_between; (reflexivity || discriminate || assumption). }
  assert (H7a : List.length (Py.words (p2 +:+ " OR " +:+ p3)) = 7).
  { apply (words_of_two "OR"); auto. }
  assert (H7b : List.length (Py.words (p1 +:+ " OR " +:+ p2)) = 7).
  { apply (words_of_two "OR"); auto. }
  split; [exact Hparse1|]. split; [exact Hparse2|].
  intros cond Hcond.
  assert (Hraise : forall r, exists e,
             Fileread.evaluate_conditions relations r (Fileread.parse_conditions cond)
             = Raise e).
  { intros r. unfold Fileread.evaluate_conditions.
    destruct Hcond as [-> | ->]; [rewrite Hparse1 | rewrite Hparse2];
      cbn [Fileread.condition_results].
    - assert (Ht1 : Py.truthy p1 = true) by (destruct p1; [congruence | reflexivity]).
      assert (Ht2 : Py.truthy (p2 +:+ " OR " +:+ p3) = true)
        by (destruct p2; [congruence | reflexivity]).
      rewrite Ht1, Ht2.
      destruct (Fileread.evaluate_one relations r p1) as [b|e]; cbn [bind]; [|eauto].
      rewrite evaluate_one_unpack by (rewrite H7a; discriminate). cbn [bind]. eauto.
    - assert (Ht : Py.truthy (p1 +:+ " OR " +:+ p2) = true)
        by (destruct p1; [congruence | reflexivity]).
      rewrite Ht.
      rewrite evaluate_one_unpack by (rewrite H7b; discriminate). cbn [bind]. eauto. }
  split; [exact Hraise|].
  intros query rel Hpay Hfind Hdata. unfold Fileread.selection.
  rewrite Hpay, Hfind. cbn [bind].
  destruct (filterM_raises
              (fun row => Fileread.evaluate_conditions relations row
                            (Fileread.parse_conditions cond)) (data rel))
    as [e ->]; [|simpl; eauto].
  destruct (data rel) as [|r rows]; [congruence|].
  destruct (Hraise r) as [e He]. exists r, e. split; [left; reflexivity | exact He].
Qed.

Lemma mixed_separators_raise_witness :
  Fileread.parse_conditions "salary > '60' AND name = 'Bo' OR id = '1'"
  = ["salary > '60'"; "name = 'Bo' OR id = '1'"]
  /\ exists e, @Fileread.selection IntFloat.model Sample.db
                 "SELE (EMP) {salary > '60' AND name = 'Bo' OR id = '1'}" = Raise e.
Proof.
  assert (Hplain : forall p, In p ["salary > '60'"; "name = 'Bo'"; "id = '1'"] ->
                             plain_predicate p).
  { intros p [<-|[<-|[<-|[]]]]; repeat split; discriminate. }
  destruct (@mixed_separators_raise IntFloat.model Sample.db
              "salary > '60'" "name = 'Bo'" "id = '1'"
              (Hplain _ (or_introl eq_refl))
              (Hplain _ (or_intror (or_introl eq_refl)))
              (Hplain _ (or_intror (or_intror (or_introl eq_refl))))
              eq_refl eq_refl eq_refl)
    as (Hp & _ & Hall).
  split; [exact Hp|].
  destruct (Hall _ (or_introl eq_refl)) as [_ Hsel].
  apply (Hsel "SELE (EMP) {salary > '60' AND name = 'Bo' OR id = '1'}" Sample.EMP);
    [reflexivity | reflexivity | discriminate].
Defined.

Lemma newonetest_selection_unpack `{PF : PyFloat} (relations : store)
    (query cond : string) (rel : relation) :
  Newonetest.payload query = Ok cond ->
  find_relation relations (Newonetest.operand query) = Some rel ->
  List.length (Py.words cond) <> 3 ->
  Newonetest.selection relations query
  = Raise (UnpackError 3 (List.length (Py.words cond))).
Proof.
  intros Hpay Hfind Hlen. unfold Newonetest.selection. rewrite Hpay, Hfind. cbn [bind].
  destruct (Py.words cond) as [|a [|b [|c [|d ws]]]]; try reflexivity.
  simpl in Hlen. congruence.
Qed.

Lemma words_of_compound (sep p : string) (rest : list string) :
  Py.words sep = [sep] ->
  Forall (fun q => List.length (Py.words q) = 3) (p :: rest) ->
  List.length (Py.words (compound sep (p :: rest))) = 3 + 4 * List.length rest.
Proof.
  intros Hsep. revert p; induction rest as [|q rest IH]; intros p Hall.
  - apply Forall_cons in Hall as [Hp _]. exact Hp.
  - apply Forall_cons in Hall as [Hp Hall].
    rewrite compound_cons, words_compound_pair, Hsep, !List.length_app, Hp, (IH q Hall).
    simpl. lia.
Qed.

(** X9. The selection of [newonetest.py] takes one predicate only: when
    the condition joins two or more three-token predicates with [AND] or
    [OR], it raises the unpacking error, with [4n - 1] tokens counted for
    [n] predicates, whatever the rows hold. *)
Theorem newonetest_selection_rejects_compound `{PF : PyFloat} (relations : store)
    (query sep p : string) (rest : list string) (rel : relation) :
  sep = "AND" \/ sep = "OR" ->
  rest <> [] ->
  Forall (fun q => List.length (Py.words q) = 3) (p :: rest) ->
  Newonetest.payload query = Ok (compound sep (p :: rest)) ->
  find_relation relations (Newonetest.operand query) = Some rel ->
  Newonetest.selection relations query
  = Raise (UnpackError 3 (3 + 4 * List.length rest)).
Proof.
  intros Hsep Hrest Hall Hpay Hfind.
  assert (Hw : Py.words sep = [sep]) by (destruct Hsep as [-> | ->]; reflexivity).
  rewrite <- (words_of_compound sep p rest Hw Hall).
  apply (newonetest_selection_unpack relations query _ rel Hpay Hfind).
  rewrite (words_of_compound sep p rest Hw Hall).
  destruct rest; [congruence | simpl; lia].
Qed.

Lemma newonetest_selection_rejects_compound_witness :
  @Newonetest.selection IntFloat.model Sample.db
    "SELE (EMP) {salary > '60' AND name = 'Bo'}"
  = Raise (UnpackError 3 7).
Proof.
  apply (@newonetest_selection_rejects_compound IntFloat.model Sample.db
           "SELE (EMP) {salary > '60' AND name = 'Bo'}" "AND" "salary > '60'"
           ["name = 'Bo'"] Sample.EMP (or_introl eq_refl)).
  - discriminate.
  - repeat constructor.
  - reflexivity.
  - reflexivity.
Defined.

(** ** Projection *)

Lemma mapM_ok {A B} (f : A -> result B) (l : list A) (ys : list B) :
  mapM f l = Ok ys <-> Forall2 (fun x y => f x = Ok y) l ys.
Proof.
  revert ys; induction l as [|x l IH]; intros ys; simpl.
  - split; [intros H; injection H as <-; constructor | intros H; inversion H; reflexivity].
  - split.
    + intros H. apply bind_ok in H as (y & Hy & H). apply bind_ok in H as (r & Hr & H).
      injection H as <-. constructor; [exact Hy | apply IH, Hr].
    + intros H. inversion H as [|? y ? r Hy Hr]; subst.
      rewrite Hy. cbn [bind]. apply IH in Hr. rewrite Hr. reflexivity.
Qed.

Lemma item_ok {A} (l : list A) (i : nat) (x : A) :
  item l i = Ok x <-> nth_error l i = Some x.
Proof.
  unfold item. destruct (nth_error l i); split; intros H; congruence.
Qed.

Lemma col_indices_ok (relation_query : string) (rel_attributes attrs : list string)
    (indices : list nat) :
  Fileread.col_indices relation_query rel_attributes attrs = Ok indices
  <-> Forall2 (fun a i => index_of a rel_attributes = Some i) attrs indices.
Proof.
  revert indices; induction attrs as [|a attrs IH]; intros indices; simpl.
  - split; [intros H; injection H as <-; constructor | intros H; inversion H; reflexivity].
  - split.
    + destruct (index_of a rel_attributes) as [i|] eqn:Ha; [|discriminate].
      intros H. apply bind_ok in H as (r & Hr & H). injection H as <-.
      constructor; [exact Ha | apply IH, Hr].
    + intros H. inversion H as [|? i ? r Hi Hr]; subst.
      rewrite Hi. apply IH in Hr. rewrite Hr. reflexivity.
Qed.

Lemma col_indices_missing (relation_query : string) (rel_attributes known : list string)
    (a : string) (rest : list string) :
  Forall (fun k => index_of k rel_attributes <> None) known ->
  index_of a rel_attributes = None ->
  Fileread.col_indices relation_query rel_attributes (known ++ a :: rest)
  = Raise (ValueError ("Attribute '" +:+ a +:+ "' not found in relation '"
                       +:+ relation_query +:+ "'.")).
Proof.
  intros Hknown Ha. induction Hknown as [|k known Hk _ IH]; simpl.
  - rewrite Ha. reflexivity.
  - destruct (index_of k rel_attributes); [|congruence]. rewrite IH. reflexivity.
Qed.

(** The rows of a projection, once the columns are resolved. *)
Lemma projected_rows_ok (indices : list nat) (data rows : list row) :
  mapM (fun r : row => mapM (fun i => item r i) indices) data = Ok rows
  <-> Forall2 (fun r r' => Forall2 (fun i cell => nth_error r i = Some cell) indices r')
              data rows.
Proof.
  rewrite mapM_ok. split; intros H; (eapply Forall2_impl; [exact H|]);
    intros r r' Hr; simpl in *.
  - apply mapM_ok in Hr. eapply Forall2_impl; [exact Hr|].
    intros i c. apply item_ok.
  - apply mapM_ok. eapply Forall2_impl; [exact Hr|].
    intros i c. apply item_ok.
Qed.

(** What follows the resolution of the source in [projection]. *)
Lemma projection_tail (relation_query : string) (rel_attributes attrs : list string)
    (data res : list row) :
  (let! indices := Fileread.col_indices relation_query rel_attributes attrs in
   let! projected_data :=
     mapM (fun r : row => mapM (fun i => item r i) indices) data in
   Ok (attrs :: projected_data)) = Ok res
  <-> projected rel_attributes data attrs res.
Proof.
  unfold projected. split.
  - intros H. apply bind_ok in H as (indices & Hi & H).
    apply bind_ok in H as (rows & Hr & H). injection H as <-.
    exists indices, rows. split; [apply col_indices_ok in Hi; exact Hi|].
    split; [apply projected_rows_ok, Hr | reflexivity].
  - intros (indices & rows & Hi & Hr & ->).
    apply (col_indices_ok relation_query) in Hi. rewrite Hi. cbn [bind].
    apply projected_rows_ok in Hr. rewrite Hr. reflexivity.
Qed.

Lemma projected_shape (rel_attributes : list string) (data : list row)
    (attrs : list string) (res : list row) :
  projected rel_attributes data attrs res ->
  exists rows,
    res = attrs :: rows
    /\ List.length rows = List.length data
    /\ Forall (fun r' : row => List.length r' = List.length attrs) rows.
Proof.
  intros (indices & rows & Hi & Hr & ->). exists rows. split; [reflexivity|].
  split; [symmetry; exact (Forall2_length _ _ _ Hr)|].
  apply Forall2_length in Hi. clear -Hi Hr.
  induction Hr as [|r r' data rows Hrow _ IH]; constructor; [|exact IH].
  apply Forall2_length in Hrow. congruence.
Qed.

(** X10. For a projection line over one stored relation, the projection
    of [Fileread.py] returns [res] exactly when [res] is the requested
    attribute list, in the order and with the repetitions requested,
    followed by one row per row of the relation that holds, for each
    requested attribute, the cell in the first column of that name. A
    result has as many rows as the relation, each as long as the
    request. *)
Theorem projection_of_relation (relations : store) (query inner : string)
    (rel : relation) :
  Fileread.payload query = Ok inner ->
  Py.contains "*" (Fileread.operand query) = false ->
  find_relation relations (Py.strip (Fileread.operand query)) = Some rel ->
  (forall res,
      Fileread.projection relations query = Ok res
      <-> projected (attributes rel) (data rel) (map Py.strip (Py.split_on "," inner)) res)
  /\ (forall res,
        Fileread.projection relations query = Ok res ->
        exists rows,
          res = map Py.strip (Py.split_on "," inner) :: rows
          /\ List.length rows = List.length (data rel)
          /\ Forall (fun r' : row =>
                       List.length r'
                       = List.length (map Py.strip (Py.split_on "," inner))) rows).
Proof.
  intros Hpay Hstar Hfind.
  assert (Hiff : forall res,
             Fileread.projection relations query = Ok res
             <-> projected (attributes rel) (data rel)
                   (map Py.strip (Py.split_on "," inner)) res).
  { intros res. unfold Fileread.projection.
    rewrite Hpay, Hstar, Hfind. cbn [bind fst snd]. apply projection_tail. }
  split; [exact Hiff|].
  intros res Hres. apply Hiff in Hres. exact (projected_shape _ _ _ _ Hres).
Qed.

Lemma projection_of_relation_witness :
  (forall res,
      Fileread.projection Sample.db "PROJ (EMP) {name, id, name}" = Ok res
      <-> projected (attributes Sample.EMP) (data Sample.EMP) ["name"; "id"; "name"] res)
  /\ (forall res,
        Fileread.projection Sample.db "PROJ (EMP) {name, id, name}" = Ok res ->
        exists rows,
          res = ["name"; "id"; "name"] :: rows
          /\ List.length rows = 2
          /\ Forall (fun r' : row => List.length r' = 3) rows).
Proof.
  exact (projection_of_relation Sample.db "PROJ (EMP) {name, id, name}" "name, id, name"
           Sample.EMP eq_refl eq_refl eq_refl).
Defined.

Example projection_with_repetition :
  Fileread.projection Sample.db "PROJ (EMP) {name, id, name}"
  = Ok [["name"; "id"; "name"]; ["Al"; "1"; "Al"]; ["Bo"; "2"; "Bo"]].
Proof. reflexivity. Qed.

Lemma strip_operand (query : string) :
  Py.strip (Fileread.operand query) = Fileread.operand query.
Proof. unfold Fileread.operand. apply strip_idem. Qed.

(** X11. When the request of a projection names an attribute the stored
    relation lacks, both classes raise the error that names the first such
    attribute and the relation, whatever the rows hold and whatever else
    is requested. *)
Theorem projection_unknown_attribute (relations : store) (query inner : string)
    (rel : relation) (known : list string) (a : string) (rest : list string) :
  Fileread.payload query = Ok inner ->
  Py.contains "*" (Fileread.operand query) = false ->
  find_relation relations (Fileread.operand query) = Some rel ->
  map Py.strip (Py.split_on "," inner) = known ++ a :: rest ->
  Forall (fun k => index_of k (attributes rel) <> None) known ->
  index_of a (attributes rel) = None ->
  Fileread.projection relations query
  = Raise (ValueError ("Attribute '" +:+ a +:+ "' not found in relation '"
                       +:+ Fileread.operand query +:+ "'."))
  /\ Newonetest.projection relations query
     = Raise (ValueError ("Attribute '" +:+ a +:+ "' not found in relation '"
                          +:+ Fileread.operand query +:+ "'.")).
Proof.
  intros Hpay Hstar Hfind Hattrs Hknown Ha. split.
  - unfold Fileread.projection. rewrite Hpay, Hstar, strip_operand, Hfind.
    cbn [bind fst snd]. rewrite Hattrs, (col_indices_missing _ _ _ _ _ Hknown Ha).
    reflexivity.
  - unfold Newonetest.projection.
    change (Newonetest.payload query) with (Fileread.payload query).
    change (Newonetest.operand query) with (Fileread.operand query).
    rewrite Hpay, Hfind. cbn [bind]. rewrite Hattrs.
    change Newonetest.col_indices with Fileread.col_indices.
    rewrite (col_indices_missing _ _ _ _ _ Hknown Ha). reflexivity.
Qed.

Lemma projection_unknown_attribute_witness :
  Fileread.projection Sample.db "PROJ (EMP) {name, dname, zip}"
  = Raise (ValueError "Attribute 'dname' not found in relation 'EMP'.")
  /\ Newonetest.projection Sample.db "PROJ (EMP) {name, dname, zip}"
     = Raise (ValueError "Attribute 'dname' not found in relation 'EMP'.").
Proof.
  apply (projection_unknown_attribute Sample.db "PROJ (EMP) {name, dname, zip}"
           "name, dname, zip" Sample.EMP ["name"] "dname" ["zip"]);
    try reflexivity.
  repeat constructor; discriminate.
Defined.

(** X12. Up to the header row the two projections are one: over a single
    stored relation, [Fileread.py] returns the requested attribute list in
    front of what [newonetest.py] returns, and raises what it raises. *)
Theorem projections_agree (relations : store) (query inner : string) :
  Fileread.payload query = Ok inner ->
  Py.contains "*" (Fileread.operand query) = false ->
  Fileread.projection relations query
  = let! rows := Newonetest.projection relations query in
    Ok (map Py.strip (Py.split_on "," inner) :: rows).
Proof.
  intros Hpay Hstar. unfold Fileread.projection, Newonetest.projection.
  change (Newonetest.payload query) with (Fileread.payload query).
  change (Newonetest.operand query) with (Fileread.operand query).
  change Newonetest.col_indices with Fileread.col_indices.
  rewrite Hpay, Hstar, strip_operand. cbn [bind].
  destruct (find_relation relations (Fileread.operand query)) as [rel|]; [|reflexivity].
  cbn [bind fst snd].
  destruct (Fileread.col_indices _ _ _) as [indices|e]; [|reflexivity]. cbn [bind].
  destruct (mapM _ (data rel)); reflexivity.
Qed.

Lemma projections_agree_witness :
  Fileread.projection Sample.db "PROJ (EMP) {salary, name}"
  = let! rows := Newonetest.projection Sample.db "PROJ (EMP) {salary, name}" in
    Ok (["salary"; "name"] :: rows).
Proof.
  exact (projections_agree Sample.db "PROJ (EMP) {salary, name}" "salary, name"
           eq_refl eq_refl).
Defined.

Lemma index_of_fresh (pre : list string) (a : string) (post : list string) :
  ~ In a pre -> index_of a (pre ++ a :: post) = Some (List.length pre).
Proof.
  induction pre as [|y pre IH]; intros Hpre; simpl.
  - rewrite String.eqb_refl. reflexivity.
  - destruct (String.eqb y a) eqn:Hy.
    + apply String.eqb_eq in Hy. subst y. exfalso. apply Hpre. left. reflexivity.
    + rewrite IH by (intros Hin; apply Hpre; right; exact Hin). reflexivity.
Qed.

Lemma index_of_positions (pre l : list string) :
  NoDup (pre ++ l) ->
  Forall2 (fun a i => index_of a (pre ++ l) = Some i) l
          (seq (List.length pre) (List.length l)).
Proof.
  revert pre; induction l as [|a l IH]; intros pre Hnd; [constructor|].
  simpl. constructor.
  - apply index_of_fresh. apply NoDup_app in Hnd as (_ & Hdisj & _).
    intros Hin%list_elem_of_In. apply (Hdisj a Hin). left.
  - replace (pre ++ a :: l) with ((pre ++ [a]) ++ l) in * by (rewrite <- app_assoc; reflexivity).
    replace (S (List.length pre)) with (List.length (pre ++ [a]))
      by (rewrite List.length_app; simpl; lia).
    apply IH, Hnd.
Qed.

Lemma row_positions (pre r : row) :
  Forall2 (fun i cell => nth_error (pre ++ r) i = Some cell)
          (seq (List.length pre) (List.length r)) r.
Proof.
  revert pre; induction r as [|c r IH]; intros pre; [constructor|].
  simpl. constructor.
  - rewrite nth_error_app2 by lia. rewrite Nat.sub_diag. reflexivity.
  - replace (pre ++ c :: r) with ((pre ++ [c]) ++ r) by (rewrite <- app_assoc; reflexivity).
    replace (S (List.length pre)) with (List.length (pre ++ [c]))
      by (rewrite List.length_app; simpl; lia).
    apply IH.
Qed.

(** X13. Projecting a stored relation onto its own attribute list returns
    the relation, header and rows unchanged, provided no attribute name
    occurs twice in the header and every row has one cell per
    attribute. *)
Theorem projection_onto_all_attributes (relations : store) (query inner : string)
    (rel : relation) :
  Fileread.payload query = Ok inner ->
  Py.contains "*" (Fileread.operand query) = false ->
  find_relation relations (Fileread.operand query) = Some rel ->
  map Py.strip (Py.split_on "," inner) = attributes rel ->
  NoDup (attributes rel) ->
  Forall (fun r : row => List.length r = List.length (attributes rel)) (data rel) ->
  Fileread.projection relations query = Ok (attributes rel :: data rel).
Proof.
  intros Hpay Hstar Hfind Hattrs Hnd Hrows.
  unfold Fileread.projection. rewrite Hpay, Hstar, strip_operand, Hfind.
  cbn [bind fst snd]. rewrite Hattrs. apply projection_tail.
  exists (seq 0 (List.length (attributes rel))), (data rel).
  split; [exact (index_of_positions [] (attributes rel) Hnd)|].
  split; [|reflexivity].
  induction Hrows as [|r data Hr _ IH]; constructor; [|exact IH].
  rewrite <- Hr. exact (row_positions [] r).
Qed.

Lemma projection_onto_all_attributes_witness :
  Fileread.projection Sample.db "PROJ (EMP) {id, name, salary}"
  = Ok (attributes Sample.EMP :: data Sample.EMP).
Proof.
  apply (projection_onto_all_attributes Sample.db "PROJ (EMP) {id, name, salary}"
           "id, name, salary" Sample.EMP); try reflexivity.
  - apply (bool_decide_unpack _). vm_compute. exact I.
  - repeat constructor.
Defined.

(** ** Projection over a cross product *)

Lemma contains_char_last_piece (c : ascii) (s : string) :
  Py.contains (String c EmptyString) (Py.last_piece (Py.split_on (String c EmptyString) s))
  = false.
Proof.
  induction s as [|d s IH]; [reflexivity|].
  rewrite split_on_char_cons.
  pose proof (split_go_nonempty (String c EmptyString) 0 s) as Hne.
  unfold Py.split_on in *.
  destruct (Py.split_go (String c EmptyString) 0 s) as [|p [|q ps]] eqn:Hs; [congruence| |].
  - destruct (Ascii.eqb c d) eqn:Hcd; [exact IH|].
    cbn [Py.cons_hd Py.last_piece List.last]. rewrite contains_char_cons, Hcd. exact IH.
  - destruct (Ascii.eqb c d); exact IH.
Qed.

Lemma contains_char_first_piece (c e : ascii) (s : string) :
  (e = c \/ Py.contains (String e EmptyString) s = false) ->
  Py.contains (String e EmptyString) (Py.first_piece (Py.split_on (String c EmptyString) s))
  = false.
Proof.
  induction s as [|d s IH]; intros He; [reflexivity|].
  rewrite split_on_char_cons. destruct (Ascii.eqb c d) eqn:Hcd; [reflexivity|].
  pose proof (split_go_nonempty (String c EmptyString) 0 s) as Hne.
  unfold Py.split_on in *.
  destruct (Py.split_go (String c EmptyString) 0 s) as [|p ps]; [congruence|].
  cbn [Py.cons_hd Py.first_piece List.hd] in *. rewrite contains_char_cons.
  destruct He as [->|He].
  - rewrite Hcd. apply IH. left. reflexivity.
  - rewrite contains_char_cons in He. apply orb_false_elim in He as [-> He].
    apply IH. right. exact He.
Qed.

Lemma contains_char_lstrip (c : ascii) (s : string) :
  Py.contains (String c EmptyString) s = false ->
  Py.contains (String c EmptyString) (Py.lstrip s) = false.
Proof.
  induction s as [|d s IH]; [reflexivity|]. intros H.
  cbn [Py.lstrip]. destruct (Py.is_space d); [|exact H].
  rewrite contains_char_cons in H. apply orb_false_elim in H as [_ H]. exact (IH H).
Qed.

Lemma contains_char_rstrip (c : ascii) (s : string) :
  Py.contains (String c EmptyString) s = false ->
  Py.contains (String c EmptyString) (Py.rstrip s) = false.
Proof.
  induction s as [|d s IH]; [reflexivity|]. intros H.
  rewrite contains_char_cons in H. apply orb_false_elim in H as [Hd H].
  rewrite rstrip_cons. specialize (IH H).
  destruct (Py.rstrip s).
  - destruct (Py.is_space d); [reflexivity|]. rewrite contains_char_cons, Hd. reflexivity.
  - rewrite contains_char_cons, Hd. exact IH.
Qed.

Lemma contains_char_strip (c : ascii) (s : string) :
  Py.contains (String c EmptyString) s = false ->
  Py.contains (String c EmptyString) (Py.strip s) = false.
Proof. intros H. apply contains_char_lstrip, contains_char_rstrip, H. Qed.

(** The operand text holds no parenthesis, so extracting the operand of
    an operand changes nothing. *)
Lemma operand_idem (query : string) :
  Fileread.operand (Fileread.operand query) = Fileread.operand query.
Proof.
  assert (Hopen : Py.contains "(" (Fileread.operand query) = false).
  { apply contains_char_strip, contains_char_first_piece. right.
    apply contains_char_last_piece. }
  assert (Hclose : Py.contains ")" (Fileread.operand query) = false).
  { apply contains_char_strip, contains_char_first_piece. left. reflexivity. }
  unfold Fileread.operand at 1.
  rewrite (split_on_char_absent _ _ Hopen). cbn [Py.last_piece List.last].
  rewrite (split_on_char_absent _ _ Hclose). cbn [Py.first_piece List.hd].
  apply strip_operand.
Qed.

Lemma split_on_char_found (c : ascii) (s l r : string) :
  Py.split_on (String c EmptyString) s = [l; r] ->
  Py.contains (String c EmptyString) s = true.
Proof.
  intros H. destruct (Py.contains (String c EmptyString) s) eqn:Hc; [reflexivity|].
  rewrite (split_on_char_absent _ _ Hc) in H. discriminate.
Qed.

Lemma index_of_app_left (a : string) (l m : list string) (i : nat) :
  index_of a l = Some i -> index_of a (l ++ m) = Some i.
Proof.
  revert i; induction l as [|y l IH]; intros i H; [discriminate|].
  simpl in *. destruct (String.eqb y a); [exact H|].
  destruct (index_of a l) as [j|]; [|discriminate].
  rewrite (IH j eq_refl). exact H.
Qed.

(** X14. A projection line whose operand names two stored relations [A]
    and [B] around a [*] projects their cross product: it returns [res]
    exactly when [res] is the projection of the relation with attributes
    [A.attrs ++ B.attrs] and the rows of the Cartesian product. An
    attribute name that both relations carry is resolved in [A]. *)
Theorem projection_of_cross_product (relations : store) (query inner l r : string)
    (A B : relation) :
  Fileread.payload query = Ok inner ->
  Py.split_on "*" (Fileread.operand query) = [l; r] ->
  find_relation relations (Py.strip l) = Some A ->
  find_relation relations (Py.strip r) = Some B ->
  (forall res,
      Fileread.projection relations query = Ok res
      <-> projected (attributes A ++ attributes B)
            (flat_map (fun a => map (fun b => a ++ b) (data B)) (data A))
            (map Py.strip (Py.split_on "," inner)) res)
  /\ forall a i, index_of a (attributes A) = Some i ->
                 index_of a (attributes A ++ attributes B) = Some i.
Proof.
  intros Hpay Hsplit HA HB. split; [|intros a i; apply index_of_app_left].
  intros res. unfold Fileread.projection.
  rewrite Hpay, (split_on_char_found _ _ _ _ Hsplit). cbn [bind].
  unfold Fileread.crossproduct, Fileread.get_relation_data.
  rewrite operand_idem, Hsplit, HA, HB. cbn [bind item nth_error tl fst snd].
  apply projection_tail.
Qed.

Lemma projection_of_cross_product_witness :
  (forall res,
      Fileread.projection Sample.db "PROJ (EMP * DEPT) {name, id, dname}" = Ok res
      <-> projected ["id"; "name"; "salary"; "id"; "dname"]
            [["1"; "Al"; "50"; "1"; "Eng"]; ["2"; "Bo"; "90"; "1"; "Eng"]]
            ["name"; "id"; "dname"] res)
  /\ forall a i, index_of a (attributes Sample.EMP) = Some i ->
                 index_of a (attributes Sample.EMP ++ attributes Sample.DEPT) = Some i.
Proof.
  exact (projection_of_cross_product Sample.db "PROJ (EMP * DEPT) {name, id, dname}"
           "name, id, dname" "EMP " " DEPT" Sample.EMP Sample.DEPT
           eq_refl eq_refl eq_refl eq_refl).
Defined.

Example projection_of_cross_product_rows :
  Fileread.projection Sample.db "PROJ (EMP * DEPT) {name, id, dname}"
  = Ok [["name"; "id"; "dname"]; ["Al"; "1"; "Eng"]; ["Bo"; "2"; "Eng"]].
Proof. reflexivity. Qed.

(** ** The selection of [newonetest.py] *)

Lemma filterM_ext {A} (p q : A -> result bool) (l : list A) :
  (forall x, In x l -> p x = q x) -> filterM p l = filterM q l.
Proof.
  induction l as [|x l IH]; intros H; [reflexivity|]. simpl.
  rewrite (H x (or_introl eq_refl)), IH by (intros y Hy; apply H; right; exact Hy).
  reflexivity.
Qed.

(** X15. The selection of [newonetest.py] with a three-token condition is
    the filter the source relation asks for: when it returns, the kept
    rows are rows of the relation in their order, and a row is kept
    exactly when the cell in the column that the attribute has in this
    relation compares true with the literal. It returns as soon as the
    attribute is one of the relation and the comparison raises on no
    row. *)
Theorem newonetest_selection_filters_by_own_column `{PF : PyFloat} (relations : store)
    (query cond attr operator lit : string) (rel : relation) :
  Newonetest.payload query = Ok cond ->
  find_relation relations (Newonetest.operand query) = Some rel ->
  Py.words cond = [attr; operator; lit] ->
  (forall kept,
      Newonetest.selection relations query = Ok kept ->
      sublist kept (data rel)
      /\ forall r, In r kept <->
           In r (data rel)
           /\ row_satisfies rel r attr operator (Py.strip_chars "'" lit))
  /\ (forall i,
        index_of attr (attributes rel) = Some i ->
        (forall r, In r (data rel) ->
           exists cell b,
             nth_error r i = Some cell
             /\ Newonetest.evaluate_condition cell operator (Py.strip_chars "'" lit) = Ok b) ->
        exists kept, Newonetest.selection relations query = Ok kept).
Proof.
  intros Hpay Hfind Hwords. unfold Newonetest.selection.
  rewrite Hpay, Hfind. cbn [bind]. rewrite Hwords. split.
  - intros kept H. destruct (index_of attr (attributes rel)) as [i|] eqn:Hi; [|discriminate].
    apply filterM_ok in H as (Hsub & Hin & _). split; [exact Hsub|].
    intros r. rewrite Hin. unfold row_satisfies. split.
    + intros [Hr Hp]. split; [exact Hr|].
      apply bind_ok in Hp as (cell & Hcell & Hp). apply item_ok in Hcell.
      exists i, cell. auto.
    + intros [Hr (j & cell & Hj & Hcell & Hp)]. split; [exact Hr|].
      rewrite Hi in Hj. injection Hj as <-. apply item_ok in Hcell.
      rewrite Hcell. exact Hp.
  - intros i Hi Hrows. rewrite Hi. apply filterM_returns.
    intros r Hr. destruct (Hrows r Hr) as (cell & b & Hcell & Hb).
    apply item_ok in Hcell. rewrite Hcell. cbn [bind]. eauto.
Qed.

Lemma newonetest_selection_filters_by_own_column_witness :
  (forall kept,
      @Newonetest.selection IntFloat.model Sample.db "SELE (PAY) {id = '7'}" = Ok kept ->
      sublist kept (data Sample.PAY)
      /\ forall r, In r kept <->
           In r (data Sample.PAY)
           /\ @row_satisfies IntFloat.model Sample.PAY r "id" "=" "7")
  /\ (forall i,
        index_of "id" (attributes Sample.PAY) = Some i ->
        (forall r, In r (data Sample.PAY) ->
           exists cell b,
             nth_error r i = Some cell
             /\ @Newonetest.evaluate_condition IntFloat.model cell "=" "7" = Ok b) ->
        exists kept,
          @Newonetest.selection IntFloat.model Sample.db "SELE (PAY) {id = '7'}" = Ok kept).
Proof.
  exact (@newonetest_selection_filters_by_own_column IntFloat.model Sample.db
           "SELE (PAY) {id = '7'}" "id = '7'" "id" "=" "'7'" Sample.PAY
           eq_refl eq_refl eq_refl).
Defined.

(** X16. On a condition of three tokens in which neither [AND] nor [OR]
    occurs, not even inside a token, the two selections agree up to the
    header row whenever [get_attribute_index] answers with the column the
    attribute has in the source relation: [Fileread.py] returns the
    relation's header in front of what [newonetest.py] returns, and
    raises what it raises. *)
Theorem selections_agree `{PF : PyFloat} (relations : store)
    (query cond attr operator lit : string) (rel : relation) (i : nat) :
  Fileread.payload query = Ok cond ->
  find_relation relations (Fileread.operand query) = Some rel ->
  Py.contains "AND" cond = false -> Py.contains "OR" cond = false ->
  Py.words cond = [attr; operator; lit] ->
  index_of attr (attributes rel) = Some i ->
  Fileread.get_attribute_index relations attr = Ok i ->
  Fileread.selection relations query
  = let! rows := Newonetest.selection relations query in Ok (attributes rel :: rows).
Proof.
  intros Hpay Hfind Hand Hor Hwords Hidx Hget.
  unfold Fileread.selection, Newonetest.selection.
  change (Newonetest.payload query) with (Fileread.payload query).
  change (Newonetest.operand query) with (Fileread.operand query).
  rewrite Hpay, Hfind. cbn [bind]. rewrite Hwords, Hidx.
  unfold Fileread.parse_conditions. rewrite Hand, Hor.
  rewrite (filterM_ext _ (fun r : row =>
             let! cell := item r i in
             Newonetest.evaluate_condition cell operator (Py.strip_chars "'" lit))).
  - reflexivity.
  - intros r _. unfold Fileread.evaluate_conditions. cbn [Fileread.condition_results].
    rewrite (words_truthy _ _ _ Hwords). unfold Fileread.evaluate_one.
    rewrite Hwords, Hget. cbn [bind].
    destruct (item r i) as [cell|e]; [|reflexivity]. cbn [bind].
    change (Newonetest.evaluate_condition cell operator (Py.strip_chars "'" lit))
      with (Fileread.evaluate_condition cell operator (Py.strip_chars "'" lit)).
    destruct (Fileread.evaluate_condition _ _ _) as [b|e]; [|reflexivity].
    cbn [bind forallb id]. rewrite andb_true_r. reflexivity.
Qed.

Lemma selections_agree_witness :
  @Fileread.selection IntFloat.model Sample.db "SELE (EMP) {salary > '60'}"
  = let! rows := @Newonetest.selection IntFloat.model Sample.db "SELE (EMP) {salary > '60'}" in
    Ok (attributes Sample.EMP :: rows).
Proof.
  exact (@selections_agree IntFloat.model Sample.db "SELE (EMP) {salary > '60'}"
           "salary > '60'" "salary" ">" "'60'" Sample.EMP 2
           eq_refl eq_refl eq_refl eq_refl eq_refl eq_refl eq_refl).
Defined.

(** With [OR] inside a token the two selections part: [Fileread.py] cuts
    the condition there and raises, [newonetest.py] takes its three
    tokens and keeps the row. *)
Example selections_part_on_separator_word :
  @Fileread.selection IntFloat.model Sample.cast_db "SELE (CAST) {name = 'ORSON'}"
  = Raise (UnpackError 3 1)
  /\ @Newonetest.selection IntFloat.model Sample.cast_db "SELE (CAST) {name = 'ORSON'}"
     = Ok [["2"; "ORSON"]].
Proof. split; reflexivity. Qed.

(** ** More on [execute_query] and [union] of [newonetest.py] *)

Lemma filter_nothing {A} (p : A -> bool) (l : list A) :
  (forall x, In x l -> p x = false) -> List.filter p l = [].
Proof.
  induction l as [|x l IH]; intros H; [reflexivity|]. simpl.
  rewrite (H x (or_introl eq_refl)). apply IH. intros y Hy. apply H. right. exact Hy.
Qed.

Lemma filter_keeps_NoDup {A} (p : A -> bool) (l : list A) :
  NoDup l -> NoDup (List.filter p l).
Proof.
  induction 1 as [|x l Hx Hl IH]; simpl; [constructor|].
  destruct (p x); [|exact IH]. constructor; [|exact IH].
  intros Hin%list_elem_of_In. apply filter_In in Hin as [Hin _].
  apply Hx, list_elem_of_In, Hin.
Qed.

(** X17. When both operand queries evaluate to row lists, the rows of the
    union of [newonetest.py] are the rows of either operand; the result
    has no repeated row when neither operand has one; and the union of
    two operands with the same rows, such as a query with itself, is the
    left result unchanged. *)
Theorem newonetest_union_is_set_union `{PF : PyFloat} (relations : store) (fuel : nat)
    (left_query right_query : string) (left_result right_result : list row) :
  Newonetest.execute_query relations fuel left_query = Some (Ok left_result) ->
  Newonetest.execute_query relations fuel right_query = Some (Ok right_result) ->
  exists res,
    Newonetest.union relations fuel left_query right_query = Some (Ok res)
    /\ (forall r, In r res <-> In r left_result \/ In r right_result)
    /\ (NoDup left_result -> NoDup right_result -> NoDup res)
    /\ (right_result = left_result -> res = left_result).
Proof.
  intros Hl Hr. eexists. split.
  { unfold Newonetest.union, Newonetest.union_with. rewrite Hl, Hr. reflexivity. }
  split; [|split].
  - intros r. rewrite in_app_iff, filter_In, negb_true_iff, <- not_true_iff_false, row_in_spec.
    split; [tauto|]. intros [H|H]; [tauto|].
    destruct (decide (r ∈ left_result)) as [Hin|Hin]; rewrite list_elem_of_In in Hin; tauto.
  - intros Hndl Hndr. apply NoDup_app. split; [exact Hndl|].
    split; [|apply filter_keeps_NoDup, Hndr].
    intros r Hin Hin'%list_elem_of_In. apply filter_In in Hin' as [_ Hnot].
    apply negb_true_iff, not_true_iff_false in Hnot. apply Hnot, row_in_spec.
    apply list_elem_of_In, Hin.
  - intros ->. rewrite filter_nothing; [apply app_nil_r|].
    intros r Hin. apply negb_false_iff, row_in_spec, Hin.
Qed.

Lemma newonetest_union_is_set_union_witness :
  exists res,
    @Newonetest.union IntFloat.model Sample.db 1
      "SELE (LOG) {id = '1'}" "SELE (LOG) {id = '1'}" = Some (Ok res)
    /\ (forall r, In r res <-> In r [["1"]; ["1"]] \/ In r [["1"]; ["1"]])
    /\ (NoDup [["1"]; ["1"]] -> NoDup [["1"]; ["1"]] -> NoDup res)
    /\ ([["1"]; ["1"]] = [["1"]; ["1"]] -> res = [["1"]; ["1"]]).
Proof.
  exact (@newonetest_union_is_set_union IntFloat.model Sample.db 1
           "SELE (LOG) {id = '1'}" "SELE (LOG) {id = '1'}" [["1"]; ["1"]] [["1"]; ["1"]]
           eq_refl eq_refl).
Defined.

(** X18. One pair of parentheses around a query does not change what
    [execute_query] returns, provided the text inside, once stripped, is
    not itself wrapped in parentheses. *)
Theorem execute_query_unwraps_once `{PF : PyFloat} (relations : store) (fuel : nat)
    (query : string) :
  Py.startswith "(" (Py.strip query) && Py.endswith ")" (Py.strip query) = false ->
  Newonetest.execute_query relations (S fuel) ("(" +:+ query +:+ ")")
  = Newonetest.execute_query relations (S fuel) (Py.strip query).
Proof.
  intros Hinner. cbn [Newonetest.execute_query]. rewrite Hinner.
  assert (Hstart : Py.startswith "(" ("(" +:+ query +:+ ")") = true).
  { unfold Py.startswith. change ("(" +:+ query +:+ ")") with (String "(" (query +:+ ")")).
    rewrite prefix_char. reflexivity. }
  assert (Hend : Py.endswith ")" ("(" +:+ query +:+ ")") = true).
  { change ("(" +:+ query +:+ ")") with (String "(" query +:+ ")"). apply endswith_app. }
  assert (Hslice : Py.slice_1_m1 ("(" +:+ query +:+ ")") = query).
  { unfold Py.slice_1_m1. change ("(" +:+ query +:+ ")") with (String "(" (query +:+ ")")).
    cbn [Py.drop_str]. apply drop_last_snoc. }
  rewrite Hstart, Hend, Hslice. reflexivity.
Qed.

Lemma execute_query_unwraps_once_witness :
  @Newonetest.execute_query IntFloat.model Sample.db 1 "( SELE (EMP) {name = 'Bo'} )"
  = @Newonetest.execute_query IntFloat.model Sample.db 1 "SELE (EMP) {name = 'Bo'}".
Proof.
  exact (@execute_query_unwraps_once IntFloat.model Sample.db 0
           " SELE (EMP) {name = 'Bo'} " eq_refl).
Defined.

(** X19. Both recursive evaluators end on every line. A recursion budget
    one above the length of the line is enough for [execute_query] of
    [newonetest.py] and for [evaluate_query] and [difference] of
    [Fileread.py], and a larger budget gives the same result. *)
Theorem evaluators_terminate `{PF : PyFloat} (relations : store) (query : string) :
  (exists res, forall k,
      Newonetest.execute_query relations (S (String.length query) + k) query = Some res)
  /\ (exists v, forall k,
        Fileread.evaluate_query relations (S (String.length query) + k) query = Some v)
  /\ (exists res, forall k,
        Fileread.difference relations (S (String.length query) + k) query = Some res).
Proof.
  split; [|split].
  - destruct (execute_query_enough relations (S (String.length query)) query ltac:(lia))
      as [res Hres].
    exists res. intros k. apply execute_query_mono, Hres.
  - destruct (evaluate_query_with_enough relations
                (Fileread.difference relations (S (String.length query))) query)
      as [v Hv].
    { intros q Hq. apply difference_enough. lia. }
    exists v. intros k. unfold Fileread.evaluate_query.
    apply (evaluate_query_with_mono relations _ _ _ _ (fun q r => difference_mono relations _ k q r) Hv).
  - destruct (difference_enough relations (S (String.length query)) query ltac:(lia))
      as [res Hres].
    exists res. intros k. apply difference_mono, Hres.
Qed.

Lemma split_once_char_absent (c : ascii) (s : string) :
  Py.contains (String c EmptyString) s = false ->
  Py.split_once (String c EmptyString) s = [s].
Proof.
  induction s as [|d s IH]; [reflexivity|].
  rewrite contains_char_cons. intros [Hd Hs]%orb_false_elim.
  cbn [Py.split_once]. rewrite prefix_char, Hd, (IH Hs). reflexivity.
Qed.

Lemma execute_query_unrecognised `{PF : PyFloat} (relations : store) (fuel : nat)
    (query : string) :
  unrecognised query ->
  Newonetest.execute_query relations (S fuel) query = Some (Ok []).
Proof.
  intros (Hwrap & HU & Hminus & Hsele & Hproj & Hx).
  cbn [Newonetest.execute_query]. rewrite Hwrap, HU, Hminus, Hsele, Hproj, Hx.
  reflexivity.
Qed.

Lemma execute_query_step `{PF : PyFloat} (relations : store) (fuel : nat)
    (query : string) :
  Newonetest.execute_query relations (S fuel) query
  = let query :=
      if Py.startswith "(" query && Py.endswith ")" query
      then Py.strip (Py.slice_1_m1 query) else query in
    if Py.contains "U" query then
      match Newonetest.parse_union_query query with
      | Raise e => Some (Raise e)
      | Ok (left_query, right_query) =>
          Newonetest.union_with (Newonetest.execute_query relations fuel)
            left_query right_query
      end
    else if Py.contains "-" query then
      match Newonetest.parse_difference_query query with
      | Raise e => Some (Raise e)
      | Ok _ => Some (Raise (TypeError "difference"))
      end
    else if Py.startswith "SELE" query then Some (Newonetest.selection relations query)
    else if Py.startswith "PROJ" query then Some (Newonetest.projection relations query)
    else if Py.startswith "X" query then Some (Raise (AttributeError "crossproduct"))
    else Some (Ok []).
Proof. reflexivity. Qed.

(** X20. [execute_query] of [newonetest.py] never looks up a bare relation
    name: a line that is two such names around a [U], like the union of
    two stored relations, evaluates to the empty list whatever is
    stored. *)
Theorem newonetest_union_of_names_is_empty `{PF : PyFloat} (relations : store)
    (fuel : nat) (query l r : string) :
  Py.startswith "(" query && Py.endswith ")" query = false ->
  Py.split_once "U" query = [l; r] ->
  unrecognised (Py.strip l) ->
  unrecognised (Py.strip r) ->
  Newonetest.execute_query relations (S (S fuel)) query = Some (Ok []).
Proof.
  intros Hwrap Hsplit Hl Hr.
  assert (HU : Py.contains "U" query = true).
  { destruct (Py.contains "U" query) eqn:HU; [reflexivity|].
    rewrite (split_once_char_absent _ _ HU) in Hsplit. discriminate. }
  rewrite execute_query_step. cbv zeta. rewrite Hwrap, HU.
  unfold Newonetest.parse_union_query, Newonetest.split_pair. rewrite Hsplit.
  unfold Newonetest.union_with.
  rewrite (execute_query_unrecognised relations fuel _ Hl).
  rewrite (execute_query_unrecognised relations fuel _ Hr). reflexivity.
Qed.

Lemma newonetest_union_of_names_is_empty_witness :
  @Newonetest.execute_query IntFloat.model Sample.db 2 "EMP U EMP" = Some (Ok []).
Proof.
  apply (@newonetest_union_of_names_is_empty IntFloat.model Sample.db 0 "EMP U EMP"
           "EMP " " EMP" eq_refl eq_refl); repeat split.
Defined.

(** ** The method [difference] of [newonetest.py] *)

(** X21. Called with a query whose two sides evaluate to the same rows,
    as the difference of a relation with itself does, [difference] of
    [newonetest.py] takes the first row for the header and returns it
    alone; when there is no row it raises [IndexError]. *)
Theorem newonetest_difference_of_same_rows `{PF : PyFloat} (relations : store)
    (fuel : nat) (query l r : string) (rows : list row) :
  Py.split_on "-" query = [l; r] ->
  Newonetest.process_single_query relations fuel (Py.strip l) = Some (Ok (Rows rows)) ->
  Newonetest.process_single_query relations fuel (Py.strip r) = Some (Ok (Rows rows)) ->
  Newonetest.difference relations (S fuel) query
  = Some (match rows with
          | [] => Raise IndexError
          | first :: _ => Ok (Rows [first])
          end).
Proof.
  intros Hsplit Hl Hr. cbn [Newonetest.difference]. rewrite Hsplit.
  unfold Newonetest.process_single_query in Hl, Hr. rewrite Hl, Hr.
  unfold Newonetest.difference_of. destruct rows as [|first rest]; [reflexivity|].
  cbn [item nth_error bind tl]. rewrite bool_decide_eq_true_2 by reflexivity.
  rewrite difference_diag_L, elements_empty. reflexivity.
Qed.

Lemma newonetest_difference_of_same_rows_witness :
  @Newonetest.difference IntFloat.model Sample.db 1
    "SELE (EMP) {salary > '0'} - SELE (EMP) {salary > '0'}"
  = Some (Ok (Rows [["1"; "Al"; "50"]])).
Proof.
  exact (@newonetest_difference_of_same_rows IntFloat.model Sample.db 0
           "SELE (EMP) {salary > '0'} - SELE (EMP) {salary > '0'}"
           "SELE (EMP) {salary > '0'} " " SELE (EMP) {salary > '0'}"
           (data Sample.EMP) eq_refl eq_refl eq_refl).
Defined.

(** ** The report *)

(** X22. The report never holds the text of an error: whatever the
    results, the rows written are those written when every error entry is
    replaced by a [None] result, the query line and an empty row. *)
Theorem report_omits_error_text (results : list (string * outcome)) :
  report results
  = report (map (fun entry =>
                   (fst entry,
                    match snd entry with
                    | ErrorText _ => Value PyNone
                    | kept => kept
                    end)) results)
  /\ forall query e, report_entry (query, ErrorText e) = [[query]; []].
Proof.
  split; [|reflexivity]. unfold report.
  induction results as [|[query o] results IH]; [reflexivity|].
  simpl. rewrite IH. destruct o as [[|rows]|e]; reflexivity.
Qed.

(** ** Operands with a further separator *)

Lemma split_on_char_count (c : ascii) (s : string) :
  List.length (Py.split_on (String c EmptyString) s) = S (count_char c s).
Proof.
  induction s as [|d s IH]; [reflexivity|].
  rewrite split_on_char_cons. cbn [count_char]. rewrite (Ascii.eqb_sym d c).
  destruct (Ascii.eqb c d).
  - simpl. rewrite IH. reflexivity.
  - pose proof (split_go_nonempty (String c EmptyString) 0 s) as Hne.
    destruct (cons_hd_length d _ Hne) as [Hlen _]. unfold Py.split_on in *.
    rewrite Hlen, IH. reflexivity.
Qed.

(** X23. A union is carried out only when its operand text holds exactly
    one [U], and a cross product only when it holds exactly one [*]:
    otherwise the query raises the arity error before any relation is
    looked up. No relation whose name holds a [U] can be an operand of a
    union. *)
Theorem operand_needs_one_separator (relations : store) (query : string) :
  (count_char "U" (Fileread.operand query) <> 1 ->
   Fileread.union relations query
   = Raise (ValueError "Union requires exactly two relations."))
  /\ (count_char "*" (Fileread.operand query) <> 1 ->
      Fileread.crossproduct relations query
      = Raise (ValueError "Cross product requires exactly two relations.")).
Proof.
  split; intros Hcount.
  - unfold Fileread.union.
    pose proof (split_on_char_count "U" (Fileread.operand query)) as Hlen.
    destruct (Py.split_on "U" (Fileread.operand query)) as [|a [|b [|c ws]]];
      try reflexivity.
    simpl in Hlen. congruence.
  - unfold Fileread.crossproduct.
    pose proof (split_on_char_count "*" (Fileread.operand query)) as Hlen.
    destruct (Py.split_on "*" (Fileread.operand query)) as [|a [|b [|c ws]]];
      try reflexivity.
    simpl in Hlen. congruence.
Qed.

Lemma operand_needs_one_separator_witness :
  Fileread.union [("USERS", Sample.EMP); ("ADMINS", Sample.EMP)] "U (USERS U ADMINS)"
  = Raise (ValueError "Union requires exactly two relations.")
  /\ Fileread.crossproduct Sample.db "X (EMP)"
     = Raise (ValueError "Cross product requires exactly two relations.").
Proof.
  split.
  - apply (operand_needs_one_separator [("USERS", Sample.EMP); ("ADMINS", Sample.EMP)]
             "U (USERS U ADMINS)"). discriminate.
  - apply (operand_needs_one_separator Sample.db "X (EMP)"). discriminate.
Defined.

(** ** Operators without a method *)

(** X24. [Fileread.py] has no method for the join, the natural join and
    the two logical operators it dispatches to: every line that begins
    with [JOIN], [*], [,] or [OR] is recorded with an attribute error,
    whatever follows. In [newonetest.py] a line that begins with [JOIN]
    and holds neither [U] nor [-] evaluates to the empty list. *)
Theorem operators_without_method `{PF : PyFloat} (relations : store) (fuel : nat)
    (rest : string) :
  Fileread.run_query relations fuel ("JOIN" +:+ rest) = Some (Raise (AttributeError "join"))
  /\ Fileread.run_query relations fuel ("*" +:+ rest)
     = Some (Raise (AttributeError "naturaljoin"))
  /\ Fileread.run_query relations fuel ("," +:+ rest) = Some (Raise (AttributeError "AND"))
  /\ Fileread.run_query relations fuel ("OR" +:+ rest) = Some (Raise (AttributeError "OR"))
  /\ (Py.contains "U" rest = false -> Py.contains "-" rest = false ->
      Newonetest.execute_query relations (S fuel) ("JOIN" +:+ rest) = Some (Ok [])).
Proof.
  repeat split.
  - unfold Fileread.run_query, Py.startswith.
    change ("JOIN" +:+ rest) with (String "J" (String "O" (String "I" (String "N" rest)))).
    cbn. destruct rest; reflexivity.
  - unfold Fileread.run_query, Py.startswith.
    change ("*" +:+ rest) with (String "*" rest). cbn. destruct rest; reflexivity.
  - unfold Fileread.run_query, Py.startswith.
    change ("," +:+ rest) with (String "," rest). cbn. destruct rest; reflexivity.
  - unfold Fileread.run_query, Py.startswith.
    change ("OR" +:+ rest) with (String "O" (String "R" rest)). cbn.
    destruct rest; reflexivity.
  - intros HU Hminus. rewrite execute_query_step.
    change ("JOIN" +:+ rest) with (String "J" (String "O" (String "I" (String "N" rest)))).
    change (Py.startswith "(" (String "J" (String "O" (String "I" (String "N" rest))))
            && Py.endswith ")" (String "J" (String "O" (String "I" (String "N" rest)))))
      with false.
    cbv beta zeta iota.
    assert (Hc : forall c, Py.contains (String c EmptyString)
                             (String "J" (String "O" (String "I" (String "N" rest))))
                           = Ascii.eqb c "J" || (Ascii.eqb c "O" || (Ascii.eqb c "I"
                             || (Ascii.eqb c "N" || Py.contains (String c EmptyString) rest)))).
    { intros c. rewrite !contains_char_cons. reflexivity. }
    rewrite (Hc "U"%char), (Hc "-"%char), HU, Hminus. reflexivity.
Qed.

Lemma operators_without_method_witness :
  @Fileread.run_query IntFloat.model Sample.db 1 "JOIN (EMP, DEPT)"
  = Some (Raise (AttributeError "join"))
  /\ @Newonetest.execute_query IntFloat.model Sample.db 1 "JOIN (EMP, DEPT)" = Some (Ok []).
Proof.
  destruct (@operators_without_method IntFloat.model Sample.db 0 " (EMP, DEPT)")
    as (_ & _ & _ & _ & Hn).
  split; [|exact (Hn eq_refl eq_refl)].
  exact (proj1 (@operators_without_method IntFloat.model Sample.db 1 " (EMP, DEPT)")).
Defined.

(** ** Relations and attributes that are not there *)

(** X25. A query that names a relation the store lacks raises the error
    that names it: the selection and the projection of both classes once
    the braces are read, and the cross product and the union of
    [Fileread.py] for the left operand first, then for the right. *)
Theorem unknown_relation_raises `{PF : PyFloat} (relations : store) (query : string) :
  (forall inner,
      Fileread.payload query = Ok inner ->
      find_relation relations (Fileread.operand query) = None ->
      Fileread.selection relations query
      = Raise (ValueError ("Relation '" +:+ Fileread.operand query +:+ "' not found."))
      /\ Newonetest.selection relations query
         = Raise (ValueError ("Relation '" +:+ Fileread.operand query +:+ "' not found."))
      /\ Newonetest.projection relations query
         = Raise (ValueError ("Relation '" +:+ Fileread.operand query +:+ "' not found."))
      /\ (Py.contains "*" (Fileread.operand query) = false ->
          Fileread.projection relations query
          = Raise (ValueError ("Relation '" +:+ Fileread.operand query +:+ "' not found."))))
  /\ (forall l r,
        Py.split_on "*" (Fileread.operand query) = [l; r] ->
        (find_relation relations (Py.strip l) = None ->
         Fileread.crossproduct relations query
         = Raise (ValueError ("Relation '" +:+ Py.strip l +:+ "' not found.")))
        /\ (forall A, find_relation relations (Py.strip l) = Some A ->
                      find_relation relations (Py.strip r) = None ->
                      Fileread.crossproduct relations query
                      = Raise (ValueError ("Relation '" +:+ Py.strip r +:+ "' not found."))))
  /\ (forall l r,
        Py.split_on "U" (Fileread.operand query) = [l; r] ->
        (find_relation relations (Py.strip l) = None ->
         Fileread.union relations query
         = Raise (ValueError ("Relation '" +:+ Py.strip l +:+ "' not found.")))
        /\ (forall A, find_relation relations (Py.strip l) = Some A ->
                      find_relation relations (Py.strip r) = None ->
                      Fileread.union relations query
                      = Raise (ValueError ("Relation '" +:+ Py.strip r +:+ "' not found.")))).
Proof.
  split; [|split].
  - intros inner Hpay Hfind.
    unfold Fileread.selection, Newonetest.selection, Newonetest.projection,
      Fileread.projection.
    change (Newonetest.payload query) with (Fileread.payload query).
    change (Newonetest.operand query) with (Fileread.operand query).
    rewrite Hpay, Hfind. cbn [bind]. repeat split.
    intros ->. rewrite strip_operand, Hfind. reflexivity.
  - intros l r Hsplit. unfold Fileread.crossproduct, Fileread.get_relation_data.
    rewrite Hsplit. split; [intros -> | intros A -> ->]; reflexivity.
  - intros l r Hsplit. unfold Fileread.union, Fileread.get_relation_data.
    rewrite Hsplit. split; [intros -> | intros A -> ->]; reflexivity.
Qed.

Lemma unknown_relation_raises_witness :
  @Fileread.selection IntFloat.model Sample.db "SELE (GHOST) {x = 'y'}"
  = Raise (ValueError "Relation 'GHOST' not found.")
  /\ Fileread.crossproduct Sample.db "X (EMP * GHOST)"
     = Raise (ValueError "Relation 'GHOST' not found.")
  /\ Fileread.union Sample.db "U (GHOST U GONE)"
     = Raise (ValueError "Relation 'GHOST' not found.").
Proof.
  split; [|split].
  - destruct (@unknown_relation_raises IntFloat.model Sample.db "SELE (GHOST) {x = 'y'}")
      as [Hsel _].
    exact (proj1 (Hsel "x = 'y'" eq_refl eq_refl)).
  - destruct (@unknown_relation_raises IntFloat.model Sample.db "X (EMP * GHOST)")
      as (_ & Hcross & _).
    exact (proj2 (Hcross "EMP " " GHOST" eq_refl) Sample.EMP eq_refl eq_refl).
  - destruct (@unknown_relation_raises IntFloat.model Sample.db "U (GHOST U GONE)")
      as (_ & _ & Hunion).
    exact (proj1 (Hunion "GHOST " " GONE" eq_refl) eq_refl).
Defined.

(** X26. [get_attribute_index] of [Fileread.py] returns [i] exactly when
    [i] is the position of the attribute in the first stored relation
    that has it, and raises exactly when no stored relation has it. The
    relation a selection reads plays no part. *)
Theorem get_attribute_index_is_global (relations : store) (attr : string) :
  (forall i,
      Fileread.get_attribute_index relations attr = Ok i
      <-> exists before name rel after,
            relations = before ++ (name, rel) :: after
            /\ Forall (fun entry => index_of attr (attributes (snd entry)) = None) before
            /\ index_of attr (attributes rel) = Some i)
  /\ (forall e,
        Fileread.get_attribute_index relations attr = Raise e
        <-> e = ValueError ("Attribute '" +:+ attr +:+ "' not found in any relation.")
            /\ Forall (fun entry => index_of attr (attributes (snd entry)) = None) relations).
Proof.
  unfold Fileread.get_attribute_index. split.
  - intros i. split.
    + induction relations as [|[n rel] rest IH]; simpl; [discriminate|].
      destruct (index_of attr (attributes rel)) as [j|] eqn:Hj.
      * intros H. injection H as <-. exists [], n, rel, rest. auto.
      * intros H. destruct (IH H) as (before & name & rel' & after & -> & Hb & Hi).
        exists ((n, rel) :: before), name, rel', after.
        split; [reflexivity|]. split; [constructor; assumption | exact Hi].
    + intros (before & name & rel & after & -> & Hb & Hi).
      exact (get_attribute_index_first before name attr rel after i Hb Hi).
  - intros e. split.
    + induction relations as [|[n rel] rest IH]; simpl.
      * intros H. injection H as <-. split; [reflexivity | constructor].
      * destruct (index_of attr (attributes rel)) eqn:Hj; [discriminate|].
        intros H. destruct (IH H) as [-> Hall]. split; [reflexivity|].
        constructor; assumption.
    + intros [-> Hall]. induction Hall as [|[n rel] rest Hn _ IH]; simpl; [reflexivity|].
      simpl in Hn. rewrite Hn. exact IH.
Qed.
